(* ===== verification/_CoqProject ===== *)
-Q . S2P
Prelude.v
PyStr.v
Registry.v
Imaging.v
Raster.v
Annotate.v
Handler.v
Http.v
Concurrency.v
StreamlitUI.v
