(* ===== verification/Prelude.v ===== *)
(** * A verification library for the YOLO image-annotation API

    The repository is a FastAPI service ([src/backend/main.py]) with a
    Streamlit front end ([src/streamlit/app.py]).  The service keeps one
    piece of process-wide state, the loaded detector and the name of its
    model ([currentModel], [detector], lines 29-31), which two handlers
    read and write:
    - [mudar_modelo] (lines 33-40) swaps the detector when a different
      model name is requested;
    - [processar_imagem] (lines 42-120) swaps the detector the same way,
      reads and decodes the upload, runs the detector, parses the three
      colour strings, pads the image with a border, and for every box
      whose confidence reaches the threshold draws an outline, a
      semi-transparent label plate and the label text, then encodes the
      canvas as JPEG.
    The front end (app.py) collects the style parameters with sliders,
    posts the upload and shows the returned image.

    This file, the root of the development, holds what the components
    share: the result type of code that can raise a Python exception
    (an stdpp monad, so that [x ← c; k] reads like the Python
    statements it models), the outcome of a handler (its return value,
    422 for a parameter FastAPI refuses, 500 for an exception), the
    rounding of OpenCV's [saturate_cast] and of Python's ["{:.2f}"]
    (round half to even), the saturation of a value to a byte, their
    lemmas, a hint database [yolo] and the tactics the components use.

    The development, one file per component, in this order:
    - [PyStr], Module [PyString]: the Python string operations the
      handler relies on, on code points below 256: [str.split(",")]
      ([py_split]), [int(str)] ([py_int]: the whitespace CPython strips,
      signs, underscores and the limit of 4300 digits), [str.isspace]
      ([py_isspace]), the colour parse of lines 71-73 ([parse_color]) and
      the label f-string of line 87 ([format_2f], [label_text]).
      Theorems: every non-empty list of integers printed with commas
      parses back, of any length, unless an entry exceeds the digit limit
      ([parse_color_roundtrip]); the two-decimal label reads back within
      1/200 of the confidence; a blank field raises [ValueError].
    - [Registry], Module [Registry]: [modelFiles], the two globals as a
      [globals] record (with a load counter that makes a reload
      observable), [mudar_modelo] (lines 33-40) and the swap of lines
      58-60 ([swap_model]).  The [enum] of the [Query] parameters only
      documents the schema: FastAPI does not check it, so any name reaches
      the handlers.  Theorems: the invariant [globals_wf] (the current
      name is known and the detector holds its weights) in every state of
      the inductive [reachable]; re-selection is a no-op, another known
      name reloads, an unknown name raises [KeyError] and leaves the
      globals unchanged.
    - [Imaging], Module [Imaging]: images as lists of rows of BGR pixels;
      [cvtColor_RGB2BGR], [copyMakeBorder], the filled rectangle
      [fill_rect], [addWeighted], and the binding's conversions of the
      arguments: a Python [int] to a C [int] ([c_int], [int_arg]: out of
      range fails overload resolution), a tuple to a [cv::Scalar]
      ([to_scalar], [color_arg]: at most four entries, missing ones 0,
      entries beyond the range of a double raise [SystemError], values
      saturated when painted).  [same_shape] is an [Equivalence]
      instance.  Theorems: the border keeps the source at an offset of
      the thickness and paints the frame; it succeeds exactly for a
      thickness in [0, INT_MAX] and a colour of at most four
      doubles; a negative thickness raises; the plate blend is confined to
      its rectangle for any weights summing to 1 within 1/1024, replaces
      at opacity 1 and is the identity at opacity 0.
    - [Raster]: the class [Raster] of the three drawing calls the model
      does not rasterise ([cv2.rectangle] outline, [cv2.putText],
      [cv2.getTextSize]) and [RasterLaws], what the pipeline needs of
      them; [ThinRaster] is an instance used to run the model.
    - [Annotate], Module [Annotate]: the detection loop (lines 82-114) as
      [annotate_box], [annotate_boxes], [annotate_results], for any
      [Raster], with the checks of [getTextSize] and [putText] on the
      text thickness (a C [int], and [putText] asserts it is not
      negative).  Theorems: the loop renders, in order and for exactly
      the kept boxes, outline, then plate, then text
      ([annotate_results_draws]); a kept box issues them at the shifted
      coordinates; every command is drawn in bordered-image coordinates
      for a kept box (the invariant of spec section 3); with no kept box
      the canvas is unchanged; a too long background colour raises
      exactly when a box is kept, and names the exception.
    - [Handler], Module [Handler]: the request record with the query
      defaults, the class [Backend] of the external calls (PIL decoding,
      YOLO inference and names, JPEG encoding), [annotated] (lines
      62-114), [encode_reply] (116-120) and [processar_imagem] (42-120).
      Theorems: the state a request leaves (switched even when the rest
      fails), the answer's size, the BGR use of an "R,G,B" colour, a
      200 JSON body on encode failure, and the causes of every exception
      ([annotated_Raise_cause]).  The class [BackendLaws] states what the
      pipeline needs of the collaborators: decoded RGB images hold bytes,
      detections name known classes.
    - [Http], Module [Http]: the application of lines 10-18 with the
      route decorators of lines 16, 33 and 42: the routes FastAPI
      registers (its documentation pages with [GET] and [HEAD], then the
      three handlers), Starlette's router ([route_of], with 405 and the
      trailing-slash redirect), the statuses and JSON bodies of the
      handlers' outcomes ([json_object], as [json.dumps] writes them),
      [serve] for one request and [serve_all] for a sequence.  Theorems:
      only the two [POST] routes change the globals; an unknown model name
      gets 500, not 422, at both endpoints; a model switch without a model
      name switches to [yolov8n].
    - [Concurrency], Module [Concurrency]: the two async handlers as
      segments between awaits (the only one is line 63), a [server] of
      globals and requests in flight, [exec_event] for one segment and the
      inductive [server_reachable].  The await suspends only when
      Starlette spooled the upload to disk, above [spool_max_size] (1 MiB);
      a smaller upload is read from memory and its request runs in one
      segment.  Theorems: a finished request with an in-memory upload was
      detected with its own model's weights in every interleaving; an
      interleaving exists where a request with a larger upload is
      detected with another request's model (the hazard of spec section
      5); the registry invariant holds in every interleaving, every
      request finishes in at most two of its segments and no interleaving
      runs forever (lemmas).
    - [StreamlitUI], Module [StreamlitUI]: one run of the script
      ([page_run], lines 10-49) with the server up or down, the request
      of lines 32-42 sent through [Http.serve], and the response handling
      of lines 44-49.  Theorems: end to end, a click with an RGB upload
      runs the whole pipeline through the router and shows what the
      encoder produced (for any backend satisfying [BackendLaws]); the
      page's requests name known models; a run changes the server only
      on a click with a file; a 200 JSON error crashes the page; the
      banner asking whether the API runs is shown only when it does.

    Not modelled: the uvicorn entry point (lines 122-123), pure I/O;
    the title, description and version of the application (lines
    11-13), and the content of the documentation pages FastAPI
    generates; the pixels of the thick outline and of the anti-aliased
    Hershey glyphs, and the extent [cv2.getTextSize] computes from the
    glyph tables (OpenCV library code and font data outside the
    repository; the [Raster] laws state what the pipeline needs of
    them); allocation failures of OpenCV for borders too large for
    memory; [YOLO(path)] is taken to load its weights (a failed download
    is library behaviour the code does not handle); PIL's codecs, the
    network and the JPEG encoder (the [Backend] class: every theorem
    holds for every backend); FastAPI's parsing of the query string into
    floats and ints (values arrive typed) and the content of its 422
    body; Streamlit's rendering and the spinner of app.py line 30.  The
    library behaviour modelled is that of CPython 3.11 or later (the
    digit limit of [int()]), OpenCV 4 with its Python binding and the
    FastAPI and Starlette versions whose routing and spooling are
    described above.

    No fuel bounds a theorem: the only fuelled function is the decimal
    printer [digits_acc], whose fuel [digits_fuel n] is one more than
    the binary logarithm of [n], so [n < 10 ^ digits_fuel n]
    ([digits_fuel_enough]) and the printer always finishes its digits.
    Loops over boxes are structural.

    Numbers.  Python floats (confidences, box coordinates, scale and
    opacity) are modelled as exact rationals [Q]; the code's rounding
    points (Python's [int()] on a float, OpenCV's [saturate_cast] and the
    [.2f] format) are written out on them.  The blend weights [opacity]
    and [1 - opacity] are floats whose sum is 1 only up to rounding; the
    theorems on the blend assume the sum is within 1/1024 of 1, not
    equal to it.  Pixel channels are [Z] kept in [0, 255] by saturation,
    as OpenCV's 8-bit images are; Python integers are unbounded [Z], with
    the C [int] and [double] ranges checked where the binding converts
    them. *)

From stdpp Require Export base list strings gmap.
From Stdlib Require Export ZArith QArith Qabs Ascii Lia.

Local Open Scope Z_scope.

(** ** Python exceptions and the result of code that can raise *)

(** The exceptions the modelled code can raise.  [CvError] is
    [cv2.error], raised by a failed OpenCV assertion or by the binding's
    overload resolution when no overload accepts the arguments; its
    argument names the failed check.  [OverflowError] is raised by a
    conversion of a Python [int] too large for the C type; [SystemError]
    is what CPython raises when an extension function returns a result
    while an exception is pending (the binding of a [cv::Scalar] leaves
    the [OverflowError] of [PyFloat_AsDouble] pending and lets the call
    run). *)
Inductive exc :=
| ValueError
| KeyError
| OverflowError
| SystemError
| CvError (what : string)
| UnidentifiedImageError
| ConnectionError.

Inductive res (A : Type) : Type :=
| Ok (a : A)
| Raise (e : exc).
Arguments Ok {A} a.
Arguments Raise {A} e.

(** How a FastAPI endpoint ends: the request failed the framework's
    validation (status 422, the handler body does not run: a missing
    upload, a query value of the wrong type), the handler returned a
    value (status 200), or it raised (status 500).  In each
    case the process-wide state the handler wrote before ending stays
    written. *)
Inductive outcome (A : Type) : Type :=
| Unprocessable
| Returned (a : A)
| Failed (e : exc).
Arguments Unprocessable {A}.
Arguments Returned {A} a.
Arguments Failed {A} e.

#[export] Instance res_ret : MRet res := λ A a, Ok a.
#[export] Instance res_bind : MBind res :=
  λ A B f r, match r with Ok a => f a | Raise e => Raise e end.
#[export] Instance res_fmap : FMap res :=
  λ A B f r, match r with Ok a => Ok (f a) | Raise e => Raise e end.

(** [of_option e o] raises [e] where a Python lookup would. *)
Definition of_option {A} (e : exc) (o : option A) : res A :=
  match o with Some a => Ok a | None => Raise e end.

Declare Scope yolo_scope.
Delimit Scope yolo_scope with yolo.
Notation "'raise' e" := (Raise e) (at level 10) : yolo_scope.
Open Scope yolo_scope.

Section res_lemmas.
Context {A B : Type}.

Lemma bind_Ok (a : A) (f : A → res B) : (Ok a ≫= f) = f a.
Proof. reflexivity. Qed.

Lemma bind_Raise e (f : A → res B) : (Raise e ≫= f) = Raise e.
Proof. reflexivity. Qed.

Lemma fmap_Ok (a : A) (f : A → B) : f <$> Ok a = Ok (f a).
Proof. reflexivity. Qed.

Lemma fmap_Raise e (f : A → B) : f <$> (Raise e : res A) = Raise e.
Proof. reflexivity. Qed.

Lemma bind_Ok_inv (r : res A) (f : A → res B) b :
  (r ≫= f) = Ok b → ∃ a, r = Ok a ∧ f a = Ok b.
Proof. destruct r; simpl; [eauto | discriminate]. Qed.

Lemma fmap_Ok_inv (r : res A) (f : A → B) b :
  f <$> r = Ok b → ∃ a, r = Ok a ∧ b = f a.
Proof. destruct r; simpl; [intros [= <-]; eauto | discriminate]. Qed.
(** Converting printed values back, with a check that can refuse
    some of them: the first refused one decides the exception. *)
Lemma mapM_res_fmap_check (f : A → res B) (g : B → A) (P : B → bool) e (l : list B) :
  (∀ x, f (g x) = if P x then Ok x else Raise e) →
  mapM f (g <$> l) = if forallb P l then Ok l else Raise e.
Proof.
  intros Hfg. induction l as [|x l IH]; [done|].
  rewrite fmap_cons. cbn [mapM forallb]. rewrite Hfg.
  destruct (P x); simpl; [|done]. rewrite IH. by destruct (forallb P l).
Qed.

Lemma mapM_res_Ok_length (f : A → res B) (l : list A) k :
  mapM f l = Ok k → length k = length l.
Proof.
  revert k; induction l as [|x l IH]; intros k; simpl; [by intros [= <-]|].
  destruct (f x); simpl; [|discriminate].
  destruct (mapM f l) eqn:E; simpl; [|discriminate]. intros [= <-]. simpl; f_equal; auto.
Qed.

Lemma mapM_res_Ok_inv (f : A → res B) (l : list A) k :
  mapM f l = Ok k → Forall2 (λ x y, f x = Ok y) l k.
Proof.
  revert k; induction l as [|x l IH]; intros k; simpl; [intros [= <-]; constructor|].
  destruct (f x) eqn:Ef; simpl; [|discriminate].
  destruct (mapM f l) eqn:E; simpl; [|discriminate]. intros [= <-]. constructor; auto.
Qed.

(** The first element whose conversion raises decides the exception. *)
Lemma mapM_res_Raise (f : A → res B) l1 x l2 e :
  Forall (λ y, ∃ b, f y = Ok b) l1 → f x = Raise e → mapM f (l1 ++ x :: l2) = Raise e.
Proof.
  intros Hl Hx. induction Hl as [|y l1 [b Hb] _ IH]; simpl; [by rewrite Hx|].
  rewrite Hb; simpl. by rewrite IH.
Qed.
End res_lemmas.

(** ** Rounding half to even

    [cvRound] (used by [saturate_cast<uchar>] on a floating value) and
    Python's fixed-point formatting both round to the nearest integer,
    ties to even.  On [q = n / d] with [d > 0]: [n / d] is the floor and
    [n mod d] the remainder that decides. *)
Definition round_half_even (q : Q) : Z :=
  let n := Qnum q in
  let d := Zpos (Qden q) in
  let f := n / d in
  match Z.compare (2 * (n mod d)) d with
  | Lt => f
  | Gt => f + 1
  | Eq => if Z.even f then f else f + 1
  end.

(** The defining property of a rounding of [n / d] to [z]: at most half
    away, and even on a tie. *)
Definition is_round (n d z : Z) : Prop :=
  2 * Z.abs (n - z * d) < d ∨ (2 * Z.abs (n - z * d) = d ∧ Z.even z = true).

(** [saturate_cast<uchar>] on an integer. *)
Definition saturate_u8 (z : Z) : Z := Z.max 0 (Z.min 255 z).

Definition is_u8 (z : Z) : Prop := 0 <= z <= 255.

Create HintDb yolo discriminated.
Create Rewrite HintDb yolo_rw.
#[export] Hint Rewrite @bind_Ok @bind_Raise @fmap_Ok @fmap_Raise : yolo_rw.

(** Invert a hypothesis and clean up. *)
Ltac invc H := inversion H; subst; clear H.

(** Simplify binds of the result monad in the goal and hypotheses. *)
Ltac res_simpl :=
  repeat match goal with
  | H : (_ ≫= _) = Ok _ |- _ =>
      let a := fresh "a" in let Ha := fresh "Ha" in
      apply bind_Ok_inv in H as (a & Ha & H)
  | H : _ <$> _ = Ok _ |- _ =>
      let a := fresh "a" in let Ha := fresh "Ha" in
      apply fmap_Ok_inv in H as (a & Ha & H)
  | H : Ok _ = Ok _ |- _ => injection H as H
  | H : Raise _ = Ok _ |- _ => discriminate H
  | H : Ok _ = Raise _ |- _ => discriminate H
  end; autorewrite with yolo_rw in *.

Section rounding.

Lemma round_half_even_is_round q :
  is_round (Qnum q) (Zpos (Qden q)) (round_half_even q).
Proof.
  destruct q as [n d]; unfold round_half_even, is_round; simpl.
  pose proof (Z.div_mod n (Zpos d) ltac:(lia)) as Hdm.
  pose proof (Z.mod_pos_bound n (Zpos d) ltac:(lia)) as Hb.
  set (f := n / Zpos d) in *; set (r := n mod Zpos d) in *.
  destruct (Z.compare_spec (2 * r) (Zpos d)) as [H|H|H].
  - destruct (Z.even f) eqn:E.
    + right; split; [|done]. rewrite Z.abs_eq; nia.
    + right; split; [rewrite Z.abs_neq; nia|].
      rewrite Z.even_add, E; reflexivity.
  - left. rewrite Z.abs_eq; nia.
  - left. rewrite Z.abs_neq; nia.
Qed.

Lemma is_round_unique n d z1 z2 :
  0 < d → is_round n d z1 → is_round n d z2 → z1 = z2.
Proof.
  intros Hd H1 H2.
  assert (Hle : Z.abs (z1 - z2) <= 1).
  { destruct H1 as [H1|[H1 _]], H2 as [H2|[H2 _]];
      apply Z.abs_le; split; nia. }
  destruct (Z.eq_dec z1 z2) as [|Hne]; [done|].
  assert (Hadj : z2 = z1 + 1 ∨ z2 = z1 - 1) by lia.
  destruct H1 as [H1|[H1 E1]], H2 as [H2|[H2 E2]];
    try (exfalso; destruct Hadj; subst; nia).
  exfalso; destruct Hadj; subst z2;
    [rewrite Z.even_add in E2 | rewrite Z.even_sub in E2];
    rewrite E1 in E2; discriminate.
Qed.

Lemma is_round_Qeq n1 d1 n2 d2 z :
  0 < d1 → 0 < d2 → n1 * d2 = n2 * d1 →
  is_round n1 d1 z → is_round n2 d2 z.
Proof.
  intros H1 H2 Heq [H|[H E]]; [left|right; split; [|done]].
  - assert (Hm : Z.abs (n2 - z * d2) * d1 = Z.abs (n1 - z * d1) * d2).
    { rewrite <- (Z.abs_eq d1), <- (Z.abs_eq d2) at 2 by lia.
      rewrite <- !Z.abs_mul. f_equal. nia. }
    nia.
  - assert (Hm : Z.abs (n2 - z * d2) * d1 = Z.abs (n1 - z * d1) * d2).
    { rewrite <- (Z.abs_eq d1), <- (Z.abs_eq d2) at 2 by lia.
      rewrite <- !Z.abs_mul. f_equal. nia. }
    nia.
Qed.

(** Rounding depends on the rational number, not on its fraction. *)
#[export] Instance round_half_even_proper :
  Proper (Qeq ==> eq) round_half_even.
Proof.
  intros [n1 d1] [n2 d2] Heq; unfold Qeq in Heq; simpl in Heq.
  pose proof (round_half_even_is_round (n1 # d1)) as R1.
  pose proof (round_half_even_is_round (n2 # d2)) as R2. simpl in R1, R2.
  apply (is_round_unique n2 (Zpos d2)); [lia| |exact R2].
  exact (is_round_Qeq n1 (Zpos d1) n2 (Zpos d2) _ ltac:(lia) ltac:(lia) Heq R1).
Qed.

Lemma round_half_even_Z z : round_half_even (inject_Z z) = z.
Proof.
  unfold round_half_even; simpl. rewrite Z.div_1_r, Z.mod_1_r. reflexivity.
Qed.

(** Rounding is monotone with respect to integers: an integer bound
    of [q] is a bound of its rounding. *)
Lemma round_half_even_lower (z : Z) q :
  (inject_Z z <= q)%Q → z <= round_half_even q.
Proof.
  destruct q as [n d]; unfold Qle; simpl; intros H.
  pose proof (round_half_even_is_round (n # d)) as R; unfold is_round in R; simpl in R.
  set (r := round_half_even (n # d)) in *.
  destruct (Z.abs_spec (n - r * Zpos d)) as [[? E]|[? E]]; rewrite E in R;
    destruct R as [R|[R _]]; nia.
Qed.

Lemma round_half_even_upper (z : Z) q :
  (q <= inject_Z z)%Q → round_half_even q <= z.
Proof.
  destruct q as [n d]; unfold Qle; simpl; intros H.
  pose proof (round_half_even_is_round (n # d)) as R; unfold is_round in R; simpl in R.
  set (r := round_half_even (n # d)) in *.
  destruct (Z.abs_spec (n - r * Zpos d)) as [[? E]|[? E]]; rewrite E in R;
    destruct R as [R|[R _]]; nia.
Qed.

(** Rounding moves a value by at most one half. *)
Lemma round_half_even_close q :
  (Qabs (q - inject_Z (round_half_even q)) <= 1 # 2)%Q.
Proof.
  pose proof (round_half_even_is_round q) as R; unfold is_round in R.
  destruct q as [n d]; simpl in R.
  set (r := round_half_even (n # d)) in *.
  unfold Qabs, Qminus, Qplus, Qopp, Qle; simpl.
  replace (n * 1 + - r * Z.pos d) with (n - r * Z.pos d) by lia.
  destruct R as [R|[R _]]; nia.
Qed.

Lemma saturate_u8_range z : is_u8 (saturate_u8 z).
Proof. unfold is_u8, saturate_u8; lia. Qed.

Lemma saturate_u8_id z : is_u8 z → saturate_u8 z = z.
Proof. unfold is_u8, saturate_u8; lia. Qed.

End rounding.

#[export] Hint Resolve saturate_u8_range : yolo.
#[export] Hint Rewrite round_half_even_Z : yolo_rw.

(** ** Lists updated by index *)

(** Replacing the [i]-th element changes a weighted sum by the
    difference of the two weights. *)
Lemma sum_list_with_insert {A} (f : A → nat) (l : list A) i x y :
  l !! i = Some y → (sum_list_with f (<[i := x]> l) + f y = sum_list_with f l + f x)%nat.
Proof.
  revert i. induction l as [|z l IH]; intros [|i] Hi; simpl in *; try discriminate.
  - injection Hi as ->. lia.
  - specialize (IH i Hi). lia.
Qed.
