(* ===== verification/PyStr.v ===== *)
(** * Python string operations of the handler

    [processar_imagem] turns each colour query parameter into a tuple
    with [tuple(map(int, s.split(",")))] (main.py lines 71-73) and
    builds each label with the f-string [f"{name} {conf:.2f}"] (line 87).
    This file models the three Python operations involved on strings of
    code points below 256 (the characters of [ascii]): [str.split] with a
    one-character separator, [int()] on a string (surrounding whitespace,
    an optional sign, decimal digits with single underscores between
    them, at most 4300 digits) and the fixed-point format [".2f"] (round
    half to even on the exact value).  Its theorems are the round trips
    print/parse of integers and of colour tuples, the error cases of
    [int()], and the precision of the confidence label. *)

From S2P Require Import Prelude.
From Stdlib Require Import Lqa.

Local Open Scope Z_scope.

Module PyString.

(** stdpp makes [String.append] opaque to [simpl]; the proofs below
    compute with it. *)
#[local] Arguments String.append : simpl nomatch.

(** ** [str.split(sep)] and [sep.join(parts)] *)

(** [split_on sep s cur] splits [s], [cur] being the part of the
    current piece already read.  Python keeps empty pieces:
    [",".split(",") = ["", ""]] and ["".split(",") = [""]]. *)
Fixpoint split_on (sep : ascii) (s : string) (cur : string) : list string :=
  match s with
  | EmptyString => [cur]
  | String c s' =>
      if Ascii.eqb c sep then cur :: split_on sep s' EmptyString
      else split_on sep s' (cur ++ String c EmptyString)%string
  end.

Definition py_split (sep : ascii) (s : string) : list string :=
  split_on sep s EmptyString.

Fixpoint py_join (sep : ascii) (parts : list string) : string :=
  match parts with
  | [] => EmptyString
  | [p] => p
  | p :: ps => (p ++ String sep (py_join sep ps))%string
  end.

(** [has_char c s]: the character [c] occurs in [s]. *)
Fixpoint has_char (c : ascii) (s : string) : bool :=
  match s with
  | EmptyString => false
  | String c' s' => Ascii.eqb c' c || has_char c s'
  end.

(** ** [int(s)] *)

(** The characters [str.isspace] accepts below 256: tab, line feed,
    vertical tab, form feed, carriage return, the four separators
    0x1c-0x1f, space, next line (0x85) and no-break space (0xa0). *)
Definition py_isspace (c : ascii) : bool :=
  let n := nat_of_ascii c in
  ((9 <=? n) && (n <=? 13))%nat || ((28 <=? n) && (n <=? 32))%nat ||
  (n =? 133)%nat || (n =? 160)%nat.

(** The characters [int()] strips on both sides.  CPython's
    [PyLong_FromUnicodeObject] first maps every non-ASCII whitespace
    character to a space ([_PyUnicode_TransformDecimalAndSpaceToASCII])
    and then skips the [Py_ISSPACE] characters, the six ASCII ones: the
    separators 0x1c-0x1f are whitespace for [str.isspace] but not for
    [int()]. *)
Definition int_isspace (c : ascii) : bool :=
  let n := nat_of_ascii c in
  ((9 <=? n) && (n <=? 13))%nat || (n =? 32)%nat || (n =? 133)%nat || (n =? 160)%nat.

Fixpoint lstrip (s : string) : string :=
  match s with
  | EmptyString => EmptyString
  | String c s' => if int_isspace c then lstrip s' else s
  end.

Fixpoint rstrip (s : string) : string :=
  match s with
  | EmptyString => EmptyString
  | String c s' =>
      match rstrip s' with
      | EmptyString => if int_isspace c then EmptyString else String c EmptyString
      | r => String c r
      end
  end.

Definition digit_value (c : ascii) : option Z :=
  let n := nat_of_ascii c in
  if ((48 <=? n) && (n <=? 57))%nat then Some (Z.of_nat n - 48) else None.
Arguments digit_value : simpl never.

(** Digits read left to right into [acc]; an underscore must sit
    between two digits. *)
Fixpoint digits_from (s : string) (acc : Z) : option Z :=
  match s with
  | EmptyString => Some acc
  | String c s' =>
      match digit_value c with
      | Some d => digits_from s' (10 * acc + d)
      | None =>
          if Ascii.eqb c "_" then
            match s' with
            | String c' s'' =>
                match digit_value c' with
                | Some d => digits_from s'' (10 * acc + d)
                | None => None
                end
            | EmptyString => None
            end
          else None
      end
  end.

Definition parse_unsigned (s : string) : option Z :=
  match s with
  | EmptyString => None
  | String c _ => match digit_value c with Some _ => digits_from s 0 | None => None end
  end.

Definition parse_signed (s : string) : option Z :=
  match s with
  | String c r =>
      if Ascii.eqb c "+" then parse_unsigned r
      else if Ascii.eqb c "-" then Z.opp <$> parse_unsigned r
      else parse_unsigned s
  | EmptyString => None
  end.

(** [sys.int_info.default_max_str_digits]: CPython's [int()] refuses a
    decimal literal of more digits, underscores and sign not counted and
    leading zeros counted (the limit of CPython 3.11 and of the security
    releases 3.7.14-3.10.7, unless changed by [sys.set_int_max_str_digits]). *)
Definition max_str_digits : nat := 4300.

Fixpoint count_digits (s : string) : nat :=
  match s with
  | EmptyString => 0
  | String c s' => match digit_value c with Some _ => S (count_digits s') | None => count_digits s' end
  end.

(** [int(s)] for a string [s]; a malformed string, or one of more than
    [max_str_digits] digits, raises [ValueError]. *)
Definition py_int (s : string) : res Z :=
  let t := rstrip (lstrip s) in
  match parse_signed t with
  | Some z => if (count_digits t <=? max_str_digits)%nat then Ok z else Raise ValueError
  | None => Raise ValueError
  end.

(** [tuple(map(int, s.split(",")))] of lines 71-73: the pieces are
    converted left to right and the first malformed one raises. *)
Definition parse_color (s : string) : res (list Z) :=
  mapM py_int (py_split "," s).

(** ** [str(n)] and the fixed-point format *)

Definition digit_char (d : Z) : ascii := ascii_of_nat (48 + Z.to_nat d).
Arguments digit_char : simpl never.

(** [digits_acc fuel n acc] prepends the decimal digits of [n] to
    [acc], least significant digit first; [fuel] bounds the number of
    digits. *)
Fixpoint digits_acc (fuel : nat) (n : Z) (acc : string) : string :=
  match fuel with
  | O => acc
  | S f =>
      let acc' := String (digit_char (n mod 10)) acc in
      if n <? 10 then acc' else digits_acc f (n / 10) acc'
  end.

(** The fuel: one more than the number of bits, which is at least the
    number of decimal digits. *)
Definition digits_fuel (n : Z) : nat := S (Z.to_nat (Z.log2 n)).

(** [str(n)] for [n >= 0], and for any integer. *)
Definition str_of_nonneg (n : Z) : string := digits_acc (digits_fuel n) n EmptyString.

Definition str_of_Z (z : Z) : string :=
  if z <? 0 then String "-" (str_of_nonneg (- z)) else str_of_nonneg z.

(** ["{:.2f}".format(q)]: the exact value times 100, rounded half to
    even, printed with two decimals; a negative value gets a ["-"] even
    when it rounds to zero (Python prints [-0.001] as ["-0.00"]). *)
Definition format_2f (q : Q) : string :=
  let n := round_half_even (Qabs q * inject_Z 100) in
  let sign := if Qlt_le_dec q 0 then "-"%string else EmptyString in
  (sign ++ str_of_nonneg (n / 100) ++
   String "." (String (digit_char (n mod 100 / 10))
                      (String (digit_char (n mod 10)) EmptyString)))%string.

(** The label of line 87, [f"{name} {conf:.2f}"]. *)
Definition label_text (name : string) (conf : Q) : string :=
  (name ++ " " ++ format_2f conf)%string.

(** [all_digits s]: every character of [s] is a decimal digit. *)
Fixpoint all_digits (s : string) : bool :=
  match s with
  | EmptyString => true
  | String c s' => match digit_value c with Some _ => all_digits s' | None => false end
  end.

(** A reader of the fixed-point rendering, the inverse of [format_2f]:
    ["[-]digits.dd"] to the rational it denotes. *)
Definition parse_fixed2_unsigned (s : string) : option Q :=
  match py_split "." s with
  | [ip; fp] =>
      if (String.length fp =? 2)%nat then
        i ← parse_unsigned ip; f ← parse_unsigned fp; Some (inject_Z i + (f # 100))%Q
      else None
  | _ => None
  end.

Definition parse_fixed2 (s : string) : option Q :=
  match s with
  | String c r => if Ascii.eqb c "-" then Qopp <$> parse_fixed2_unsigned r
                  else parse_fixed2_unsigned s
  | EmptyString => None
  end.

(** [all_space s]: [s] is empty or made of whitespace only. *)
Fixpoint all_space (s : string) : bool :=
  match s with
  | EmptyString => true
  | String c s' => py_isspace c && all_space s'
  end.

(** ** Lemmas on strings *)

Lemma str_app_assoc (a b c : string) : (a ++ b ++ c)%string = ((a ++ b) ++ c)%string.
Proof. induction a as [|x a IH]; simpl; [done|by rewrite IH]. Qed.

Lemma str_app_nil_r (a : string) : (a ++ EmptyString)%string = a.
Proof. induction a as [|x a IH]; simpl; [done|by rewrite IH]. Qed.

Lemma split_on_app sep p r cur :
  has_char sep p = false →
  split_on sep (p ++ r) cur = split_on sep r (cur ++ p).
Proof.
  revert cur; induction p as [|c p IH]; intros cur Hp; simpl in *.
  - by rewrite str_app_nil_r.
  - apply orb_false_iff in Hp as [Hc Hp]. rewrite Hc, IH by done.
    by rewrite <- str_app_assoc.
Qed.

Lemma digit_value_char d : 0 <= d < 10 → digit_value (digit_char d) = Some d.
Proof.
  intros Hd. unfold digit_value, digit_char.
  rewrite nat_ascii_embedding by lia.
  replace ((48 <=? 48 + Z.to_nat d) && (48 + Z.to_nat d <=? 57))%nat with true
    by (symmetry; apply andb_true_iff; split; apply Nat.leb_le; lia).
  f_equal; lia.
Qed.

Lemma digit_value_range c d : digit_value c = Some d → 0 <= d < 10.
Proof.
  unfold digit_value. destruct (_ && _)%nat eqn:E; [|discriminate].
  intros [= <-]. apply andb_true_iff in E as [E1 E2].
  apply Nat.leb_le in E1, E2. lia.
Qed.

(** A digit is neither whitespace nor a separator of the parsers. *)
Lemma digit_not_special c d :
  digit_value c = Some d →
  int_isspace c = false ∧ Ascii.eqb c "," = false ∧ Ascii.eqb c "." = false ∧
  Ascii.eqb c "-" = false ∧ Ascii.eqb c "+" = false.
Proof.
  unfold digit_value, int_isspace. destruct (_ && _)%nat eqn:E; [|discriminate].
  intros _. apply andb_true_iff in E as [E1 E2]. apply Nat.leb_le in E1, E2.
  assert (Hne : ∀ c', (nat_of_ascii c' < 48)%nat → Ascii.eqb c c' = false).
  { intros c' Hc'. apply Ascii.eqb_neq. intros ->. lia. }
  split; [|split_and!; apply Hne; vm_compute; lia].
  repeat apply orb_false_intro;
    first [apply andb_false_iff; right; apply Nat.leb_gt; lia | apply Nat.eqb_neq; lia].
Qed.

Lemma all_digits_no_char s c :
  all_digits s = true → (c = ","%char ∨ c = "."%char) → has_char c s = false.
Proof.
  induction s as [|c' s IH]; simpl; [done|].
  destruct (digit_value c') eqn:E; [|discriminate]. intros Hs Hc.
  apply digit_not_special in E as (_ & E1 & E2 & _).
  rewrite IH by done. destruct Hc as [->| ->]; by rewrite ?E1, ?E2.
Qed.

Lemma all_digits_lstrip s :
  all_digits s = true → lstrip s = s.
Proof.
  destruct s as [|c s]; simpl; [done|].
  destruct (digit_value c) eqn:E; [|discriminate].
  apply digit_not_special in E as (-> & _). done.
Qed.

Lemma all_digits_rstrip s : all_digits s = true → rstrip s = s.
Proof.
  induction s as [|c s IH]; simpl; [done|].
  destruct (digit_value c) eqn:E; [|discriminate]. intros Hs.
  rewrite IH by done. apply digit_not_special in E as (Hsp & _).
  destruct s; [by rewrite Hsp|done].
Qed.

#[export] Hint Resolve digit_value_char : yolo.

(** ** [str] and [int] *)

Lemma digits_acc_app f n acc :
  digits_acc f n acc = (digits_acc f n EmptyString ++ acc)%string.
Proof.
  revert n acc; induction f as [|f IH]; intros n acc; simpl; [done|].
  destruct (n <? 10); [done|].
  rewrite (IH _ (String _ acc)), (IH _ (String _ EmptyString)).
  by rewrite <- str_app_assoc.
Qed.

Lemma all_digits_app a b :
  all_digits (a ++ b) = all_digits a && all_digits b.
Proof.
  induction a as [|c a IH]; simpl; [done|]. by destruct (digit_value c).
Qed.

Lemma all_digits_digits_acc f n acc :
  0 <= n → all_digits (digits_acc f n acc) = all_digits acc.
Proof.
  revert n acc; induction f as [|f IH]; intros n acc Hn; [done|].
  cbn [digits_acc].
  assert (Hd : all_digits (String (digit_char (n mod 10)) acc) = all_digits acc).
  { cbn [all_digits]. rewrite digit_value_char; [done|apply Z.mod_pos_bound; lia]. }
  destruct (n <? 10); [exact Hd|]. rewrite IH, Hd; [done|]. apply Z.div_pos; lia.
Qed.

Lemma str_length_app (a b : string) :
  String.length (a ++ b) = (String.length a + String.length b)%nat.
Proof. induction a as [|x a IH]; simpl; [done|by rewrite IH]. Qed.

(** The digits of [n], read back, give [n] whatever follows them. *)
Lemma digits_acc_value f n rest a :
  0 <= n < 10 ^ Z.of_nat f →
  digits_from (digits_acc f n rest) a =
  digits_from rest (a * 10 ^ Z.of_nat (String.length (digits_acc f n EmptyString)) + n).
Proof.
  revert n rest a; induction f as [|f IH]; intros n rest a Hn.
  - cbn in Hn |- *. replace n with 0 by lia. f_equal; lia.
  - pose proof (Z.mod_pos_bound n 10 ltac:(lia)) as Hm.
    pose proof (Z.div_mod n 10 ltac:(lia)) as Hdm.
    cbn [digits_acc].
    destruct (Z.ltb_spec n 10).
    + cbn [digits_from String.length]. rewrite digit_value_char by done. f_equal.
      rewrite Z.mod_small; lia.
    + rewrite Nat2Z.inj_succ, Z.pow_succ_r in Hn by lia.
      rewrite IH by (split; [apply Z.div_pos|apply Z.div_lt_upper_bound]; lia).
      cbn [digits_from]. rewrite digit_value_char by done.
      rewrite (digits_acc_app f (n / 10) (String _ EmptyString)), str_length_app.
      f_equal. cbn [String.length]. rewrite Nat2Z.inj_add, Z.pow_add_r by lia. nia.
Qed.


Lemma digits_fuel_enough n : 0 <= n → n < 10 ^ Z.of_nat (digits_fuel n).
Proof.
  intros Hn. unfold digits_fuel. rewrite Nat2Z.inj_succ, Z2Nat.id by apply Z.log2_nonneg.
  destruct (Z.eq_dec n 0) as [->|Hne]; [reflexivity|].
  pose proof (Z.log2_spec n ltac:(lia)) as [_ H].
  eapply Z.lt_le_trans; [exact H|].
  apply Z.pow_le_mono_l; lia.
Qed.

Lemma str_of_nonneg_digits n :
  0 <= n → all_digits (str_of_nonneg n) = true ∧ str_of_nonneg n ≠ EmptyString.
Proof.
  intros Hn. unfold str_of_nonneg, digits_fuel. cbn [digits_acc].
  pose proof (Z.mod_pos_bound n 10 ltac:(lia)).
  assert (Hd : all_digits (String (digit_char (n mod 10)) EmptyString) = true)
    by (cbn [all_digits]; by rewrite digit_value_char).
  destruct (n <? 10); [done|].
  rewrite digits_acc_app, all_digits_app, all_digits_digits_acc, Hd
    by (apply Z.div_pos; lia).
  split; [done|]. by destruct (digits_acc _ _ _).
Qed.

Lemma parse_unsigned_str n : 0 <= n → parse_unsigned (str_of_nonneg n) = Some n.
Proof.
  intros Hn. pose proof (str_of_nonneg_digits n Hn) as [Hd Hne].
  pose proof (digits_acc_value (digits_fuel n) n EmptyString 0
                (conj Hn (digits_fuel_enough n Hn))) as Hv.
  unfold str_of_nonneg in *. destruct (digits_acc _ n EmptyString) as [|c s]; [done|].
  cbn [all_digits parse_unsigned] in Hd |- *.
  destruct (digit_value c); [|discriminate]. rewrite Hv. done.
Qed.

Lemma lstrip_cons c s : int_isspace c = false → lstrip (String c s) = String c s.
Proof. intros H. cbn [lstrip]. by rewrite H. Qed.

Lemma rstrip_cons c s : rstrip s ≠ EmptyString → rstrip (String c s) = String c (rstrip s).
Proof. intros H. simpl. by destruct (rstrip s). Qed.

Lemma parse_signed_digits s :
  all_digits s = true → s ≠ EmptyString → parse_signed s = parse_unsigned s.
Proof.
  destruct s as [|c s]; [done|]. cbn [all_digits parse_signed].
  destruct (digit_value c) eqn:E; [|discriminate]. intros _ _.
  apply digit_not_special in E as (_ & _ & _ & -> & ->). done.
Qed.

Lemma str_of_Z_no_sep z c :
  (c = ","%char ∨ c = "."%char) → has_char c (str_of_Z z) = false.
Proof.
  intros Hc. unfold str_of_Z. destruct (Z.ltb_spec z 0).
  - pose proof (str_of_nonneg_digits (- z) ltac:(lia)) as [Hd _].
    cbn [has_char]. rewrite all_digits_no_char by done.
    destruct Hc as [-> | ->]; reflexivity.
  - pose proof (str_of_nonneg_digits z ltac:(lia)) as [Hd _].
    by apply all_digits_no_char.
Qed.

(** *** Round trips *)

(** Splitting a joined list on a separator none of the pieces
    contains gives the pieces back. *)
Lemma split_join sep ps :
  ps ≠ [] → Forall (λ p, has_char sep p = false) ps →
  py_split sep (py_join sep ps) = ps.
Proof.
  intros Hne Hps. unfold py_split.
  induction Hps as [|p ps Hp Hps IH]; [done|].
  destruct ps as [|p' ps].
  - cbn [py_join]. rewrite <- (str_app_nil_r p) at 1.
    rewrite split_on_app by done. done.
  - cbn [py_join]. rewrite split_on_app by done.
    cbn [split_on]. rewrite Ascii.eqb_refl. f_equal. by apply IH.
Qed.

(** [str(z)] has no surrounding whitespace and reads back to [z]. *)
Lemma str_of_Z_stripped z :
  rstrip (lstrip (str_of_Z z)) = str_of_Z z ∧ parse_signed (str_of_Z z) = Some z.
Proof.
  unfold str_of_Z. destruct (Z.ltb_spec z 0).
  - pose proof (str_of_nonneg_digits (- z) ltac:(lia)) as [Hd Hne].
    rewrite lstrip_cons by reflexivity.
    rewrite rstrip_cons; rewrite all_digits_rstrip by done; [|done].
    split; [done|]. cbn [parse_signed]. rewrite parse_unsigned_str by lia.
    cbn. f_equal; lia.
  - pose proof (str_of_nonneg_digits z ltac:(lia)) as [Hd Hne].
    rewrite all_digits_lstrip, all_digits_rstrip, parse_signed_digits by done.
    split; [done|]. by rewrite parse_unsigned_str.
Qed.

Lemma count_digits_all s : all_digits s = true → count_digits s = String.length s.
Proof.
  induction s as [|c s IH]; cbn [all_digits count_digits String.length]; [done|].
  destruct (digit_value c); [intros; f_equal; auto|discriminate].
Qed.

Lemma digits_acc_S f n acc :
  digits_acc (S f) n acc =
  if n <? 10 then String (digit_char (n mod 10)) acc
  else digits_acc f (n / 10) (String (digit_char (n mod 10)) acc).
Proof. reflexivity. Qed.

(** The number of digits [str] prints: [L] digits for a number in
    [[10 ^ (L - 1), 10 ^ L)], one for 0. *)
Lemma digits_acc_length f n :
  0 <= n < 10 ^ Z.of_nat (S f) →
  let L := Z.of_nat (String.length (digits_acc (S f) n EmptyString)) in
  1 <= L ∧ n < 10 ^ L ∧ (1 <= n → 10 ^ (L - 1) <= n) ∧ (n < 10 → L = 1).
Proof.
  revert n; induction f as [|f IH]; intros n Hn; rewrite digits_acc_S.
  - destruct (Z.ltb_spec n 10); cbn in Hn |- *; lia.
  - destruct (Z.ltb_spec n 10).
    + cbn -[Z.pow]. lia.
    + rewrite Nat2Z.inj_succ, Z.pow_succ_r in Hn by lia.
      assert (Hq : 0 <= n / 10 < 10 ^ Z.of_nat (S f))
        by (split; [apply Z.div_pos|apply Z.div_lt_upper_bound]; lia).
      rewrite digits_acc_app, str_length_app. cbn [String.length].
      destruct (IH (n / 10) Hq) as (H1 & H2 & H3 & _). cbv zeta in *.
      set (L := Z.of_nat (String.length (digits_acc (S f) (n / 10) EmptyString))) in *.
      pose proof (Z.div_mod n 10 ltac:(lia)). pose proof (Z.mod_pos_bound n 10 ltac:(lia)).
      assert (Hq1 : 1 <= n / 10) by (apply Z.div_le_lower_bound; lia).
      specialize (H3 Hq1).
      rewrite Nat2Z.inj_add. change (Z.of_nat 1) with 1. fold L.
      replace (L + 1 - 1) with L by lia.
      assert (HL : 10 ^ L = 10 * 10 ^ Z.pred L) by (rewrite <- Z.pow_succ_r, Z.succ_pred; lia).
      rewrite Z.pow_add_r, Z.pow_1_r by lia. split_and!; nia.
Qed.

(** [int()] accepts [str(z)] exactly when [z] has at most
    [max_str_digits] digits. *)
Lemma count_digits_str_of_Z z :
  (count_digits (str_of_Z z) <=? max_str_digits)%nat = (Z.abs z <? 10 ^ Z.of_nat max_str_digits).
Proof.
  set (n := Z.abs z).
  assert (Hc : count_digits (str_of_Z z) = String.length (str_of_nonneg n)).
  { unfold str_of_Z, n. destruct (Z.ltb_spec z 0).
    - cbn [count_digits]. replace (digit_value "-") with (@None Z) by reflexivity.
      rewrite Z.abs_neq by lia. apply count_digits_all, (str_of_nonneg_digits (- z)). lia.
    - rewrite Z.abs_eq by lia. apply count_digits_all, str_of_nonneg_digits; lia. }
  rewrite Hc. unfold str_of_nonneg.
  destruct (digits_acc_length (Z.to_nat (Z.log2 n)) n) as (H1 & H2 & H3 & H4);
    [split; [apply Z.abs_nonneg|apply digits_fuel_enough, Z.abs_nonneg]|].
  cbv zeta in *. set (L := String.length _) in *.
  destruct (Nat.leb_spec L max_str_digits) as [Hle|Hgt]; symmetry.
  - apply Z.ltb_lt. eapply Z.lt_le_trans; [exact H2|]. apply Z.pow_le_mono_r; lia.
  - apply Z.ltb_ge. assert (Hn1 : 1 <= n) by (destruct (Z.le_gt_cases 10 n); [lia|]; unfold max_str_digits in *; lia).
    eapply Z.le_trans; [|exact (H3 Hn1)]. apply Z.pow_le_mono_r; lia.
Qed.

(** [int(str(z))]: [z] when it has at most 4300 digits, else [ValueError]. *)
Lemma py_int_str_of_Z z :
  py_int (str_of_Z z) = if Z.abs z <? 10 ^ Z.of_nat max_str_digits then Ok z else Raise ValueError.
Proof.
  unfold py_int. destruct (str_of_Z_stripped z) as [-> ->].
  by rewrite count_digits_str_of_Z.
Qed.

(** C12: The colour parser of lines 71-73 reads back any non-empty
    sequence of integers written as ["z1,z2,...,zk"], whatever its
    length and whatever the sign and size of its entries, as long as
    each has at most 4300 digits; a longer entry makes [int()] raise
    [ValueError]. *)
Theorem parse_color_roundtrip (cs : list Z) :
  cs ≠ [] →
  parse_color (py_join "," (str_of_Z <$> cs)) =
  if forallb (λ z, Z.abs z <? 10 ^ Z.of_nat max_str_digits) cs then Ok cs else Raise ValueError.
Proof.
  intros Hne. unfold parse_color. rewrite split_join.
  - apply mapM_res_fmap_check, py_int_str_of_Z.
  - destruct cs; [done|discriminate].
  - apply Forall_fmap, Forall_forall. intros z _. apply str_of_Z_no_sep; auto.
Qed.

(** *** The label's confidence *)

Lemma fixed2_value n :
  0 <= n → (inject_Z (n / 100) + (n mod 100 # 100) == inject_Z n * (1 # 100))%Q.
Proof.
  intros Hn. pose proof (Z.div_mod n 100 ltac:(lia)).
  unfold Qeq, Qplus, Qmult; simpl. lia.
Qed.

Lemma two_digits_value m :
  0 <= m < 100 →
  parse_unsigned (String (digit_char (m / 10)) (String (digit_char (m mod 10)) EmptyString))
  = Some m.
Proof.
  intros Hm. pose proof (Z.div_mod m 10 ltac:(lia)).
  pose proof (Z.mod_pos_bound m 10 ltac:(lia)).
  assert (0 <= m / 10 < 10) by (split; [apply Z.div_pos|apply Z.div_lt_upper_bound]; lia).
  cbn [parse_unsigned]. rewrite digit_value_char by done.
  cbn [digits_from]. rewrite !digit_value_char by done. f_equal; lia.
Qed.

Lemma parse_fixed2_unsigned_format n :
  0 <= n →
  parse_fixed2_unsigned
    (str_of_nonneg (n / 100) ++
     String "." (String (digit_char (n mod 100 / 10))
                        (String (digit_char (n mod 10)) EmptyString)))%string
  = Some (inject_Z (n / 100) + (n mod 100 # 100))%Q.
Proof.
  intros Hn. pose proof (Z.mod_pos_bound n 100 ltac:(lia)) as Hm.
  assert (Hq : 0 <= n / 100) by (apply Z.div_pos; lia).
  pose proof (str_of_nonneg_digits (n / 100) Hq) as [Hd Hne].
  rewrite <- (Z.mod_mod_divide n 100 10) by (exists 10; reflexivity).
  pose proof (Z.mod_pos_bound (n mod 100) 10 ltac:(lia)).
  assert (0 <= n mod 100 / 10 < 10) by (split; [apply Z.div_pos|apply Z.div_lt_upper_bound]; lia).
  set (B := String (digit_char (n mod 100 / 10)) (String (digit_char (n mod 100 mod 10)) EmptyString)).
  assert (HB : parse_unsigned B = Some (n mod 100)) by (apply two_digits_value; lia).
  assert (HBd : has_char "." B = false).
  { unfold B; cbn [has_char].
    pose proof (digit_not_special _ _ (digit_value_char (n mod 100 / 10) ltac:(done))) as (_&_&->&_).
    pose proof (digit_not_special _ _ (digit_value_char (n mod 100 mod 10) ltac:(done))) as (_&_&->&_).
    done. }
  unfold parse_fixed2_unsigned.
  change (str_of_nonneg (n / 100) ++ String "." B)%string with (py_join "." [str_of_nonneg (n / 100); B]).
  rewrite split_join; [|done|].
  - assert (HL : String.length B = 2%nat) by reflexivity.
    rewrite HL, parse_unsigned_str, HB by done. reflexivity.
  - repeat constructor; [by apply all_digits_no_char; auto|done].
Qed.

Lemma parse_fixed2_digits a rest :
  all_digits a = true → a ≠ EmptyString →
  parse_fixed2 (a ++ rest) = parse_fixed2_unsigned (a ++ rest).
Proof.
  destruct a as [|c a]; [done|]. cbn [all_digits String.append parse_fixed2].
  destruct (digit_value c) eqn:E; [|discriminate]. intros _ _.
  apply digit_not_special in E as (_&_&_&->&_). done.
Qed.

(** C32: The confidence printed in a label reads back as a number within
    half a hundredth of the confidence. *)
Theorem format_2f_precision q :
  ∃ v, parse_fixed2 (format_2f q) = Some v ∧ (Qabs (v - q) <= 1 # 200)%Q.
Proof.
  set (n := round_half_even (Qabs q * inject_Z 100)).
  assert (Hn : 0 <= n).
  { apply round_half_even_lower. change (inject_Z 0) with 0%Q.
    apply Qmult_le_0_compat; [apply Qabs_nonneg|discriminate]. }
  pose proof (round_half_even_close (Qabs q * inject_Z 100)) as Hc. fold n in Hc.
  pose proof (fixed2_value n Hn) as Hv.
  pose proof (str_of_nonneg_digits (n / 100) ltac:(apply Z.div_pos; lia)) as [Hd Hne].
  unfold format_2f; fold n.
  apply Qabs_Qle_condition in Hc. change (inject_Z 100) with (100 # 1)%Q in Hc.
  destruct (Qlt_le_dec q 0) as [Hq|Hq].
  - exists (- (inject_Z (n / 100) + (n mod 100 # 100)))%Q.
    cbn [String.append parse_fixed2]. rewrite (Ascii.eqb_refl "-").
    rewrite parse_fixed2_unsigned_format by done. split; [done|].
    rewrite Qabs_neg in Hc by (apply Qlt_le_weak; exact Hq).
    apply Qabs_Qle_condition. rewrite Hv. lra.
  - exists (inject_Z (n / 100) + (n mod 100 # 100))%Q.
    cbn [String.append]. rewrite parse_fixed2_digits by done.
    rewrite parse_fixed2_unsigned_format by done. split; [done|].
    rewrite Qabs_pos in Hc by exact Hq.
    apply Qabs_Qle_condition. rewrite Hv. lra.
Qed.

(** A blank string loses its [int()] whitespace to [lstrip]; what is
    left, if anything, starts with a separator 0x1c-0x1f. *)
Lemma lstrip_all_space s :
  all_space s = true →
  lstrip s = EmptyString ∨
  ∃ c r, lstrip s = String c r ∧ py_isspace c = true ∧ int_isspace c = false.
Proof.
  induction s as [|c s IH]; cbn [all_space lstrip]; [by left|].
  intros [Hc Hs]%andb_true_iff. destruct (int_isspace c) eqn:E; [by apply IH|].
  right. by exists c, s.
Qed.

Lemma rstrip_head c r :
  rstrip (String c r) = EmptyString ∨ ∃ r', rstrip (String c r) = String c r'.
Proof. simpl. destruct (rstrip r); [destruct (int_isspace c); eauto|eauto]. Qed.

Lemma separator_char c :
  py_isspace c = true → int_isspace c = false → (28 <= nat_of_ascii c <= 31)%nat.
Proof.
  unfold py_isspace, int_isspace. set (n := nat_of_ascii c).
  destruct (Nat.leb_spec 9 n), (Nat.leb_spec n 13), (Nat.leb_spec 28 n), (Nat.leb_spec n 32),
    (Nat.eqb_spec n 32), (Nat.eqb_spec n 133), (Nat.eqb_spec n 160); simpl; intros; try discriminate; lia.
Qed.

(** A separator is neither a sign nor a digit: [int()] refuses it. *)
Lemma separator_not_number c r :
  (28 <= nat_of_ascii c <= 31)%nat → parse_signed (String c r) = None.
Proof.
  intros Hc. cbn [parse_signed].
  rewrite (proj2 (Ascii.eqb_neq c "+")), (proj2 (Ascii.eqb_neq c "-"))
    by (intros ->; vm_compute in Hc; lia).
  unfold parse_unsigned, digit_value.
  by rewrite (proj2 (andb_false_iff _ _)) by (left; apply Nat.leb_gt; lia).
Qed.

(** C33: [int()] of an empty or blank piece (every character whitespace
    for [str.isspace]) raises [ValueError]: an empty field such as the
    middle one of ["255,,0"] fails the request, and so does a field of
    separators 0x1c-0x1f, which [int()] does not strip. *)
Theorem py_int_blank s : all_space s = true → py_int s = Raise ValueError.
Proof.
  intros Hs. unfold py_int.
  destruct (lstrip_all_space s Hs) as [-> | (c & r & -> & H1 & H2)]; [reflexivity|].
  destruct (rstrip_head c r) as [-> | (r' & ->)]; [reflexivity|].
  by rewrite separator_not_number by (by apply separator_char).
Qed.

(** ** Witnesses *)

Lemma parse_color_roundtrip_witness :
  [50; -7; 300] ≠ [] ∧ parse_color (py_join "," (str_of_Z <$> [50; -7; 300])) = Ok [50; -7; 300].
Proof.
  split; [discriminate|].
  rewrite (parse_color_roundtrip [50; -7; 300]) by discriminate. vm_compute. reflexivity.
Defined.

Lemma py_int_blank_witness : all_space " " = true ∧ py_int " " = Raise ValueError.
Proof. split; [reflexivity|]. apply py_int_blank. reflexivity. Defined.

End PyString.
