(* ===== verification/Registry.v ===== *)
(** * The model registry: [modelFiles] and the detector globals

    main.py keeps the loaded detector and the name of its model in two
    globals (lines 29-31), written by [mudar_modelo] (lines 33-40) and
    by the first lines of [processar_imagem] (lines 57-60).  [YOLO(path)]
    builds a new detector object each time it is called; the model
    records each object by the weights file it was loaded from and by
    the number of objects built before it, so that "no reload" and
    "a new object" are statements about the state.  The theorems: the
    globals invariant (the detector is the one loaded for [currentModel])
    holds initially and after every operation, re-selecting the current
    model changes nothing, switching loads exactly one new detector, an
    unknown name raises [KeyError] with the state untouched.

    The query parameter is declared [Query("yolov8n",
    enum=list(modelFiles.keys()))], but FastAPI does not validate it
    against that list: the keyword lands in the parameter's
    [json_schema_extra], which documents the schema and which pydantic's
    validation ignores.  Any string reaches the handler, and an unknown
    one fails at the subscript [modelFiles[model_version]]. *)

From S2P Require Import Prelude.

Module Registry.

(** ** Data *)

(** [modelFiles], lines 21-27. *)
Definition modelFiles : gmap string string :=
  <["yolov8n" := "yolov8n.pt"]> (<["yolov8s" := "yolov8s.pt"]>
  (<["yolov8m" := "yolov8m.pt"]> (<["yolov8l" := "yolov8l.pt"]>
  (<["yolov8x" := "yolov8x.pt"]> ∅)))).

(** An object of the class [YOLO], built by [YOLO(path)]: the weights it was
    loaded from, and its identity (how many objects were built before). *)
Record YOLO := mkYOLO {
  det_weights : string;
  det_instance : nat;
}.

(** The globals [currentModel] and [detector] (lines 30-31), with the
    number of [YOLO] objects built so far. *)
Record globals := mkGlobals {
  currentModel : string;
  detector : YOLO;
  loads : nat;
}.

(** ** Operations *)

(** [modelFiles[name]]: a dict subscript, [KeyError] when absent. *)
Definition model_file (name : string) : res string :=
  of_option KeyError (modelFiles !! name).

(** Lines 37-38 and 59-60: [detector = YOLO(modelFiles[name])], then
    [currentModel = name]. *)
Definition load_model (name : string) (g : globals) : res globals :=
  path ← model_file name;
  Ok (mkGlobals name (mkYOLO path (loads g)) (S (loads g))).

(** Lines 30-31, at import time. *)
Definition init_globals : res globals :=
  path ← model_file "yolov8n";
  Ok (mkGlobals "yolov8n" (mkYOLO path 0) 1).

(** Lines 58-60: reload only when a different model is asked for. *)
Definition swap_model (name : string) (g : globals) : res globals :=
  if bool_decide (name ≠ currentModel g) then load_model name g else Ok g.

(** The endpoint [mudar_modelo] (lines 33-40); it answers with the
    message of its JSON body.  The subscript of line 37 raises before
    either global is written. *)
Definition mudar_modelo (model_version : string) (g : globals) : outcome string * globals :=
  if bool_decide (model_version ≠ currentModel g) then
    match load_model model_version g with
    | Ok g' => (Returned ("Modelo alterado para " ++ model_version)%string, g')
    | Raise e => (Failed e, g)
    end
  else (Returned ("O modelo atual já é " ++ model_version)%string, g).

(** ** Invariant *)

(** The detector is the one loaded from the weights of [currentModel],
    and it is the last [YOLO] object built: every earlier one has been
    dropped, so one detector at most is live. *)
Definition globals_wf (g : globals) : Prop :=
  modelFiles !! currentModel g = Some (det_weights (detector g)) ∧
  S (det_instance (detector g)) = loads g.

(** The states the globals can reach: the import-time state, then any
    sequence of [mudar_modelo] calls and of the swaps that start
    [processar_imagem]. *)
Inductive reachable : globals → Prop :=
| reach_init g : init_globals = Ok g → reachable g
| reach_mudar v g : reachable g → reachable (mudar_modelo v g).2
| reach_swap v g g' : reachable g → swap_model v g = Ok g' → reachable g'.

(** ** Lemmas *)

Lemma model_file_dom name :
  name ∈ dom modelFiles → ∃ p, modelFiles !! name = Some p ∧ model_file name = Ok p.
Proof.
  intros [p Hp]%elem_of_dom. exists p. unfold model_file. by rewrite Hp.
Qed.

Lemma load_model_Ok name g g' :
  load_model name g = Ok g' →
  ∃ p, modelFiles !! name = Some p ∧
       g' = mkGlobals name (mkYOLO p (loads g)) (S (loads g)).
Proof.
  unfold load_model, model_file. destruct (modelFiles !! name) as [p|] eqn:E;
    simpl; [intros [= <-]; eauto|discriminate].
Qed.

Lemma load_model_wf name g g' : load_model name g = Ok g' → globals_wf g'.
Proof. intros (p & Hp & ->)%load_model_Ok. split; simpl; auto. Qed.

Lemma wf_current_known g : globals_wf g → currentModel g ∈ dom modelFiles.
Proof. intros [Hg _]. apply elem_of_dom. rewrite Hg. eauto. Qed.

(** An unknown name fails the subscript, leaving the globals. *)
Lemma load_model_unknown name g : name ∉ dom modelFiles → load_model name g = Raise KeyError.
Proof.
  intros Hn. unfold load_model, model_file.
  by rewrite (proj1 (not_elem_of_dom modelFiles name) Hn).
Qed.

Lemma init_globals_wf g : init_globals = Ok g → globals_wf g.
Proof. unfold init_globals; simpl. intros [= <-]. split; reflexivity. Qed.

#[export] Hint Resolve load_model_wf : yolo.

(** ** Theorems *)

(** The swap that starts [processar_imagem] (lines 58-60) keeps the
    globals invariant. *)
Lemma swap_model_preserves_wf v g g' :
  globals_wf g → swap_model v g = Ok g' → globals_wf g'.
Proof.
  unfold swap_model. case_bool_decide; [eauto with yolo|congruence].
Qed.

(** [mudar_modelo] keeps the globals invariant, whatever it is asked. *)
Lemma mudar_modelo_preserves_wf v g : globals_wf g → globals_wf (mudar_modelo v g).2.
Proof.
  intros Hg. unfold mudar_modelo. case_bool_decide; [|done].
  destruct (load_model v g) eqn:E; simpl; eauto with yolo.
Qed.

(** C4: Every reachable state of the globals satisfies the invariant: the
    live detector is the last one built, loaded from the weights of
    [currentModel]. *)
Theorem reachable_wf g : reachable g → globals_wf g.
Proof.
  induction 1 as [g Hi|v g _ IH|v g g' _ IH Hs].
  - by apply init_globals_wf.
  - by apply mudar_modelo_preserves_wf.
  - by eapply swap_model_preserves_wf.
Qed.

(** C24: Asking [mudar_modelo] for the model already selected reloads
    nothing: the state, the detector object included, is unchanged. *)
Theorem mudar_modelo_same g :
  globals_wf g →
  mudar_modelo (currentModel g) g =
  (Returned ("O modelo atual já é " ++ currentModel g)%string, g).
Proof.
  intros Hg. unfold mudar_modelo.
  by rewrite bool_decide_eq_false_2 by (intros []; reflexivity).
Qed.

(** C25: Asking [mudar_modelo] for another known model builds exactly one
    new detector, from that model's weights, and selects it. *)
Theorem mudar_modelo_switch v g :
  v ∈ dom modelFiles → v ≠ currentModel g →
  ∃ p, modelFiles !! v = Some p ∧
       mudar_modelo v g =
       (Returned ("Modelo alterado para " ++ v)%string,
        mkGlobals v (mkYOLO p (loads g)) (S (loads g))).
Proof.
  intros Hv Hne. destruct (model_file_dom v Hv) as (p & Hp & Hf).
  exists p; split; [done|]. unfold mudar_modelo, load_model.
  rewrite bool_decide_eq_true_2, Hf by done.
  reflexivity.
Qed.

(** C19: A name outside [modelFiles] is not refused by FastAPI (the
    [enum] of the [Query] only documents the schema): the subscript of
    line 37 raises [KeyError], answered with status 500, and the globals
    are untouched. *)
Theorem mudar_modelo_unknown v g :
  globals_wf g → v ∉ dom modelFiles → mudar_modelo v g = (Failed KeyError, g).
Proof.
  intros Hg Hv. unfold mudar_modelo.
  rewrite bool_decide_eq_true_2 by (intros ->; by apply Hv, wf_current_known).
  by rewrite load_model_unknown.
Qed.

(** ** Witnesses *)

(** The state right after import. *)
Definition g0 : globals := mkGlobals "yolov8n" (mkYOLO "yolov8n.pt" 0) 1.

Lemma g0_wf : globals_wf g0.
Proof. split; reflexivity. Qed.

Lemma reachable_wf_witness : reachable (mudar_modelo "yolov8m" g0).2 ∧ globals_wf (mudar_modelo "yolov8m" g0).2.
Proof.
  assert (H : reachable (mudar_modelo "yolov8m" g0).2)
    by (apply reach_mudar, reach_init; reflexivity).
  split; [exact H|]. apply reachable_wf. exact H.
Defined.

Lemma mudar_modelo_same_witness :
  globals_wf g0 ∧
  mudar_modelo "yolov8n" g0 = (Returned ("O modelo atual já é " ++ "yolov8n")%string, g0).
Proof. split; [exact g0_wf|]. apply (mudar_modelo_same g0). exact g0_wf. Defined.

Lemma mudar_modelo_switch_witness :
  "yolov8l" ∈ dom modelFiles ∧ "yolov8l" ≠ currentModel g0 ∧
  ∃ p, modelFiles !! "yolov8l" = Some p ∧
       mudar_modelo "yolov8l" g0 =
       (Returned ("Modelo alterado para " ++ "yolov8l")%string,
        mkGlobals "yolov8l" (mkYOLO p (loads g0)) (S (loads g0))).
Proof.
  assert (Hd : "yolov8l" ∈ dom modelFiles) by (apply (bool_decide_unpack _); vm_compute; reflexivity).
  assert (Hn : "yolov8l" ≠ currentModel g0) by discriminate.
  split; [exact Hd|]. split; [exact Hn|]. apply mudar_modelo_switch; assumption.
Defined.

Lemma mudar_modelo_unknown_witness :
  globals_wf g0 ∧ ("yolov9" ∉ dom modelFiles) ∧ mudar_modelo "yolov9" g0 = (Failed KeyError, g0).
Proof.
  assert (Hd : "yolov9" ∉ dom modelFiles) by (rewrite not_elem_of_dom; reflexivity).
  split_and!; [exact g0_wf|exact Hd|]. exact (mudar_modelo_unknown "yolov9" g0 g0_wf Hd).
Defined.

End Registry.
