(* ===== verification/Imaging.v ===== *)
(** * The OpenCV operations of the handler that the model computes

    Images are lists of rows of pixels, as the [numpy] arrays of main.py
    are; a pixel holds the three channels of an 8-bit colour image in
    OpenCV's order, blue, green, red.  This file models the calls of
    [processar_imagem] whose result is fixed pixel by pixel:
    - the conversion of a Python tuple to a [cv::Scalar] and of a scalar
      to a colour of an 8-bit, three-channel image (every colour argument
      of lines 76-114 goes through it);
    - [cv2.cvtColor(np.array(pilImage), cv2.COLOR_RGB2BGR)] (line 65);
    - [cv2.copyMakeBorder(..., cv2.BORDER_CONSTANT, value=...)] (lines 76-79);
    - [cv2.rectangle] with thickness [-1] (filled, lines 105-111);
    - [cv2.addWeighted] (line 112), rounding with [saturate_cast].
    The machine ranges of the binding are written out: a C [int] for a
    size or a thickness ([c_int], [int_arg]) and a [double] for a colour
    entry ([double_ok]).  The theorems: the border's geometry and colour,
    the coordinate shift it introduces, exactly which thicknesses and
    colours the border call accepts, the assertion on a negative
    thickness, and the blending at the extreme opacities and outside the
    plate. *)

From S2P Require Import Prelude.
From Stdlib Require Import Psatz.

Local Open Scope Z_scope.

Module Imaging.

(** ** Data *)

Record pixel := mkPixel { px_b : Z; px_g : Z; px_r : Z }.

Abbreviation image := (list (list pixel)).

Definition height (img : image) : nat := length img.

Definition width (img : image) : nat :=
  match img with [] => 0%nat | r :: _ => length r end.

(** All rows have the width of the first. *)
Definition rectangular (img : image) : Prop := Forall (λ r, length r = width img) img.

Definition pixel_u8 (p : pixel) : Prop := is_u8 (px_b p) ∧ is_u8 (px_g p) ∧ is_u8 (px_r p).

Definition image_u8 (img : image) : Prop := Forall (Forall pixel_u8) img.

(** Two images of the same geometry: as many rows, row by row as long. *)
Definition same_shape (a b : image) : Prop := Forall2 (λ r1 r2, length r1 = length r2) a b.

(** The pixel in column [x] of row [y]; nothing outside the image. *)
Definition pixel_at (img : image) (x y : Z) : option pixel :=
  if bool_decide (0 <= x ∧ 0 <= y) then img !! Z.to_nat y ≫= (λ r, r !! Z.to_nat x)
  else None.

(** ** Colours *)

(** ** Machine ranges of the arguments *)

(** The binding converts an [int] argument to a C [int]. *)
Definition INT_MIN : Z := - 2 ^ 31.
Definition INT_MAX : Z := 2 ^ 31 - 1.

Definition c_int (v : Z) : bool := (INT_MIN <=? v) && (v <=? INT_MAX).

(** [PyArray_PyIntAsInt] (numpy's C API, which the binding calls on an
    [int] argument): [ValueError] ("integer won't fit into a C int") for
    a value of 64 bits outside the C [int] range, [OverflowError] for a
    value beyond 64 bits.  A function with a single signature, such as
    [getTextSize], lets this exception through. *)
Definition int_arg (v : Z) : res Z :=
  if c_int v then Ok v
  else if (- 2 ^ 63 <=? v) && (v <? 2 ^ 63) then Raise ValueError else Raise OverflowError.

(** [PyFloat_AsDouble] on an [int]: it rounds to the nearest double, ties
    to even, and overflows when that is [2 ^ 1024] or beyond, that is
    from [2 ^ 1024 - 2 ^ 970], halfway above the largest double
    [2 ^ 1024 - 2 ^ 971]. *)
Definition double_ok (v : Z) : bool := Z.abs v <? 2 ^ 1024 - 2 ^ 970.

(** ** Colours *)

(** [pyopencv_to(PyObject*, Scalar&)]: a Python sequence of at most four
    numbers; missing entries are 0.  A longer one fails the conversion,
    and the binding raises [cv2.error] when no overload accepts the
    arguments.  Each entry is converted by [PyFloat_AsDouble], whose
    failure the binding does not check: the entry becomes [-1.0], the
    [OverflowError] stays pending and the call runs ([scalar_overflows]).
    A double of magnitude above [2 ^ 53] may differ from the [int], but
    it saturates as the [int] does. *)
Definition to_scalar (t : list Z) : res (Z * Z * Z * Z) :=
  if (length t <=? 4)%nat then Ok (nth 0 t 0, nth 1 t 0, nth 2 t 0, nth 3 t 0)
  else Raise (CvError "Scalar value for argument is longer than 4").

Definition scalar_overflows (t : list Z) : bool := negb (forallb double_ok t).

(** [scalarToRawData] for an 8-bit three-channel image: the first three
    entries, each through [saturate_cast<uchar>]. *)
Definition scalar_pixel (s : Z * Z * Z * Z) : pixel :=
  let '(s0, s1, s2, _) := s in mkPixel (saturate_u8 s0) (saturate_u8 s1) (saturate_u8 s2).

(** The colour argument of a call that cannot raise once its arguments
    are converted (the filled [cv2.rectangle] of lines 105-111): a
    pending [OverflowError] surfaces when the call returns, as the
    [SystemError] CPython raises for a result returned with an exception
    set. *)
Definition color_arg (t : list Z) : res pixel :=
  s ← to_scalar t;
  if scalar_overflows t then Raise SystemError else Ok (scalar_pixel s).

(** The tuples [color_arg] accepts. *)
Definition scalar_ok (t : list Z) : bool := (length t <=? 4)%nat && forallb double_ok t.

(** ** Decoding *)

(** [np.array(pilImage)]: the channel count of the array (1 for a
    two-dimensional one: modes L, P, I, 1) and its rows of pixels, each
    pixel the list of its channel values. *)
Record pil_array := mkPilArray {
  pa_channels : nat;
  pa_rows : list (list (list Z));
}.

(** The arrays PIL gives for 8-bit images: every entry a byte. *)
Definition pil_u8 (a : pil_array) : Prop := Forall (Forall (Forall is_u8)) (pa_rows a).

(** [cv2.cvtColor(a, cv2.COLOR_RGB2BGR)]: three- or four-channel input
    (an alpha channel is dropped), channels 0 and 2 exchanged; any other
    channel count fails the assertion on [scn]. *)
Definition cvtColor_RGB2BGR (a : pil_array) : res image :=
  if bool_decide (pa_channels a = 3%nat ∨ pa_channels a = 4%nat) then
    Ok ((λ row : list (list Z), (λ px : list Z, mkPixel (nth 2 px 0) (nth 1 px 0) (nth 0 px 0)) <$> row) <$> pa_rows a)
  else Raise (CvError "Invalid number of channels in input image").

(** ** Border *)

(** [BORDER_CONSTANT] on one axis: [n] copies of [c] on each side. *)
Definition pad {A} (n : nat) (c : A) (l : list A) : list A :=
  replicate n c ++ l ++ replicate n c.

(** [cv2.copyMakeBorder(img, t, t, t, t, cv2.BORDER_CONSTANT, value=v)]:
    the binding converts the four sizes to C [int]s, then the colour
    (an [int] or a colour it cannot convert makes every overload fail:
    [cv2.error]); OpenCV asserts that the sizes are not negative (its
    [cv2.error] replaces a pending [OverflowError]); the call returns and
    a pending [OverflowError] surfaces as [SystemError].  Rows are padded,
    then whole rows of the border colour are added above and below.  The
    memory an image of [t] rows and columns more needs is not modelled. *)
Definition copyMakeBorder (img : image) (t : Z) (value : list Z) : res image :=
  if negb (c_int t) then Raise (CvError "Overload resolution failed") else
  s ← to_scalar value;
  if bool_decide (t < 0) then Raise (CvError "top >= 0 && bottom >= 0 && left >= 0 && right >= 0")
  else if scalar_overflows value then Raise SystemError
  else
    let c := scalar_pixel s in
    let n := Z.to_nat t in
    Ok (pad n (replicate (width img + 2 * n) c) (pad n c <$> img)).

(** ** Filled rectangle *)

Definition in_rect (p1 p2 : Z * Z) (x y : Z) : bool :=
  bool_decide (Z.min p1.1 p2.1 <= x <= Z.max p1.1 p2.1 ∧ Z.min p1.2 p2.2 <= y <= Z.max p1.2 p2.2).

(** [cv2.rectangle(img, p1, p2, c, -1)]: every pixel of the closed
    rectangle with corners [p1] and [p2] that lies in the image takes the
    colour [c]; the rest of the image is untouched. *)
Definition fill_rect (img : image) (p1 p2 : Z * Z) (c : pixel) : image :=
  imap (λ y row, imap (λ x p, if in_rect p1 p2 (Z.of_nat x) (Z.of_nat y) then c else p) row) img.

(** ** Weighted sum *)

(** [saturate_cast<uchar>(u * alpha + v * beta + gamma)] per channel,
    on the exact value.  OpenCV computes it in [float] with the weights
    rounded to [float] (Python computes [1 - bg_opacity] in [double]);
    the theorems that depend on the weights state what they need of them
    ([plate_outside]), or use weights [0] and [1], which are exact. *)
Definition blend_channel (alpha beta gamma : Q) (u v : Z) : Z :=
  saturate_u8 (round_half_even (inject_Z u * alpha + inject_Z v * beta + gamma)%Q).

Definition blend_pixel (alpha beta gamma : Q) (p q : pixel) : pixel :=
  mkPixel (blend_channel alpha beta gamma (px_b p) (px_b q))
          (blend_channel alpha beta gamma (px_g p) (px_g q))
          (blend_channel alpha beta gamma (px_r p) (px_r q)).

(** [cv2.addWeighted(src1, alpha, src2, beta, gamma)], on images of the
    same size (the only use, line 112, passes a copy of [src2] as [src1]). *)
Definition addWeighted (src1 : image) (alpha : Q) (src2 : image) (beta gamma : Q) : image :=
  zip_with (zip_with (blend_pixel alpha beta gamma)) src1 src2.

(** ** Lemmas *)

Lemma pixel_at_lookup img x y :
  0 <= x → 0 <= y → pixel_at img x y = img !! Z.to_nat y ≫= (λ r, r !! Z.to_nat x).
Proof. intros. unfold pixel_at. by rewrite bool_decide_eq_true_2 by lia. Qed.

Lemma pixel_at_neg img x y : x < 0 ∨ y < 0 → pixel_at img x y = None.
Proof. intros. unfold pixel_at. by rewrite bool_decide_eq_false_2 by lia. Qed.

Lemma length_pad {A} n (c : A) l : length (pad n c l) = (n + length l + n)%nat.
Proof. unfold pad. rewrite !length_app, !length_replicate. lia. Qed.

(** What [pad] puts at each index. *)
Lemma lookup_pad {A} n (c : A) (l : list A) i :
  pad n c l !! i =
  if decide (i < n)%nat then Some c
  else if decide (i < n + length l)%nat then l !! (i - n)%nat
  else if decide (i < n + length l + n)%nat then Some c else None.
Proof.
  unfold pad. repeat case_decide.
  - rewrite lookup_app_l by (rewrite length_replicate; lia). apply lookup_replicate_2; lia.
  - rewrite lookup_app_r by (rewrite length_replicate; lia).
    rewrite length_replicate, lookup_app_l by lia. done.
  - rewrite lookup_app_r by (rewrite length_replicate; lia).
    rewrite length_replicate, lookup_app_r by lia. apply lookup_replicate_2; lia.
  - apply lookup_ge_None_2. rewrite !length_app, !length_replicate. lia.
Qed.

Lemma cvtColor_channels_Ok a :
  (pa_channels a = 3 ∨ pa_channels a = 4)%nat → ∃ img, cvtColor_RGB2BGR a = Ok img.
Proof. intros Hc. unfold cvtColor_RGB2BGR. rewrite bool_decide_eq_true_2 by done. by eexists. Qed.

Lemma cvtColor_Raise a e :
  cvtColor_RGB2BGR a = Raise e → e = CvError "Invalid number of channels in input image".
Proof. unfold cvtColor_RGB2BGR. case_bool_decide; [discriminate|]. by intros [= <-]. Qed.

Lemma scalar_ok_spec v :
  scalar_ok v = true ↔ (length v ≤ 4)%nat ∧ Forall (λ z, Z.abs z < 2 ^ 1024 - 2 ^ 970) v.
Proof.
  unfold scalar_ok, double_ok. rewrite andb_true_iff, Nat.leb_le, forallb_forall, Forall_forall.
  setoid_rewrite Z.ltb_lt. by setoid_rewrite <- list_elem_of_In.
Qed.

Lemma c_int_spec v : c_int v = true ↔ INT_MIN <= v <= INT_MAX.
Proof. unfold c_int. rewrite andb_true_iff, !Z.leb_le. done. Qed.

Lemma int_arg_Ok v : INT_MIN <= v <= INT_MAX → int_arg v = Ok v.
Proof. intros Hv. unfold int_arg. by rewrite (proj2 (c_int_spec v) Hv). Qed.

Lemma scalar_ok_parts v :
  scalar_ok v = true → ∃ s, to_scalar v = Ok s ∧ scalar_overflows v = false.
Proof.
  unfold scalar_ok, scalar_overflows, to_scalar. intros [Hl Hd]%andb_true_iff.
  rewrite Hl, Hd. by eexists.
Qed.

Lemma color_arg_ok v : scalar_ok v = true → ∃ c, color_arg v = Ok c.
Proof.
  intros (s & Hs & Ho)%scalar_ok_parts. unfold color_arg. rewrite Hs, bind_Ok, Ho. by eexists.
Qed.

Lemma color_arg_Ok v c :
  color_arg v = Ok c → ∃ s, to_scalar v = Ok s ∧ scalar_overflows v = false ∧ c = scalar_pixel s.
Proof.
  unfold color_arg. destruct (to_scalar v) as [s|]; simpl; [|discriminate].
  destruct (scalar_overflows v); [discriminate|]. intros [= <-]. eauto.
Qed.

Lemma copyMakeBorder_short img t v :
  0 <= t <= INT_MAX → scalar_ok v = true → ∃ out, copyMakeBorder img t v = Ok out.
Proof.
  intros Ht (s & Hs & Ho)%scalar_ok_parts. unfold copyMakeBorder.
  rewrite (proj2 (c_int_spec t)) by (unfold INT_MIN in *; lia). simpl.
  rewrite Hs, bind_Ok, bool_decide_eq_false_2, Ho by lia. by eexists.
Qed.

Lemma copyMakeBorder_Ok img t v out :
  copyMakeBorder img t v = Ok out →
  ∃ c, color_arg v = Ok c ∧ 0 <= t <= INT_MAX ∧
       out = pad (Z.to_nat t) (replicate (width img + 2 * Z.to_nat t) c) (pad (Z.to_nat t) c <$> img).
Proof.
  unfold copyMakeBorder, color_arg. destruct (c_int t) eqn:Hc; simpl; [|discriminate].
  apply c_int_spec in Hc. destruct (to_scalar v) as [s|e]; simpl; [|discriminate].
  case_bool_decide; [discriminate|]. destruct (scalar_overflows v); [discriminate|].
  intros [= <-]. exists (scalar_pixel s). split_and!; [done|lia|lia|done].
Qed.

Lemma rectangular_lookup img y r :
  rectangular img → img !! y = Some r → length r = width img.
Proof. intros Hr Hy. eapply Forall_lookup_1 in Hr; [exact Hr|exact Hy]. Qed.

#[export] Hint Resolve rectangular_lookup : yolo.

Lemma color_arg_u8 t c : color_arg t = Ok c → pixel_u8 c.
Proof.
  intros (s & _ & _ & ->)%color_arg_Ok. destruct s as [[[s0 s1] s2] s3].
  split_and!; apply saturate_u8_range.
Qed.

Lemma lookup_fill_rect img p1 p2 c (x y : nat) :
  fill_rect img p1 p2 c !! y ≫= (λ r, r !! x) =
  (λ p, if in_rect p1 p2 (Z.of_nat x) (Z.of_nat y) then c else p) <$>
  (img !! y ≫= (λ r, r !! x)).
Proof.
  unfold fill_rect. rewrite list_lookup_imap.
  destruct (img !! y) as [r|]; simpl; [|done].
  by rewrite list_lookup_imap.
Qed.

Lemma lookup_addWeighted a b alpha beta gamma (x y : nat) :
  addWeighted a alpha b beta gamma !! y ≫= (λ r, r !! x) =
  (p ← a !! y ≫= (λ r, r !! x); q ← b !! y ≫= (λ r, r !! x);
   Some (blend_pixel alpha beta gamma p q)).
Proof.
  unfold addWeighted. rewrite lookup_zip_with.
  destruct (a !! y) as [ra|], (b !! y) as [rb|]; simpl; try done.
  - rewrite lookup_zip_with. by destruct (ra !! x), (rb !! x).
  - by destruct (ra !! x).
Qed.

(** Channel arithmetic, up to the equality of rationals. *)
Lemma blend_channel_Qeq alpha beta gamma u v (q : Q) :
  (inject_Z u * alpha + inject_Z v * beta + gamma == q)%Q →
  blend_channel alpha beta gamma u v = saturate_u8 (round_half_even q).
Proof. intros Heq. unfold blend_channel. by rewrite Heq. Qed.

Lemma blend_channel_Z alpha beta gamma u v w :
  (inject_Z u * alpha + inject_Z v * beta + gamma == inject_Z w)%Q → is_u8 w →
  blend_channel alpha beta gamma u v = w.
Proof.
  intros Heq Hw. rewrite (blend_channel_Qeq _ _ _ _ _ _ Heq).
  rewrite round_half_even_Z. by apply saturate_u8_id.
Qed.

(** A value within half a unit of an integer rounds to it. *)
Lemma round_half_even_near q z : (Qabs (q - inject_Z z) < 1 # 2)%Q → round_half_even q = z.
Proof.
  intros Hz. pose proof (round_half_even_close q) as Hr. set (r := round_half_even q) in *.
  clearbody r. apply Qabs_Qlt_condition in Hz. apply Qabs_Qle_condition in Hr.
  assert (H1 : (inject_Z r < inject_Z (z + 1))%Q)
    by (rewrite inject_Z_plus; change (inject_Z 1) with 1%Q; nra).
  assert (H2 : (inject_Z (z - 1) < inject_Z r)%Q)
    by (unfold Z.sub; rewrite inject_Z_plus, inject_Z_opp; change (inject_Z 1) with 1%Q; nra).
  rewrite <- Zlt_Qlt in H1, H2. lia.
Qed.

(** Blending a byte with itself gives it back when the two weights add
    up to 1 within [1/1024]: the sum is within a quarter of the byte. *)
Lemma blend_channel_same alpha beta u :
  (Qabs (alpha + beta - 1) <= 1 # 1024)%Q → is_u8 u → blend_channel alpha beta 0 u u = u.
Proof.
  intros Hw Hu. unfold blend_channel. rewrite (round_half_even_near _ u); [by apply saturate_u8_id|].
  setoid_replace (inject_Z u * alpha + inject_Z u * beta + 0 - inject_Z u)%Q
    with (inject_Z u * (alpha + beta - 1))%Q using relation Qeq by ring.
  rewrite Qabs_Qmult, Qabs_pos by (change 0%Q with (inject_Z 0); rewrite <- Zle_Qle; apply Hu).
  assert (H0 : (0 <= inject_Z u <= 255)%Q)
    by (change 0%Q with (inject_Z 0); change 255%Q with (inject_Z 255); rewrite <- !Zle_Qle; apply Hu).
  pose proof (Qabs_nonneg (alpha + beta - 1)). nra.
Qed.

Lemma blend_pixel_same alpha beta p :
  (Qabs (alpha + beta - 1) <= 1 # 1024)%Q → pixel_u8 p → blend_pixel alpha beta 0 p p = p.
Proof.
  intros Hw (Hb & Hg & Hr). destruct p as [b g r]; simpl in *.
  unfold blend_pixel; simpl. f_equal; by apply blend_channel_same.
Qed.

Lemma blend_pixel_transparent q p :
  pixel_u8 p → blend_pixel 0 (1 - 0) 0 q p = p.
Proof.
  intros (Hb & Hg & Hr). destruct p as [b g r]; simpl in *.
  unfold blend_pixel; simpl. f_equal; apply blend_channel_Z; auto; ring.
Qed.

Lemma blend_pixel_opaque c p :
  pixel_u8 c → blend_pixel 1 (1 - 1) 0 c p = c.
Proof.
  intros (Hb & Hg & Hr). destruct c as [b g r]; simpl in *.
  unfold blend_pixel; simpl. f_equal; apply blend_channel_Z; auto; ring.
Qed.

(** A blend with weights [alpha] and [1 - alpha], [alpha] in [0, 1], lies
    between its two inputs. *)
Lemma blend_channel_between alpha u v :
  (0 <= alpha <= 1)%Q → is_u8 u → is_u8 v →
  Z.min u v <= blend_channel alpha (1 - alpha) 0 u v <= Z.max u v.
Proof.
  intros [H0 H1] Hu Hv. unfold blend_channel.
  assert (Hlo : (inject_Z (Z.min u v) <= inject_Z u * alpha + inject_Z v * (1 - alpha) + 0)%Q).
  { destruct (Z.min_spec u v) as [[? ->]|[? ->]];
      [assert (inject_Z u <= inject_Z v)%Q by (rewrite <- Zle_Qle; lia)
      |assert (inject_Z v <= inject_Z u)%Q by (rewrite <- Zle_Qle; lia)]; nra. }
  assert (Hhi : (inject_Z u * alpha + inject_Z v * (1 - alpha) + 0 <= inject_Z (Z.max u v))%Q).
  { destruct (Z.max_spec u v) as [[? ->]|[? ->]];
      [assert (inject_Z u <= inject_Z v)%Q by (rewrite <- Zle_Qle; lia)
      |assert (inject_Z v <= inject_Z u)%Q by (rewrite <- Zle_Qle; lia)]; nra. }
  apply round_half_even_lower in Hlo. apply round_half_even_upper in Hhi.
  unfold is_u8 in *. rewrite saturate_u8_id; unfold is_u8; lia.
Qed.

Lemma shape_fill_rect img p1 p2 c :
  Forall2 (λ r1 r2, length r1 = length r2) (fill_rect img p1 p2 c) img.
Proof.
  unfold fill_rect. apply Forall2_lookup. intros i.
  rewrite list_lookup_imap. destruct (img !! i); constructor.
  by rewrite length_imap.
Qed.

Lemma zip_with_keep_snd {A B} (f : A → B → B) (P : B → Prop) (l1 : list A) (l2 : list B) :
  length l1 = length l2 → Forall P l2 → (∀ a b, P b → f a b = b) → zip_with f l1 l2 = l2.
Proof.
  revert l2; induction l1 as [|a l1 IH]; intros [|b l2] Hl HP Hf; simplify_eq/=; try done.
  inversion HP; subst. rewrite Hf by done. f_equal. auto.
Qed.

#[export] Instance same_shape_equiv : Equivalence same_shape.
Proof.
  unfold same_shape. split.
  - intros a. induction a; constructor; auto.
  - intros a b H. induction H; constructor; auto.
  - intros a b c H1. revert c. induction H1; intros c H2; inversion H2; subst; constructor; eauto.
    congruence.
Qed.

Lemma same_shape_rows a b w :
  same_shape a b → Forall (λ r, length r = w) b →
  length a = length b ∧ Forall (λ r, length r = w) a.
Proof.
  intros H. induction H as [|r1 r2 a b Hl _ IH]; intros Hb; [done|].
  inversion Hb; subst. destruct IH as [IH1 IH2]; [done|].
  split; [simpl; lia|]. constructor; [congruence|done].
Qed.

Lemma same_shape_fill_rect img p1 p2 c : same_shape (fill_rect img p1 p2 c) img.
Proof. exact (shape_fill_rect img p1 p2 c). Qed.

Lemma same_shape_addWeighted a b alpha beta gamma :
  same_shape a b → same_shape (addWeighted a alpha b beta gamma) b.
Proof.
  unfold same_shape, addWeighted. intros H.
  induction H as [|r1 r2 a b Hl _ IH]; simpl; constructor; [|done].
  rewrite length_zip_with. lia.
Qed.

Lemma image_u8_fill_rect img p1 p2 c :
  image_u8 img → pixel_u8 c → image_u8 (fill_rect img p1 p2 c).
Proof.
  intros Hi Hc. unfold image_u8, fill_rect. apply Forall_lookup. intros y r.
  rewrite list_lookup_imap. destruct (img !! y) as [r0|] eqn:E; [|discriminate]. simpl.
  intros [= <-]. apply Forall_lookup. intros x p. rewrite list_lookup_imap.
  pose proof (Forall_lookup_1 _ _ _ _ Hi E) as Hr.
  destruct (r0 !! x) as [p0|] eqn:E'; [|discriminate]. simpl. intros [= <-].
  destruct (in_rect _ _ _ _); [done|]. exact (Forall_lookup_1 _ _ _ _ Hr E').
Qed.

Lemma pixel_u8_blend alpha beta gamma p q : pixel_u8 (blend_pixel alpha beta gamma p q).
Proof. split_and!; apply saturate_u8_range. Qed.

Lemma image_u8_addWeighted a b alpha beta gamma : image_u8 (addWeighted a alpha b beta gamma).
Proof.
  unfold image_u8, addWeighted. revert b. induction a as [|r a IH]; intros [|r' b]; simpl;
    constructor; [|auto].
  revert r'. induction r as [|p r IHr]; intros [|p' r']; simpl; constructor; auto using pixel_u8_blend.
Qed.

#[export] Hint Resolve same_shape_fill_rect same_shape_addWeighted image_u8_fill_rect
  image_u8_addWeighted : yolo.

(** ** Theorems *)

(** [copyMakeBorder] with thickness [t] gives an image [2t] rows
    taller, every row of it [2t] pixels wider than the source's. *)
Lemma copyMakeBorder_shape img t v out :
  rectangular img → copyMakeBorder img t v = Ok out →
  height out = (height img + 2 * Z.to_nat t)%nat ∧
  Forall (λ r, length r = (width img + 2 * Z.to_nat t)%nat) out.
Proof.
  intros Hr (c & Hc & Ht & ->)%copyMakeBorder_Ok. unfold height. split.
  - rewrite (@length_pad (list pixel)), length_fmap. lia.
  - unfold pad. repeat apply Forall_app_2; try (apply Forall_replicate; by rewrite length_replicate).
    apply Forall_fmap. eapply Forall_impl; [exact Hr|]. intros r Hlen; simpl in *.
    rewrite !length_app, !length_replicate. lia.
Qed.

(** C8: The source pixel at [(x, y)] is found at [(x + t, y + t)] of the
    bordered image: coordinates of the source must be shifted by [t] to
    address the bordered canvas. *)
Theorem copyMakeBorder_inner img t v out x y :
  rectangular img → copyMakeBorder img t v = Ok out →
  0 <= x < Z.of_nat (width img) → 0 <= y < Z.of_nat (height img) →
  pixel_at out (x + t) (y + t) = pixel_at img x y.
Proof.
  intros Hr (c & Hc & Ht & ->)%copyMakeBorder_Ok Hx Hy. unfold height in Hy.
  rewrite !pixel_at_lookup by lia.
  rewrite !Z2Nat.inj_add by lia. rewrite lookup_pad, length_fmap.
  rewrite !decide_False, decide_True by lia.
  replace (Z.to_nat y + Z.to_nat t - Z.to_nat t)%nat with (Z.to_nat y) by lia.
  rewrite list_lookup_fmap. destruct (img !! Z.to_nat y) as [r|] eqn:E; simpl; [|done].
  assert (Hl : length r = width img) by eauto with yolo.
  rewrite lookup_pad. rewrite !decide_False, decide_True by lia.
  f_equal; lia.
Qed.

(** Every pixel of the bordered image outside the shifted source is
    the border colour. *)
Lemma Forall_pad {A} (P : A → Prop) n c l : P c → Forall P l → Forall P (pad n c l).
Proof.
  intros Hc Hl. unfold pad.
  apply Forall_app; split; [by apply Forall_replicate|].
  apply Forall_app; split; [done|by apply Forall_replicate].
Qed.

Lemma cvtColor_u8 a img : pil_u8 a → cvtColor_RGB2BGR a = Ok img → image_u8 img.
Proof.
  unfold cvtColor_RGB2BGR. case_bool_decide; [|discriminate]. intros Ha [= <-].
  apply Forall_fmap. eapply Forall_impl; [exact Ha|]. intros row Hrow.
  apply Forall_fmap. eapply Forall_impl; [exact Hrow|]. intros px Hpx.
  assert (Hn : ∀ k, is_u8 (nth k px 0)).
  { intros k. destruct (nth_in_or_default k px 0) as [Hin|Heq].
    - eapply Forall_forall; [exact Hpx|by apply list_elem_of_In].
    - rewrite Heq. unfold is_u8; lia. }
  split_and!; apply Hn.
Qed.

Lemma copyMakeBorder_u8 img t v out :
  image_u8 img → copyMakeBorder img t v = Ok out → image_u8 out.
Proof.
  intros Hi (c & Hc & _ & ->)%copyMakeBorder_Ok. apply color_arg_u8 in Hc.
  apply Forall_pad; [by apply Forall_replicate|].
  apply Forall_fmap. eapply Forall_impl; [exact Hi|]. intros r Hr. by apply Forall_pad.
Qed.

Lemma copyMakeBorder_frame img t v out c x y :
  rectangular img → copyMakeBorder img t v = Ok out → color_arg v = Ok c →
  0 <= x < Z.of_nat (width img) + 2 * t → 0 <= y < Z.of_nat (height img) + 2 * t →
  ¬ (t <= x < t + Z.of_nat (width img) ∧ t <= y < t + Z.of_nat (height img)) →
  pixel_at out x y = Some c.
Proof.
  intros Hr (c' & Hc & Ht & ->)%copyMakeBorder_Ok Hc' Hx Hy Hout.
  rewrite Hc in Hc'. injection Hc' as ->. unfold height in *.
  rewrite pixel_at_lookup by lia. rewrite lookup_pad, length_fmap.
  set (n := Z.to_nat t). set (i := Z.to_nat x).
  assert (Hfull : replicate (width img + 2 * n) c !! i = Some c)
    by (apply lookup_replicate_2; lia).
  destruct (decide (Z.to_nat y < n)%nat) as [|Hy1]; [exact Hfull|].
  destruct (decide (Z.to_nat y < n + length img)%nat) as [Hy2|Hy2].
  - rewrite list_lookup_fmap.
    destruct (img !! (Z.to_nat y - n)%nat) as [r|] eqn:E; simpl.
    + assert (Hl : length r = width img) by eauto with yolo.
      rewrite lookup_pad. destruct (decide (i < n)%nat); [done|].
      rewrite decide_False by lia. rewrite decide_True by lia. done.
    + apply lookup_ge_None_1 in E. lia.
  - rewrite decide_True by lia. exact Hfull.
Qed.

(** C26: A negative border thickness (within the C [int] range) makes
    [copyMakeBorder] raise OpenCV's assertion once the colour, of at most
    four entries, has been converted, whatever the size of its entries. *)
Theorem copyMakeBorder_negative img t v :
  INT_MIN <= t < 0 → (length v ≤ 4)%nat →
  copyMakeBorder img t v = Raise (CvError "top >= 0 && bottom >= 0 && left >= 0 && right >= 0").
Proof.
  intros Ht Hv. unfold copyMakeBorder.
  rewrite (proj2 (c_int_spec t)) by (unfold INT_MAX in *; lia). simpl.
  unfold to_scalar at 1. rewrite (proj2 (Nat.leb_le _ _) Hv). simpl.
  by rewrite bool_decide_eq_true_2 by lia.
Qed.


(** The filled rectangle paints exactly the pixels of the closed
    rectangle spanned by its corners and leaves the others. *)
Lemma fill_rect_at img p1 p2 c x y :
  pixel_at (fill_rect img p1 p2 c) x y =
  (λ p, if in_rect p1 p2 x y then c else p) <$> pixel_at img x y.
Proof.
  destruct (decide (0 <= x ∧ 0 <= y)) as [[Hx Hy]|H].
  - rewrite !pixel_at_lookup by done. rewrite lookup_fill_rect.
    by rewrite !Z2Nat.id by done.
  - rewrite !pixel_at_neg by lia. done.
Qed.

(** The label plate of lines 104-112 ([overlay] a copy of the canvas
    with a filled rectangle, then [addWeighted(overlay, a, canvas, b, 0)]
    with [b] the weight OpenCV uses for [1 - a]) blends the plate colour
    into the pixels of the rectangle and leaves every other pixel exactly
    as it was when the two weights add up to 1 within [1/1024]. *)
Lemma plate_pixel img p1 p2 c alpha beta x y p :
  (Qabs (alpha + beta - 1) <= 1 # 1024)%Q → pixel_u8 p → pixel_at img x y = Some p →
  pixel_at (addWeighted (fill_rect img p1 p2 c) alpha img beta 0) x y =
  Some (if in_rect p1 p2 x y then blend_pixel alpha beta 0 c p else p).
Proof.
  intros Hw Hp Hat.
  destruct (decide (0 <= x ∧ 0 <= y)) as [[Hx Hy]|H];
    [|rewrite pixel_at_neg in Hat by lia; discriminate].
  pose proof (fill_rect_at img p1 p2 c x y) as Hf. rewrite Hat in Hf.
  rewrite pixel_at_lookup in Hat, Hf |- * by done.
  rewrite lookup_addWeighted, Hf, Hat; simpl.
  destruct (in_rect p1 p2 x y); [done|]. by rewrite blend_pixel_same.
Qed.


(** C21: At opacity 1 the plate replaces the pixels under it by the plate
    colour. *)
Theorem plate_opaque img p1 p2 c x y p :
  pixel_u8 p → pixel_u8 c → pixel_at img x y = Some p → in_rect p1 p2 x y = true →
  pixel_at (addWeighted (fill_rect img p1 p2 c) 1 img (1 - 1) 0) x y = Some c.
Proof.
  intros Hp Hc Hat Hin. rewrite (plate_pixel _ _ _ _ _ _ _ _ p), Hin by (done || reflexivity).
  by rewrite blend_pixel_opaque.
Qed.

(** C22: At opacity 0 the plate leaves the whole canvas unchanged. *)
Theorem plate_transparent img p1 p2 c :
  image_u8 img → addWeighted (fill_rect img p1 p2 c) 0 img (1 - 0) 0 = img.
Proof.
  intros Hu. unfold addWeighted. pose proof (shape_fill_rect img p1 p2 c) as Hs.
  induction Hs as [|r1 r2 X rows Hlen _ IH]; [done|]. inversion Hu; subst. simpl.
  f_equal; [|by apply IH].
  apply (zip_with_keep_snd _ pixel_u8); [done|done|].
  intros; by apply blend_pixel_transparent.
Qed.

(** ** Witnesses *)

Definition gray (v : Z) : pixel := mkPixel v v v.
Definition demo_img : image := [[gray 1; gray 2]; [gray 3; gray 4]].
Definition demo_value : list Z := [50; 50; 50].
Definition demo_bordered : image :=
  match copyMakeBorder demo_img 1 demo_value with Ok i => i | Raise _ => [] end.

Lemma demo_img_rect : rectangular demo_img.
Proof. repeat constructor. Qed.

Lemma demo_img_u8 : image_u8 demo_img.
Proof. repeat constructor; unfold is_u8; simpl; lia. Qed.

Lemma demo_border_Ok : copyMakeBorder demo_img 1 demo_value = Ok demo_bordered.
Proof. reflexivity. Qed.

Lemma copyMakeBorder_inner_witness :
  rectangular demo_img ∧ copyMakeBorder demo_img 1 demo_value = Ok demo_bordered ∧
  0 <= 1 < Z.of_nat (width demo_img) ∧ 0 <= 0 < Z.of_nat (height demo_img) ∧
  pixel_at demo_bordered (1 + 1) (0 + 1) = pixel_at demo_img 1 0.
Proof.
  assert (Hx : 0 <= 1 < Z.of_nat (width demo_img)) by (cbn; lia).
  assert (Hy : 0 <= 0 < Z.of_nat (height demo_img)) by (cbn; lia).
  refine (conj demo_img_rect (conj demo_border_Ok (conj Hx (conj Hy _)))).
  exact (copyMakeBorder_inner demo_img 1 demo_value demo_bordered 1 0 demo_img_rect demo_border_Ok Hx Hy).
Defined.

Lemma copyMakeBorder_negative_witness :
  INT_MIN <= -1 < 0 ∧ (length demo_value ≤ 4)%nat ∧
  copyMakeBorder demo_img (-1) demo_value =
  Raise (CvError "top >= 0 && bottom >= 0 && left >= 0 && right >= 0").
Proof.
  assert (Ht : INT_MIN <= -1 < 0) by (unfold INT_MIN; lia).
  assert (Hv : (length demo_value ≤ 4)%nat) by (simpl; lia).
  refine (conj Ht (conj Hv _)). exact (copyMakeBorder_negative demo_img (-1) demo_value Ht Hv).
Defined.

(** The weights OpenCV uses for [bg_opacity = 0.6]: [0.6] and the
    [double] [1 - 0.6], each rounded to [float]. *)
Definition f32_06 : Q := 10066330 # 16777216.
Definition f32_04 : Q := 6710886 # 16777216.


Lemma plate_opaque_witness :
  pixel_u8 (gray 2) ∧ pixel_u8 (gray 200) ∧ pixel_at demo_img 1 0 = Some (gray 2) ∧
  in_rect (1, 0) (5, 0) 1 0 = true ∧
  pixel_at (addWeighted (fill_rect demo_img (1, 0) (5, 0) (gray 200)) 1 demo_img (1 - 1) 0) 1 0 =
  Some (gray 200).
Proof.
  assert (Hp : pixel_u8 (gray 2)) by (split_and!; unfold is_u8; simpl; lia).
  assert (Hc : pixel_u8 (gray 200)) by (split_and!; unfold is_u8; simpl; lia).
  assert (Ha : pixel_at demo_img 1 0 = Some (gray 2)) by reflexivity.
  assert (Hi : in_rect (1, 0) (5, 0) 1 0 = true) by reflexivity.
  split_and!; try assumption. exact (plate_opaque demo_img _ _ _ _ _ _ Hp Hc Ha Hi).
Defined.

Lemma plate_transparent_witness :
  image_u8 demo_img ∧
  addWeighted (fill_rect demo_img (1, 0) (5, 0) (gray 200)) 0 demo_img (1 - 0) 0 = demo_img.
Proof. split; [exact demo_img_u8|]. exact (plate_transparent demo_img _ _ _ demo_img_u8). Defined.

End Imaging.
