(* ===== verification/Raster.v ===== *)
(** * The drawing primitives that the model leaves abstract

    Three OpenCV calls of the detection loop produce pixels by
    rasterising lines and glyphs: the box outline ([cv2.rectangle] with
    thickness 2, line 96), the label text ([cv2.putText] with
    [FONT_HERSHEY_SIMPLEX] and [LINE_AA], line 114) and the measure of
    the label ([cv2.getTextSize], line 100).  Their pixels are not
    modelled; the class [Raster] names them, and [RasterLaws] states what
    the annotation pipeline relies on: they keep the geometry of the
    canvas, they keep channels in [0, 255], and a text extent is not
    negative.  Every theorem of [Annotate] and [Handler] holds for any
    instance of the laws.  [ThinRaster] is one such instance, a plain
    rasteriser (the outline painted as four filled bands, text not
    drawn, a fixed-pitch text extent), used to run the pipeline on
    concrete inputs. *)

From S2P Require Import Prelude Imaging.

Local Open Scope Z_scope.

Import Imaging.

Class Raster := {
  (** [cv2.rectangle(img, p1, p2, color, thickness)] with [thickness > 0]. *)
  draw_outline : image → Z * Z → Z * Z → pixel → Z → image;
  (** [cv2.putText(img, text, org, FONT_HERSHEY_SIMPLEX, scale, color,
      thickness, cv2.LINE_AA)]. *)
  put_text : image → string → Z * Z → Q → pixel → Z → image;
  (** [cv2.getTextSize(text, FONT_HERSHEY_SIMPLEX, scale, thickness)]:
      [((width, height), baseline)]. *)
  text_size : string → Q → Z → (Z * Z) * Z;
}.

Class RasterLaws `{Raster} := {
  draw_outline_shape img p1 p2 c th : same_shape (draw_outline img p1 p2 c th) img;
  put_text_shape img s org sc c th : same_shape (put_text img s org sc c th) img;
  draw_outline_u8 img p1 p2 c th :
    image_u8 img → pixel_u8 c → image_u8 (draw_outline img p1 p2 c th);
  put_text_u8 img s org sc c th :
    image_u8 img → pixel_u8 c → image_u8 (put_text img s org sc c th);
  text_size_nonneg s sc th :
    0 <= (text_size s sc th).1.1 ∧ 0 <= (text_size s sc th).1.2;
}.

(** ** A rasteriser to run the model *)

Module ThinRaster.

(** The outline as four bands [th] pixels wide along the edges. *)
Definition outline (img : image) (p1 p2 : Z * Z) (c : pixel) (th : Z) : image :=
  let '(x1, y1) := p1 in let '(x2, y2) := p2 in
  let img := fill_rect img (x1, y1) (x2, y1 + th - 1) c in
  let img := fill_rect img (x1, y2 - th + 1) (x2, y2) c in
  let img := fill_rect img (x1, y1) (x1 + th - 1, y2) c in
  fill_rect img (x2 - th + 1, y1) (x2, y2) c.

#[export] Instance thin_raster : Raster := {
  draw_outline := outline;
  put_text img _ _ _ _ _ := img;
  text_size s _ th := ((10 * Z.of_nat (String.length s), 12), 4 + th);
}.

#[export] Instance thin_raster_laws : RasterLaws.
Proof.
  split; intros.
  - destruct p1, p2. unfold draw_outline; simpl; unfold outline.
    repeat (etransitivity; [apply same_shape_fill_rect|]). reflexivity.
  - reflexivity.
  - destruct p1, p2. unfold draw_outline; simpl; unfold outline. auto 6 with yolo.
  - done.
  - simpl. lia.
Qed.

End ThinRaster.
