(* ===== verification/Annotate.v ===== *)
(** * The detection loop of [processar_imagem] (lines 81-114)

    For every box of every result of the detector, in order, the loop
    keeps the box when its confidence reaches [min_confidence], shifts
    its corners by the border thickness, draws the outline, measures the
    label, blends a plate behind it and writes it.  [annotate_box],
    [annotate_boxes] and [annotate_results] are the loop as written, an
    image threaded through the iterations and the first exception ending
    the request, with the checks of the OpenCV calls in the order they
    happen: the class lookup, the C [int] conversion of the text
    thickness at [getTextSize], the plate colour, and [putText]'s colour
    and its assertion on the thickness.  [plan_box] and [plan] describe
    the same loop as the list of drawing commands it issues; [render]
    replays a list on a canvas, and the lemma [annotate_results_plan]
    states that the loop is [render] of its plan, errors included.  The
    theorems: the loop draws, for the kept boxes in order, outline, plate
    and label at the coordinates of lines 89-108 ([annotate_results_draws],
    [plan_box_kept]); every command lies in bordered-image coordinates
    ([plan_bordered_space]); nothing kept leaves the canvas unchanged; a
    background colour too long for OpenCV fails the request exactly when
    a box is kept. *)

From S2P Require Import Prelude PyStr Imaging Raster.

Local Open Scope Z_scope.

Import Imaging PyString.

Module Annotate.

(** ** Data *)

(** A box of [result.boxes]: [box.xyxy[0]], [box.conf[0]], [box.cls[0]]. *)
Record box := mkBox {
  xyxy : Q * Q * Q * Q;
  conf : Q;
  cls : Q;
}.

(** A result of [detector(cvImage)]: its [boxes]. *)
Record result := mkResult { boxes : list box }.

(** The numeric query parameters of [processar_imagem] (lines 46-53). *)
Record style := mkStyle {
  min_confidence : Q;
  pad_thickness : Z;
  text_scale : Q;
  text_thickness : Z;
  bg_opacity : Q;
}.

(** [int(x)] on a float: truncation toward zero. *)
Definition py_trunc (q : Q) : Z := Z.quot (Qnum q) (Zpos (Qden q)).

(** Line 86: [x1, y1, x2, y2 = map(int, box.xyxy[0])]. *)
Definition box_coords (b : box) : Z * Z * Z * Z :=
  let '(x1, y1, x2, y2) := xyxy b in (py_trunc x1, py_trunc y1, py_trunc x2, py_trunc y2).

(** Lines 90-93: the corners shifted by the border thickness. *)
Definition shifted_corners (t : Z) (c : Z * Z * Z * Z) : (Z * Z) * (Z * Z) :=
  let '(x1, y1, x2, y2) := c in ((x1 + t, y1 + t), (x2 + t, y2 + t)).

(** Line 96: the outline's colour [(0, 255, 0)] and thickness. *)
Definition box_color : list Z := [0; 255; 0].
Definition box_thickness : Z := 2.

(** Line 101: [textOrigin = (x1, y1 - 10)], from the shifted corner. *)
Definition text_origin (p1 : Z * Z) : Z * Z := (p1.1, p1.2 - 10).

(** Lines 107-108: the corners of the label plate. *)
Definition plate_p1 (org : Z * Z) (th : Z) : Z * Z := (org.1, org.2 - th - 5).
Definition plate_p2 (org : Z * Z) (tw : Z) : Z * Z := (org.1 + tw + 5, org.2 + 5).

(** The drawing calls the loop makes on the canvas. *)
Inductive draw_cmd :=
| Outline (p1 p2 : Z * Z) (c : pixel) (th : Z)
| Plate (p1 p2 : Z * Z) (c : pixel) (alpha : Q)
| Text (label : string) (org : Z * Z) (scale : Q) (c : pixel) (th : Z).

(** The colours a command carries are bytes. *)
Definition cmd_u8 (c : draw_cmd) : Prop :=
  match c with
  | Outline _ _ col _ | Plate _ _ col _ | Text _ _ _ col _ => pixel_u8 col
  end.

(** Where a command is drawn for the box [b] on a canvas bordered by
    [t]: the corners of the outline, the left edge and bottom of the
    plate, the origin of the text, all shifted by [t] (spec section 3:
    drawing happens in bordered-image space). *)
Definition drawn_for (t : Z) (b : box) (c : draw_cmd) : Prop :=
  let '(x1, y1, x2, y2) := box_coords b in
  match c with
  | Outline p1 p2 _ _ => p1 = (x1 + t, y1 + t) ∧ p2 = (x2 + t, y2 + t)
  | Plate p1 p2 _ _ => p1.1 = x1 + t ∧ p2.2 = y1 + t - 5
  | Text _ org _ _ _ => org = (x1 + t, y1 + t - 10)
  end.

(** The checks of [cv2.putText] (line 114) around its drawing: the
    colour is converted ([to_scalar]), OpenCV asserts that the thickness
    is not negative (in [PolyLine], for the strokes of the glyphs; a
    label always has some, its confidence has digits), and a pending
    [OverflowError] of the colour surfaces as [SystemError] when the call
    returns.  The thickness has already passed the C [int] conversion at
    [getTextSize] (line 100). *)
Definition text_color_arg (txt : list Z) (thick : Z) : res pixel :=
  s ← to_scalar txt;
  if bool_decide (thick < 0) then Raise (CvError "0 <= shift && shift <= XY_SHIFT && thickness >= 0")
  else if scalar_overflows txt then Raise SystemError
  else Ok (scalar_pixel s).

Section loop.
Context `{Raster}.

(** One iteration of the inner loop (lines 84-114) on the canvas [img];
    [names] is [detector.names], [bg] and [txt] the tuples
    [backgroundColor] and [annotationColor]. *)
Definition annotate_box (st : style) (names : gmap Z string) (bg txt : list Z)
    (img : image) (b : box) : res image :=
  if Qle_bool (min_confidence st) (conf b) then
    name ← of_option KeyError (names !! py_trunc (cls b));
    let label := label_text name (conf b) in
    let '(p1, p2) := shifted_corners (pad_thickness st) (box_coords b) in
    green ← color_arg box_color;
    let img := draw_outline img p1 p2 green box_thickness in
    _ ← int_arg (text_thickness st);
    let '((tw, th), _) := text_size label (text_scale st) (text_thickness st) in
    let org := text_origin p1 in
    bgc ← color_arg bg;
    let overlay := fill_rect img (plate_p1 org th) (plate_p2 org tw) bgc in
    let img := addWeighted overlay (bg_opacity st) img (1 - bg_opacity st) 0 in
    tc ← text_color_arg txt (text_thickness st);
    Ok (put_text img label org (text_scale st) tc (text_thickness st))
  else Ok img.

(** [for box in result.boxes] (line 83). *)
Fixpoint annotate_boxes (st : style) (names : gmap Z string) (bg txt : list Z)
    (img : image) (bs : list box) : res image :=
  match bs with
  | [] => Ok img
  | b :: bs' => img' ← annotate_box st names bg txt img b; annotate_boxes st names bg txt img' bs'
  end.

(** [for result in detectionResults] (line 82). *)
Fixpoint annotate_results (st : style) (names : gmap Z string) (bg txt : list Z)
    (img : image) (rs : list result) : res image :=
  match rs with
  | [] => Ok img
  | r :: rs' =>
      img' ← annotate_boxes st names bg txt img (boxes r);
      annotate_results st names bg txt img' rs'
  end.

(** ** The loop as a plan of drawing commands *)

(** The commands one box issues, in the order of the code, and the
    exceptions it raises, in the same order. *)
Definition plan_box (st : style) (names : gmap Z string) (bg txt : list Z)
    (b : box) : res (list draw_cmd) :=
  if Qle_bool (min_confidence st) (conf b) then
    name ← of_option KeyError (names !! py_trunc (cls b));
    let label := label_text name (conf b) in
    let '(p1, p2) := shifted_corners (pad_thickness st) (box_coords b) in
    green ← color_arg box_color;
    _ ← int_arg (text_thickness st);
    let '((tw, th), _) := text_size label (text_scale st) (text_thickness st) in
    let org := text_origin p1 in
    bgc ← color_arg bg;
    tc ← text_color_arg txt (text_thickness st);
    Ok [Outline p1 p2 green box_thickness;
        Plate (plate_p1 org th) (plate_p2 org tw) bgc (bg_opacity st);
        Text label org (text_scale st) tc (text_thickness st)]
  else Ok [].

Definition all_boxes (rs : list result) : list box := concat (boxes <$> rs).

Definition plan (st : style) (names : gmap Z string) (bg txt : list Z)
    (rs : list result) : res (list draw_cmd) :=
  (λ ls, concat ls) <$> mapM (plan_box st names bg txt) (all_boxes rs).

(** What each command does to the canvas; a plate is lines 104-112. *)
Definition exec_cmd (img : image) (c : draw_cmd) : image :=
  match c with
  | Outline p1 p2 col th => draw_outline img p1 p2 col th
  | Plate p1 p2 col alpha => addWeighted (fill_rect img p1 p2 col) alpha img (1 - alpha) 0
  | Text s org sc col th => put_text img s org sc col th
  end.

Definition render (img : image) (cmds : list draw_cmd) : image := foldl exec_cmd img cmds.

(** The three commands a kept box issues, with the arithmetic of lines
    89-108 written out (the corners shifted by the border thickness, the
    label 10 pixels above the top-left corner, the plate padded by 5). *)
Definition kept_cmds (st : style) (label : string) (bgc tc : pixel) (b : box) : list draw_cmd :=
  let '(x1, y1, x2, y2) := box_coords b in
  let t := pad_thickness st in
  let '((tw, th), _) := text_size label (text_scale st) (text_thickness st) in
  [Outline (x1 + t, y1 + t) (x2 + t, y2 + t) (mkPixel 0 255 0) 2;
   Plate (x1 + t, y1 + t - 10 - th - 5) (x1 + t + tw + 5, y1 + t - 10 + 5) bgc (bg_opacity st);
   Text label (x1 + t, y1 + t - 10) (text_scale st) tc (text_thickness st)].

(** ** Lemmas *)

Lemma render_app img c1 c2 : render img (c1 ++ c2) = render (render img c1) c2.
Proof. unfold render. by rewrite foldl_app. Qed.

Lemma green_arg : color_arg box_color = Ok (mkPixel 0 255 0).
Proof. reflexivity. Qed.

Lemma text_color_arg_color txt th : 0 <= th → text_color_arg txt th = color_arg txt.
Proof.
  intros Hth. unfold text_color_arg, color_arg.
  destruct (to_scalar txt); simpl; [|done]. by rewrite bool_decide_eq_false_2 by lia.
Qed.

Lemma text_color_arg_u8 txt th c : text_color_arg txt th = Ok c → pixel_u8 c.
Proof.
  unfold text_color_arg. destruct (to_scalar txt) as [[[[s0 s1] s2] s3]|]; simpl; [|discriminate].
  case_bool_decide; [discriminate|]. destruct (scalar_overflows txt); [discriminate|].
  intros [= <-]. split_and!; apply saturate_u8_range.
Qed.

Lemma annotate_box_plan st names bg txt img b :
  annotate_box st names bg txt img b = render img <$> plan_box st names bg txt b.
Proof.
  unfold annotate_box, plan_box. destruct (Qle_bool _ _); [|done].
  destruct (names !! _); cbn [of_option]; rewrite ?bind_Ok; [|done].
  destruct (shifted_corners _ _) as [p1 p2]. rewrite green_arg, !bind_Ok.
  destruct (int_arg _); rewrite ?bind_Ok; [|done].
  destruct (text_size _ _ _) as [[tw th] bl].
  destruct (color_arg bg); rewrite ?bind_Ok; [|done].
  by destruct (text_color_arg txt _).
Qed.

Lemma annotate_boxes_plan st names bg txt img bs :
  annotate_boxes st names bg txt img bs =
  render img <$> ((λ ls, concat ls) <$> mapM (plan_box st names bg txt) bs).
Proof.
  revert img; induction bs as [|b bs IH]; intros img; [done|].
  cbn [annotate_boxes mapM]. rewrite annotate_box_plan.
  destruct (plan_box st names bg txt b) as [cs|e]; simpl; [|done].
  rewrite IH. destruct (mapM _ bs); simpl; [|done].
  by rewrite render_app.
Qed.

Lemma annotate_boxes_app st names bg txt img bs1 bs2 :
  annotate_boxes st names bg txt img (bs1 ++ bs2) =
  img' ← annotate_boxes st names bg txt img bs1; annotate_boxes st names bg txt img' bs2.
Proof.
  revert img; induction bs1 as [|b bs1 IH]; intros img; [done|]. simpl.
  destruct (annotate_box st names bg txt img b); simpl; [apply IH|done].
Qed.

Lemma annotate_results_boxes st names bg txt img rs :
  annotate_results st names bg txt img rs = annotate_boxes st names bg txt img (all_boxes rs).
Proof.
  revert img; induction rs as [|r rs IH]; intros img; [done|].
  unfold all_boxes; simpl. rewrite annotate_boxes_app.
  destruct (annotate_boxes _ _ _ _ img (boxes r)); simpl; [apply IH|done].
Qed.

(** The detection loop as written (an image threaded through the boxes
    of every result, the first exception ending it) is the rendering of
    the plan of drawing commands it issues: same image, same exception. *)
Lemma annotate_results_plan st names bg txt img rs :
  annotate_results st names bg txt img rs = render img <$> plan st names bg txt rs.
Proof. rewrite annotate_results_boxes, annotate_boxes_plan. reflexivity. Qed.

Lemma plan_box_below st names bg txt b :
  Qle_bool (min_confidence st) (conf b) = false → plan_box st names bg txt b = Ok [].
Proof. unfold plan_box. by intros ->. Qed.

(** What a box's plan is: nothing below the threshold; above it, the
    three commands of [kept_cmds], once the class is named and the
    colours have passed OpenCV's checks. *)
Lemma plan_box_Ok_inv st names bg txt b cs :
  plan_box st names bg txt b = Ok cs →
  (Qle_bool (min_confidence st) (conf b) = false ∧ cs = []) ∨
  (Qle_bool (min_confidence st) (conf b) = true ∧
   ∃ name bgc tc, names !! py_trunc (cls b) = Some name ∧ color_arg bg = Ok bgc ∧
     text_color_arg txt (text_thickness st) = Ok tc ∧
     cs = kept_cmds st (label_text name (conf b)) bgc tc b).
Proof.
  unfold plan_box. destruct (Qle_bool _ _); [|intros [= <-]; by left]. intros Hp. right.
  split; [done|]. unfold kept_cmds, shifted_corners in *.
  destruct (names !! _) as [name|]; cbn [of_option] in Hp; rewrite ?bind_Ok in Hp; [|discriminate].
  exists name. destruct (box_coords b) as [[[x1 y1] x2] y2].
  rewrite green_arg, bind_Ok in Hp. destruct (int_arg _); rewrite ?bind_Ok in Hp; [|discriminate].
  destruct (text_size _ _ _) as [[tw th] bl].
  destruct (color_arg bg) as [bgc|]; rewrite ?bind_Ok in Hp; [|discriminate]. exists bgc.
  destruct (text_color_arg _ _) as [tc|]; rewrite ?bind_Ok in Hp; [|discriminate]. exists tc.
  by simplify_eq/=.
Qed.

(** A named kept box whose colours and thickness OpenCV accepts issues
    the commands of [kept_cmds]. *)
Lemma plan_box_kept_Ok st names bg txt b name bgc tc :
  Qle_bool (min_confidence st) (conf b) = true → names !! py_trunc (cls b) = Some name →
  0 <= text_thickness st <= INT_MAX → color_arg bg = Ok bgc → color_arg txt = Ok tc →
  plan_box st names bg txt b = Ok (kept_cmds st (label_text name (conf b)) bgc tc b).
Proof.
  intros Hk Hn Ht Hbg Htc. unfold plan_box, kept_cmds, shifted_corners.
  rewrite Hk, Hn, text_color_arg_color, Htc, Hbg, int_arg_Ok by (unfold INT_MIN in *; lia).
  cbn [of_option]. rewrite bind_Ok. destruct (box_coords b) as [[[x1 y1] x2] y2].
  rewrite green_arg, !bind_Ok. by destruct (text_size _ _ _) as [[tw th] bl].
Qed.

Lemma plan_box_Ok_u8 st names bg txt b cs :
  plan_box st names bg txt b = Ok cs → Forall cmd_u8 cs.
Proof.
  intros [[_ ->]|(_ & name & bgc & tc & _ & Hbg & Htc & ->)]%plan_box_Ok_inv; [done|].
  unfold kept_cmds. destruct (box_coords b) as [[[x1 y1] x2] y2].
  destruct (text_size _ _ _) as [[tw th] bl].
  constructor; [|constructor; [|constructor; [|constructor]]]; simpl.
  - unfold cmd_u8, pixel_u8, is_u8; simpl; lia.
  - by eapply color_arg_u8.
  - by eapply text_color_arg_u8.
Qed.

Lemma plan_Ok_inv st names bg txt bs cmds :
  (λ ls, concat ls) <$> mapM (plan_box st names bg txt) bs = Ok cmds →
  ∃ css, Forall2 (λ b cs, plan_box st names bg txt b = Ok cs) bs css ∧ cmds = concat css.
Proof.
  intros (css & Hm & ->)%fmap_Ok_inv. exists css. split; [|done].
  by apply mapM_res_Ok_inv.
Qed.

Lemma plan_box_drawn_for st names bg txt b cs :
  plan_box st names bg txt b = Ok cs →
  Forall (λ c, (min_confidence st <= conf b)%Q ∧ drawn_for (pad_thickness st) b c) cs.
Proof.
  intros [[_ ->]|(Hq & name & bgc & tc & _ & _ & _ & ->)]%plan_box_Ok_inv; [done|].
  apply Qle_bool_iff in Hq. unfold kept_cmds, drawn_for.
  destruct (box_coords b) as [[[x1 y1] x2] y2].
  destruct (text_size _ _ _) as [[tw th] bl]. repeat constructor; simpl; try done; lia.
Qed.

Lemma plan_boxes_drawn_for st names bg txt bs css :
  Forall2 (λ b cs, plan_box st names bg txt b = Ok cs) bs css →
  Forall (λ c, ∃ b, b ∈ bs ∧ (min_confidence st <= conf b)%Q ∧ drawn_for (pad_thickness st) b c)
         (concat css).
Proof.
  induction 1 as [|b cs bs css Hb _ IH]; simpl; [done|]. apply Forall_app; split.
  - eapply Forall_impl; [exact (plan_box_drawn_for _ _ _ _ _ _ Hb)|].
    intros c [Hc Hd]. exists b. split_and!; [apply elem_of_cons; by left|done|done].
  - eapply Forall_impl; [exact IH|]. intros c (b' & Hb' & Hc & Hd).
    exists b'. split_and!; [apply elem_of_cons; by right|done|done].
Qed.

Lemma Qle_bool_lt (a b : Q) : (b < a)%Q → Qle_bool a b = false.
Proof.
  intros Hlt. destruct (Qle_bool a b) eqn:E; [|done]. apply Qle_bool_iff in E.
  exfalso. by apply (Qlt_not_le _ _ Hlt).
Qed.

(** Boxes all below the threshold leave the canvas as it is. *)
Lemma annotate_boxes_all_below st names bg txt img bs :
  Forall (λ b, (conf b < min_confidence st)%Q) bs →
  annotate_boxes st names bg txt img bs = Ok img.
Proof.
  induction 1 as [|b bs Hb _ IH]; [done|].
  simpl. rewrite annotate_box_plan, plan_box_below by (by apply Qle_bool_lt). exact IH.
Qed.

(** When every kept box raises, the loop raises the exception of the
    first kept box and is the identity when none is kept. *)
Lemma annotate_boxes_first_kept st names bg txt img bs (E : box → exc) :
  (∀ b img', Qle_bool (min_confidence st) (conf b) = true →
             annotate_box st names bg txt img' b = Raise (E b)) →
  annotate_boxes st names bg txt img bs =
  match list_find (λ b, Qle_bool (min_confidence st) (conf b) = true) bs with
  | None => Ok img
  | Some (_, b) => Raise (E b)
  end.
Proof.
  intros HE. induction bs as [|b bs IH]; [done|]. cbn [annotate_boxes list_find].
  case_decide as Hk.
  - by rewrite HE.
  - rewrite annotate_box_plan, plan_box_below by (by apply not_true_is_false). simpl.
    rewrite IH. by destruct (list_find _ bs) as [[i b']|].
Qed.

(** For colours OpenCV accepts and a named kept box, the loop and its
    plan are the commands of [kept_cmds] for the kept boxes, in order. *)
Lemma plan_boxes_kept st names bg txt bs bgc tc :
  color_arg bg = Ok bgc → color_arg txt = Ok tc → 0 <= text_thickness st <= INT_MAX →
  Forall (λ b, Qle_bool (min_confidence st) (conf b) = true → is_Some (names !! py_trunc (cls b))) bs →
  mapM (plan_box st names bg txt) bs =
  Ok ((λ b, if Qle_bool (min_confidence st) (conf b)
            then kept_cmds st (label_text (default "" (names !! py_trunc (cls b))) (conf b)) bgc tc b
            else []) <$> bs).
Proof.
  intros Hbg Htc Ht. induction 1 as [|b bs Hb _ IH]; [done|]. cbn [mapM].
  destruct (Qle_bool _ _) eqn:Hk.
  - destruct (Hb eq_refl) as [name Hn].
    rewrite (plan_box_kept_Ok _ _ _ _ _ name bgc tc) by done. simpl. by rewrite IH, Hk, Hn.
  - rewrite plan_box_below by done. simpl. by rewrite IH, Hk.
Qed.

Lemma concat_fmap_filter {A B} (P : A → bool) (f : A → list B) (l : list A) :
  concat ((λ x, if P x then f x else []) <$> l) = concat (f <$> filter (λ x, P x = true) l).
Proof.
  induction l as [|x l IH]; [done|]. rewrite fmap_cons, filter_cons. cbn [concat]. cbv beta.
  destruct (P x) eqn:E.
  - rewrite decide_True, fmap_cons by done. cbn [concat]. by rewrite IH.
  - rewrite decide_False by congruence. by rewrite IH.
Qed.

(** A box the loop keeps whose class index [detector.names] lacks. *)
Definition unnamed_kept (st : style) (names : gmap Z string) (b : box) : Prop :=
  Qle_bool (min_confidence st) (conf b) = true ∧ names !! py_trunc (cls b) = None.

(** With colour tuples and a text thickness OpenCV accepts, the only
    exception the loop can raise is the [KeyError] of [detector.names],
    at a kept box whose class has no name. *)
Lemma annotate_box_Raise st names bg txt img b e :
  scalar_ok bg = true → scalar_ok txt = true → 0 <= text_thickness st <= INT_MAX →
  annotate_box st names bg txt img b = Raise e → e = KeyError ∧ unnamed_kept st names b.
Proof.
  intros Hbg Htx Ht. rewrite annotate_box_plan. unfold unnamed_kept.
  destruct (Qle_bool _ _) eqn:Hk; [|by rewrite plan_box_below].
  destruct (names !! _) as [name|] eqn:Hn.
  - destruct (color_arg_ok bg Hbg) as [bgc Hb], (color_arg_ok txt Htx) as [tc Htc].
    by rewrite (plan_box_kept_Ok _ _ _ _ _ name bgc tc).
  - unfold plan_box. rewrite Hk, Hn. by intros [= <-].
Qed.

Lemma annotate_results_Raise st names bg txt img rs e :
  scalar_ok bg = true → scalar_ok txt = true → 0 <= text_thickness st <= INT_MAX →
  annotate_results st names bg txt img rs = Raise e →
  e = KeyError ∧ ∃ b, b ∈ all_boxes rs ∧ unnamed_kept st names b.
Proof.
  intros Hbg Htx Ht. rewrite annotate_results_boxes.
  generalize (all_boxes rs) as bs. intros bs. revert img.
  induction bs as [|b bs IH]; intros img; simpl; [discriminate|].
  destruct (annotate_box _ _ _ _ _ b) eqn:E; simpl.
  - intros Hr. destruct (IH _ Hr) as [-> (b' & Hb' & Hk)].
    split; [done|]. exists b'. split; [apply elem_of_cons; by right|done].
  - intros [= <-]. destruct (annotate_box_Raise _ _ _ _ _ _ _ Hbg Htx Ht E) as [-> Hk].
    split; [done|]. exists b. split; [apply elem_of_cons; by left|done].
Qed.

Lemma same_shape_exec_cmd `{!RasterLaws} img c : same_shape (exec_cmd img c) img.
Proof.
  destruct c; simpl.
  - apply draw_outline_shape.
  - apply same_shape_addWeighted, same_shape_fill_rect.
  - apply put_text_shape.
Qed.

Lemma exec_cmd_u8 `{!RasterLaws} img c :
  image_u8 img → cmd_u8 c → image_u8 (exec_cmd img c).
Proof.
  destruct c; simpl; intros Hi Hc.
  - by apply draw_outline_u8.
  - apply image_u8_addWeighted.
  - by apply put_text_u8.
Qed.

Lemma render_shape_u8 `{!RasterLaws} img cmds :
  same_shape (render img cmds) img ∧ (image_u8 img → Forall cmd_u8 cmds → image_u8 (render img cmds)).
Proof.
  unfold render. revert img; induction cmds as [|c cmds IH]; intros img; simpl; [split; [reflexivity|done]|].
  destruct (IH (exec_cmd img c)) as [IH1 IH2]. split.
  - etransitivity; [exact IH1|apply same_shape_exec_cmd].
  - intros Hi Hc. inversion Hc; subst. apply IH2; [by apply exec_cmd_u8|done].
Qed.

(** ** Theorems *)

(** C1: For colours and a text thickness OpenCV accepts, and classes the
    detector names, the detection loop draws, box after box in the order
    of the results, for every box that reaches the threshold and for no
    other: the green outline at the corners shifted by the border, then
    the label plate blended over the canvas, then the label on top, at
    the coordinates of lines 89-108 ([kept_cmds]). *)
Theorem annotate_results_draws st names bg txt img rs bgc tc :
  color_arg bg = Ok bgc → color_arg txt = Ok tc → 0 <= text_thickness st <= INT_MAX →
  Forall (λ b, Qle_bool (min_confidence st) (conf b) = true → is_Some (names !! py_trunc (cls b)))
         (all_boxes rs) →
  annotate_results st names bg txt img rs =
  Ok (render img (concat ((λ b, kept_cmds st (label_text (default "" (names !! py_trunc (cls b))) (conf b)) bgc tc b)
                          <$> filter (λ b, Qle_bool (min_confidence st) (conf b) = true) (all_boxes rs)))).
Proof.
  intros Hbg Htc Ht Hn. rewrite annotate_results_plan. unfold plan.
  rewrite (plan_boxes_kept _ _ _ _ _ bgc tc) by done. simpl.
  by rewrite (concat_fmap_filter (λ b, Qle_bool (min_confidence st) (conf b))).
Qed.

(** C2: A box whose confidence reaches the threshold (the bound is
    inclusive) issues, in this order, the green outline at its corners
    shifted by the border thickness, the label plate spanning the
    measured text from 10 pixels above the shifted top-left corner, and
    the label ["<name> <conf:.2f>"] anchored there. *)
Theorem plan_box_kept st names bg txt b name bgc tc :
  (min_confidence st <= conf b)%Q →
  names !! py_trunc (cls b) = Some name →
  color_arg bg = Ok bgc → color_arg txt = Ok tc → 0 <= text_thickness st <= INT_MAX →
  let '(x1, y1, x2, y2) := box_coords b in
  let t := pad_thickness st in
  let label := label_text name (conf b) in
  let '((tw, th), _) := text_size label (text_scale st) (text_thickness st) in
  plan_box st names bg txt b =
  Ok [Outline (x1 + t, y1 + t) (x2 + t, y2 + t) (mkPixel 0 255 0) 2;
      Plate (x1 + t, y1 + t - 10 - th - 5) (x1 + t + tw + 5, y1 + t - 10 + 5) bgc (bg_opacity st);
      Text label (x1 + t, y1 + t - 10) (text_scale st) tc (text_thickness st)].
Proof.
  intros Hc Hn Hbg Htc Ht. unfold plan_box.
  rewrite (proj2 (Qle_bool_iff _ _) Hc), Hn, text_color_arg_color, Htc, Hbg, int_arg_Ok
    by (unfold INT_MIN in *; lia).
  cbn [of_option]. rewrite bind_Ok. unfold shifted_corners.
  destruct (box_coords b) as [[[x1 y1] x2] y2]. rewrite green_arg, !bind_Ok.
  destruct (text_size _ _ _) as [[tw th] bl]. reflexivity.
Qed.

(** A box below the threshold is dropped silently: it issues no
    drawing and cannot raise, whatever its class and the colours. *)
Lemma plan_box_dropped st names bg txt b :
  (conf b < min_confidence st)%Q → plan_box st names bg txt b = Ok [].
Proof.
  intros Hlt. by apply plan_box_below, Qle_bool_lt.
Qed.

(** C3: Spec section 3's invariant holds of the whole loop: every
    drawing command the detection loop issues belongs to a box of the
    results that reaches the threshold, and is placed in the coordinates
    of the bordered canvas, the box's corners shifted by the border
    thickness. *)
Theorem plan_bordered_space st names bg txt rs cmds :
  plan st names bg txt rs = Ok cmds →
  Forall (λ c, ∃ b, b ∈ all_boxes rs ∧ (min_confidence st <= conf b)%Q ∧
                    drawn_for (pad_thickness st) b c) cmds.
Proof. unfold plan. intros (css & Hcss & ->)%plan_Ok_inv. by apply (plan_boxes_drawn_for st names bg txt). Qed.

(** C20: When no box reaches the threshold the loop returns the canvas it
    was given: the answer is the bordered image alone. *)
Theorem annotate_results_none_kept st names bg txt img rs :
  Forall (λ b, (conf b < min_confidence st)%Q) (all_boxes rs) →
  annotate_results st names bg txt img rs = Ok img.
Proof. rewrite annotate_results_boxes. apply annotate_boxes_all_below. Qed.

(** A successful plan has three drawings per kept box, no more. *)
Lemma plan_length st names bg txt rs cmds :
  plan st names bg txt rs = Ok cmds →
  length cmds = (3 * length (filter (λ b, Qle_bool (min_confidence st) (conf b)) (all_boxes rs)))%nat.
Proof.
  intros (css & Hf & ->)%plan_Ok_inv. induction Hf as [|b cs bs css Hb _ IH]; [done|].
  rewrite filter_cons. simpl concat. rewrite length_app, IH.
  destruct (plan_box_Ok_inv _ _ _ _ _ _ Hb) as [[Hk ->]|(Hk & name & bgc & tc & _ & _ & _ & ->)];
    rewrite Hk; simpl; [done|].
  unfold kept_cmds. destruct (box_coords b) as [[[x1 y1] x2] y2].
  destruct (text_size _ _ _) as [[tw th] bl]. simpl. lia.
Qed.

(** The annotated canvas has the geometry of the canvas the loop was
    given, and its channels stay in [0, 255]. *)
Lemma annotate_results_shape `{!RasterLaws} st names bg txt img rs out :
  annotate_results st names bg txt img rs = Ok out →
  same_shape out img ∧ (image_u8 img → image_u8 out).
Proof.
  rewrite annotate_results_plan.
  destruct (plan _ _ _ _ rs) as [cmds|] eqn:E; simpl; [|discriminate].
  intros [= <-]. destruct (render_shape_u8 img cmds) as [H1 H2]. split; [done|].
  intros Hi. apply H2; [done|]. apply plan_Ok_inv in E as (css & Hf & ->).
  clear H1 H2. apply Forall_concat. induction Hf; [done|apply Forall_cons; split; [by eapply plan_box_Ok_u8|done]].
Qed.

(** C13: A background colour too long for a [cv::Scalar] (more than four
    entries) fails the request exactly when some box reaches the
    threshold: the first kept box raises, with [KeyError] when its class
    has no name and otherwise with [cv2.error] when its plate is drawn;
    with no kept box the loop returns the canvas untouched, and the
    request succeeds. *)
Theorem annotate_results_bad_color st names bg txt img rs :
  (4 < length bg)%nat → INT_MIN <= text_thickness st <= INT_MAX →
  annotate_results st names bg txt img rs =
  match list_find (λ b, Qle_bool (min_confidence st) (conf b) = true) (all_boxes rs) with
  | None => Ok img
  | Some (_, b) =>
      Raise (if names !! py_trunc (cls b) is Some _
             then CvError "Scalar value for argument is longer than 4" else KeyError)
  end.
Proof.
  intros Hbg Ht. rewrite annotate_results_boxes. apply annotate_boxes_first_kept.
  intros b img' Hk. unfold annotate_box. rewrite Hk.
  destruct (names !! _) as [name|]; cbn [of_option]; rewrite ?bind_Ok; [|done].
  destruct (shifted_corners _ _) as [p1 p2]. rewrite green_arg, bind_Ok, int_arg_Ok, bind_Ok by done.
  destruct (text_size _ _ _) as [[tw th] bl].
  unfold color_arg, to_scalar at 1. by rewrite (proj2 (Nat.leb_gt _ _) Hbg).
Qed.

End loop.

(** ** Witnesses

    The spec's example: a box from (10, 10) to (50, 50) whose confidence
    is exactly the threshold, a border of 50 pixels, drawn with
    [ThinRaster]. *)

Import ThinRaster.

Definition demo_style : style := mkStyle (1#4) 50 (7#10) 2 (1#2).
Definition demo_names : gmap Z string := <[0 := "person"]> ∅.
Definition demo_box : box := mkBox (inject_Z 10, inject_Z 10, inject_Z 50, inject_Z 50) (1#4) 0.
Definition demo_low : box := mkBox (inject_Z 10, inject_Z 10, inject_Z 50, inject_Z 50) (24#100) 0.
Definition demo_canvas : image := replicate 8 (replicate 8 (mkPixel 100 100 100)).
Definition demo_black : list Z := [0; 0; 0].
Definition demo_white : list Z := [255; 255; 255].
Definition demo_bad : list Z := [0; 0; 0; 0; 0].

Lemma plan_box_kept_witness :
  (min_confidence demo_style <= conf demo_box)%Q ∧
  demo_names !! py_trunc (cls demo_box) = Some "person"%string ∧
  color_arg demo_black = Ok (mkPixel 0 0 0) ∧ color_arg demo_white = Ok (mkPixel 255 255 255) ∧
  0 <= text_thickness demo_style <= INT_MAX ∧
  plan_box demo_style demo_names demo_black demo_white demo_box =
  Ok [Outline (60, 60) (100, 100) (mkPixel 0 255 0) 2;
      Plate (60, 33) (175, 55) (mkPixel 0 0 0) (1#2);
      Text "person 0.25" (60, 50) (7#10) (mkPixel 255 255 255) 2].
Proof.
  assert (H1 : (min_confidence demo_style <= conf demo_box)%Q) by (vm_compute; discriminate).
  assert (H2 : demo_names !! py_trunc (cls demo_box) = Some "person"%string) by reflexivity.
  assert (H3 : color_arg demo_black = Ok (mkPixel 0 0 0)) by reflexivity.
  assert (H4 : color_arg demo_white = Ok (mkPixel 255 255 255)) by reflexivity.
  assert (H5 : 0 <= text_thickness demo_style <= INT_MAX) by (vm_compute; split; discriminate).
  refine (conj H1 (conj H2 (conj H3 (conj H4 (conj H5 _))))).
  exact (plan_box_kept demo_style demo_names demo_black demo_white demo_box "person" _ _ H1 H2 H3 H4 H5).
Defined.

Lemma annotate_results_none_kept_witness :
  Forall (λ b, (conf b < min_confidence demo_style)%Q) (all_boxes [mkResult [demo_low; demo_low]]) ∧
  annotate_results demo_style demo_names demo_black demo_white demo_canvas
    [mkResult [demo_low; demo_low]] = Ok demo_canvas.
Proof.
  assert (H : Forall (λ b, (conf b < min_confidence demo_style)%Q)
                (all_boxes [mkResult [demo_low; demo_low]])) by (repeat constructor).
  split; [exact H|]. exact (annotate_results_none_kept _ _ _ _ _ _ H).
Defined.

Definition demo_results : list result := [mkResult [demo_low; demo_box]; mkResult [demo_box]].

Definition demo_plan : list draw_cmd :=
  match plan demo_style demo_names demo_black demo_white demo_results with
  | Ok cmds => cmds | Raise _ => [] end.

Lemma plan_bordered_space_witness :
  plan demo_style demo_names demo_black demo_white demo_results = Ok demo_plan ∧
  Forall (λ c, ∃ b, b ∈ all_boxes demo_results ∧ (min_confidence demo_style <= conf b)%Q ∧
                    drawn_for (pad_thickness demo_style) b c) demo_plan.
Proof.
  assert (Hp : plan demo_style demo_names demo_black demo_white demo_results = Ok demo_plan)
    by (vm_compute; reflexivity).
  split; [exact Hp|]. exact (plan_bordered_space _ _ _ _ _ _ Hp).
Defined.

Lemma annotate_results_bad_color_witness :
  (4 < length demo_bad)%nat ∧ INT_MIN <= text_thickness demo_style <= INT_MAX ∧
  annotate_results demo_style demo_names demo_bad demo_white demo_canvas demo_results =
  Raise (CvError "Scalar value for argument is longer than 4") ∧
  annotate_results demo_style demo_names demo_bad demo_white demo_canvas [mkResult [demo_low]] =
  Ok demo_canvas.
Proof.
  assert (H1 : (4 < length demo_bad)%nat) by (vm_compute; lia).
  assert (H2 : INT_MIN <= text_thickness demo_style <= INT_MAX) by (vm_compute; split; discriminate).
  refine (conj H1 (conj H2 (conj _ _))).
  - rewrite (annotate_results_bad_color _ _ _ _ _ _ H1 H2). reflexivity.
  - rewrite (annotate_results_bad_color _ _ _ _ _ _ H1 H2). reflexivity.
Defined.

(** The demo plan drawn on the demo canvas: two kept boxes, each with
    its three commands; the box below the threshold draws nothing. *)
Lemma annotate_results_draws_witness :
  color_arg demo_black = Ok (mkPixel 0 0 0) ∧ color_arg demo_white = Ok (mkPixel 255 255 255) ∧
  0 <= text_thickness demo_style <= INT_MAX ∧
  Forall (λ b, Qle_bool (min_confidence demo_style) (conf b) = true →
               is_Some (demo_names !! py_trunc (cls b))) (all_boxes demo_results) ∧
  annotate_results demo_style demo_names demo_black demo_white demo_canvas demo_results =
  Ok (render demo_canvas
        (kept_cmds demo_style "person 0.25" (mkPixel 0 0 0) (mkPixel 255 255 255) demo_box ++
         kept_cmds demo_style "person 0.25" (mkPixel 0 0 0) (mkPixel 255 255 255) demo_box)).
Proof.
  assert (H1 : color_arg demo_black = Ok (mkPixel 0 0 0)) by reflexivity.
  assert (H2 : color_arg demo_white = Ok (mkPixel 255 255 255)) by reflexivity.
  assert (H3 : 0 <= text_thickness demo_style <= INT_MAX) by (vm_compute; split; discriminate).
  assert (H4 : Forall (λ b, Qle_bool (min_confidence demo_style) (conf b) = true →
                            is_Some (demo_names !! py_trunc (cls b))) (all_boxes demo_results))
    by (repeat constructor; intros; vm_compute; eauto).
  refine (conj H1 (conj H2 (conj H3 (conj H4 _)))).
  rewrite (annotate_results_draws _ _ _ _ _ _ _ _ H1 H2 H3 H4). reflexivity.
Defined.

End Annotate.
