(* ===== verification/Handler.v ===== *)
(** * The endpoint [processar_imagem] (main.py lines 42-120)

    The handler composes the components: the model swap of [Registry], the decoding and colour conversion of
    [Imaging], the detector, the colour parsing of [PyStr], the border,
    the detection loop of [Annotate], and the JPEG encoding.  The
    collaborators the repository only calls are the class [Backend],
    with [BackendLaws] for what the pipeline needs of them:
    PIL's decoder, the detector's inference and class names, and
    [cv2.imencode]; the theorems hold for every backend.  [annotated] is
    lines 62-114 for a given detector, [process] adds the encoding
    (116-120), and [processar_imagem] is the endpoint with its state.
    The theorems: the globals the endpoint leaves (the swap persists
    even when the request then fails), the detector it runs, the size of
    the answer, the colour order of the border, the error answered with
    status 200 when encoding fails, the [KeyError] of an unknown model
    (FastAPI does not check the [enum] of its [Query]), and the causes of
    every exception. *)

From S2P Require Import Prelude PyStr Registry Imaging Raster Annotate.

Local Open Scope Z_scope.

Import PyString Registry Imaging Annotate.

Module Handler.

(** ** Data *)

(** The request: the upload and the query parameters (lines 43-54). *)
Record request := mkRequest {
  image_file : list Byte.byte;
  selected_model : string;
  min_confidence : Q;
  pad_thickness : Z;
  pad_color : string;
  text_scale : Q;
  text_thickness : Z;
  text_color : string;
  bg_color : string;
  bg_opacity : Q;
}.

(** The query defaults of lines 45-53. *)
Definition with_defaults (upload : list Byte.byte) : request :=
  mkRequest upload "yolov8n" (1#4) 50 "50,50,50" (7#10) 2 "255,255,255" "0,0,0" (1#2).

(** The two bodies the endpoint returns with status 200: the JPEG
    stream, or the JSON object [{"error": ...}] of line 119. *)
Inductive reply :=
| Jpeg (data : list Byte.byte)
| JsonError (msg : string).

(** The external collaborators. *)
Class Backend := {
  (** [np.array(Image.open(io.BytesIO(data)))]; [None] when PIL cannot
      identify the image. *)
  pil_open : list Byte.byte → option pil_array;
  (** [detector(cvImage)]. *)
  yolo_infer : YOLO → image → list result;
  (** [detector.names]. *)
  yolo_names : YOLO → gmap Z string;
  (** [cv2.imencode(".jpg", img)]; [None] when [success] is false. *)
  imencode_jpg : image → option (list Byte.byte);
}.

(** What the pipeline relies on from the collaborators: a decoded
    three- or four-channel image ([RGB], [RGBA] and the like) holds
    bytes, and the detector only reports classes its [names] table
    holds. *)
Class BackendLaws `{Backend} := {
  pil_open_u8 data a :
    pil_open data = Some a → (pa_channels a = 3 ∨ pa_channels a = 4)%nat → pil_u8 a;
  yolo_names_total det img b :
    b ∈ all_boxes (yolo_infer det img) → is_Some (yolo_names det !! py_trunc (cls b));
}.

Definition style_of (rq : request) : style :=
  Annotate.mkStyle (min_confidence rq) (pad_thickness rq) (text_scale rq)
                   (text_thickness rq) (bg_opacity rq).

Section endpoint.
Context `{Raster} `{Backend}.

(** Lines 62-114 with the detector [det]: the annotated canvas. *)
Definition annotated (rq : request) (det : YOLO) : res image :=
  pilImage ← of_option UnidentifiedImageError (pil_open (image_file rq));
  cvImage ← cvtColor_RGB2BGR pilImage;
  let detectionResults := yolo_infer det cvImage in
  borderColor ← parse_color (pad_color rq);
  annotationColor ← parse_color (text_color rq);
  backgroundColor ← parse_color (bg_color rq);
  borderedImage ← copyMakeBorder cvImage (pad_thickness rq) borderColor;
  annotate_results (style_of rq) (yolo_names det) backgroundColor annotationColor
                   borderedImage detectionResults.

(** Lines 116-120. *)
Definition encode_reply (img : image) : reply :=
  match imencode_jpg img with
  | Some data => Jpeg data
  | None => JsonError "Falha ao codificar a imagem."
  end.

(** Lines 62-120 with the detector [det]. *)
Definition process (rq : request) (det : YOLO) : res reply := encode_reply <$> annotated rq det.

Definition outcome_of {A} (r : res A) : outcome A :=
  match r with Ok a => Returned a | Raise e => Failed e end.

(** The endpoint: the swap of lines 55-60 (its subscript
    [modelFiles[selected_model]] raises before either global is written),
    then the rest with the detector just selected. *)
Definition processar_imagem (rq : request) (g : globals) : outcome reply * globals :=
  match swap_model (selected_model rq) g with
  | Ok g' => (outcome_of (process rq (detector g')), g')
  | Raise e => (Failed e, g)
  end.

(** ** Lemmas *)

Lemma swap_model_known v g :
  v ∈ dom modelFiles → globals_wf g →
  ∃ g', swap_model v g = Ok g' ∧ currentModel g' = v ∧ globals_wf g'.
Proof.
  intros Hv Hg. unfold swap_model. case_bool_decide as Hne.
  - destruct (model_file_dom v Hv) as (p & Hp & Hf).
    unfold load_model. rewrite Hf. simpl. eexists; split_and!; [done|done|]. split; simpl; auto.
  - exists g. split_and!; [done| |done]. destruct (decide (v = currentModel g)); [done|contradiction].
Qed.

Lemma annotated_Ok rq det final :
  annotated rq det = Ok final →
  ∃ a img bc ac bgc bordered,
    pil_open (image_file rq) = Some a ∧ cvtColor_RGB2BGR a = Ok img ∧
    parse_color (pad_color rq) = Ok bc ∧ parse_color (text_color rq) = Ok ac ∧
    parse_color (bg_color rq) = Ok bgc ∧
    copyMakeBorder img (pad_thickness rq) bc = Ok bordered ∧
    annotate_results (style_of rq) (yolo_names det) bgc ac bordered (yolo_infer det img) = Ok final.
Proof.
  unfold annotated. destruct (pil_open _) as [a|] eqn:E1; simpl; [|discriminate].
  destruct (cvtColor_RGB2BGR a) as [img|] eqn:E2; simpl; [|discriminate].
  destruct (parse_color (pad_color rq)) as [bc|] eqn:E3; simpl; [|discriminate].
  destruct (parse_color (text_color rq)) as [ac|] eqn:E4; simpl; [|discriminate].
  destruct (parse_color (bg_color rq)) as [bgc|] eqn:E5; simpl; [|discriminate].
  destruct (copyMakeBorder img _ bc) as [bordered|] eqn:E6; simpl; [|discriminate].
  intros Hf. exists a, img, bc, ac, bgc, bordered. done.
Qed.

(** With colours OpenCV accepts, and a border and a text thickness in
    [[0, INT_MAX]], the handler raises only at decoding, at the colour
    conversion, or with [KeyError] at a kept box whose class has no name. *)
Lemma annotated_Raise_cause rq det e bc ac bgc :
  parse_color (pad_color rq) = Ok bc → parse_color (text_color rq) = Ok ac →
  parse_color (bg_color rq) = Ok bgc →
  scalar_ok bc = true → scalar_ok ac = true → scalar_ok bgc = true →
  0 <= pad_thickness rq <= INT_MAX → 0 <= text_thickness rq <= INT_MAX →
  annotated rq det = Raise e →
  (pil_open (image_file rq) = None ∧ e = UnidentifiedImageError) ∨
  (∃ a, pil_open (image_file rq) = Some a ∧ cvtColor_RGB2BGR a = Raise e) ∨
  (∃ a img, pil_open (image_file rq) = Some a ∧ cvtColor_RGB2BGR a = Ok img ∧ e = KeyError ∧
     ∃ b, b ∈ all_boxes (yolo_infer det img) ∧ unnamed_kept (style_of rq) (yolo_names det) b).
Proof.
  intros Hb Ha Hg Hlb Hla Hlg Ht Htt. unfold annotated.
  destruct (pil_open _) as [a|] eqn:Hp; cbn [of_option]; rewrite ?bind_Raise, ?bind_Ok;
    [|intros [= <-]; by left].
  destruct (cvtColor_RGB2BGR a) as [img|e'] eqn:Hc; rewrite ?bind_Raise, ?bind_Ok;
    [|intros [= <-]; right; left; eauto].
  rewrite Hb, Ha, Hg, !bind_Ok.
  destruct (copyMakeBorder_short img (pad_thickness rq) bc Ht Hlb) as [out ->]. rewrite bind_Ok.
  intros (-> & Hk)%annotate_results_Raise; [|done|done|done]. right; right. eauto 10.
Qed.

(** ** Theorems *)

(** C7: A request naming a known model leaves the globals switched to that
    model (a new detector when it was not the current one), and runs the
    rest of the handler with the detector of that model; the switch
    stays in place whether the rest succeeds or raises. *)
Theorem processar_imagem_state rq g :
  selected_model rq ∈ dom modelFiles → globals_wf g →
  ∃ g', (processar_imagem rq g).2 = g' ∧ currentModel g' = selected_model rq ∧
        globals_wf g' ∧ (processar_imagem rq g).1 = outcome_of (process rq (detector g')).
Proof.
  intros Hv Hg. destruct (swap_model_known _ g Hv Hg) as (g' & Hs & Hc & Hw).
  exists g'. unfold processar_imagem. rewrite Hs. done.
Qed.

(** C18: A malformed colour string fails the request with [ValueError]
    (status 500) only after the model swap: the globals keep the model
    the failed request asked for. *)
Theorem processar_imagem_bad_color rq g a img e :
  selected_model rq ∈ dom modelFiles → globals_wf g →
  pil_open (image_file rq) = Some a → cvtColor_RGB2BGR a = Ok img →
  parse_color (pad_color rq) = Raise e →
  ∃ g', processar_imagem rq g = (Failed e, g') ∧ currentModel g' = selected_model rq.
Proof.
  intros Hv Hg Ha Hi Hp. destruct (swap_model_known _ g Hv Hg) as (g' & Hs & Hc & _).
  exists g'. split; [|done]. unfold processar_imagem. rewrite Hs.
  unfold process, annotated. rewrite Ha; simpl. rewrite Hi; simpl. by rewrite Hp.
Qed.

(** C9: The canvas handed to the JPEG encoder is the decoded image grown by
    twice the border thickness in each direction, whatever was detected. *)
Theorem annotated_shape `{!RasterLaws} rq det final a img :
  annotated rq det = Ok final →
  pil_open (image_file rq) = Some a → cvtColor_RGB2BGR a = Ok img → rectangular img →
  height final = (height img + 2 * Z.to_nat (pad_thickness rq))%nat ∧
  Forall (λ r, length r = (width img + 2 * Z.to_nat (pad_thickness rq))%nat) final.
Proof.
  intros (a' & img' & bc & ac & bgc & bordered & Ha & Hi & _ & _ & _ & Hb & Hl)%annotated_Ok
    Ha' Hi' Hr.
  rewrite Ha' in Ha. injection Ha as <-. rewrite Hi' in Hi. injection Hi as <-.
  destruct (annotate_results_shape _ _ _ _ _ _ _ Hl) as [Hs _].
  destruct (copyMakeBorder_shape _ _ _ _ Hr Hb) as [Hh Hw].
  destruct (same_shape_rows _ _ _ Hs Hw) as [Hlen Hrows].
  split; [unfold height in *; lia|exact Hrows].
Qed.

(** The canvas handed to [cv2.imencode] is an 8-bit image when PIL
    decodes the upload to bytes. *)
Lemma annotated_u8 `{!RasterLaws} rq det final a :
  annotated rq det = Ok final → pil_open (image_file rq) = Some a → pil_u8 a → image_u8 final.
Proof.
  intros (a' & img & bc & ac & bgc & bordered & Ha & Hi & _ & _ & _ & Hb & Hl)%annotated_Ok Ha' Hu.
  rewrite Ha' in Ha. injection Ha as <-.
  apply (proj2 (annotate_results_shape _ _ _ _ _ _ _ Hl)).
  eapply copyMakeBorder_u8; [|exact Hb]. by eapply cvtColor_u8.
Qed.

(** C23: The border colour ["R,G,B"] is handed to OpenCV as it is parsed,
    on an image whose channels are blue, green, red: its first entry
    becomes the blue channel.  When nothing is detected above the
    threshold the corner of the answer has that colour. *)
Theorem annotated_border_bgr rq det final a img r g b :
  annotated rq det = Ok final →
  pil_open (image_file rq) = Some a → cvtColor_RGB2BGR a = Ok img → rectangular img →
  parse_color (pad_color rq) = Ok [r; g; b] → 0 < pad_thickness rq →
  Forall (λ bx, (conf bx < min_confidence rq)%Q) (all_boxes (yolo_infer det img)) →
  pixel_at final 0 0 = Some (mkPixel (saturate_u8 r) (saturate_u8 g) (saturate_u8 b)).
Proof.
  intros (a' & img' & bc & ac & bgc & bordered & Ha & Hi & Hpc & _ & _ & Hb & Hl)%annotated_Ok
    Ha' Hi' Hr Hcol Ht Hnone.
  rewrite Ha' in Ha. injection Ha as <-. rewrite Hi' in Hi. injection Hi as <-.
  rewrite Hcol in Hpc. injection Hpc as <-.
  rewrite annotate_results_boxes, annotate_boxes_all_below in Hl by exact Hnone. injection Hl as <-.
  destruct (copyMakeBorder_Ok _ _ _ _ Hb) as (c & Hc & _ & _).
  rewrite (copyMakeBorder_frame img (pad_thickness rq) [r; g; b] bordered c); try done; try lia.
  destruct (color_arg_Ok _ _ Hc) as (s & Hs & _ & ->). simpl in Hs. by injection Hs as <-.
Qed.

(** A colour string of at most four integers, each of which a double
    holds, is painted as the border: missing channels are 0 and every
    value is saturated into [0, 255]. *)
Lemma border_color_lenient img t s cs :
  parse_color s = Ok cs → scalar_ok cs = true → 0 < t <= INT_MAX → rectangular img →
  ∃ out, copyMakeBorder img t cs = Ok out ∧
    pixel_at out 0 0 =
      Some (mkPixel (saturate_u8 (nth 0 cs 0)) (saturate_u8 (nth 1 cs 0)) (saturate_u8 (nth 2 cs 0))).
Proof.
  intros _ Hl Ht Hr. destruct (copyMakeBorder_short img t cs) as [out Hb]; [lia|done|].
  exists out. split; [done|]. apply (copyMakeBorder_frame img t cs); try done; try lia.
  destruct (scalar_ok_parts _ Hl) as (sc & Hs & Ho). unfold color_arg. rewrite Hs, bind_Ok, Ho.
  revert Hs. unfold to_scalar. destruct (_ <=? _)%nat; [|discriminate]. by intros [= <-].
Qed.

(** A model name outside [modelFiles] reaches the handler (the [enum]
    of its [Query] only documents the schema); the subscript of line 59
    raises [KeyError] before anything is read, and the globals are
    untouched. *)
Lemma processar_imagem_unknown rq g :
  globals_wf g → selected_model rq ∉ dom modelFiles → processar_imagem rq g = (Failed KeyError, g).
Proof.
  intros Hg Hv. unfold processar_imagem, swap_model.
  rewrite bool_decide_eq_true_2 by (intros Heq; apply Hv; rewrite Heq; by apply wf_current_known).
  by rewrite load_model_unknown.
Qed.

(** C27: When [cv2.imencode] reports failure the endpoint answers normally
    (status 200) with the JSON body [{"error": ...}], not with an error
    status. *)
Theorem process_encode_failure rq det final :
  annotated rq det = Ok final → imencode_jpg final = None →
  process rq det = Ok (JsonError "Falha ao codificar a imagem.").
Proof. intros Ha He. unfold process, encode_reply. by rewrite Ha; simpl; rewrite He. Qed.

End endpoint.

(** ** Witnesses

    A backend whose upload decodes to a 2x2 RGB array and whose detector
    sees one box below the default threshold; requests with a border of
    one pixel. *)

Import ThinRaster.

Definition demo_pil : pil_array :=
  mkPilArray 3 [[[1; 2; 3]; [4; 5; 6]]; [[7; 8; 9]; [10; 11; 12]]].

Definition demo_backend (encodes : bool) : Backend := {|
  pil_open _ := Some demo_pil;
  yolo_infer _ _ := [mkResult [demo_low]];
  yolo_names _ := demo_names;
  imencode_jpg _ := if encodes then Some [] else None;
|}.

#[local] Instance demo_encodes : Backend := demo_backend true.

Definition demo_request (color : string) : request :=
  mkRequest [] "yolov8s" (1#4) 1 color (7#10) 2 "255,255,255" "0,0,0" (1#2).

Definition demo_det : YOLO := mkYOLO "yolov8s.pt" 1.

Definition demo_img : image :=
  match cvtColor_RGB2BGR demo_pil with Ok i => i | Raise _ => [] end.

Definition demo_final : image :=
  match annotated (demo_request "255,0,0") demo_det with Ok i => i | Raise _ => [] end.

Lemma demo_cvt : cvtColor_RGB2BGR demo_pil = Ok demo_img.
Proof. reflexivity. Qed.

Lemma demo_rect : rectangular demo_img.
Proof. repeat constructor. Qed.

Lemma demo_annotated : annotated (demo_request "255,0,0") demo_det = Ok demo_final.
Proof. vm_compute. reflexivity. Qed.

Lemma processar_imagem_state_witness :
  selected_model (demo_request "255,0,0") ∈ dom modelFiles ∧ globals_wf g0 ∧
  ∃ g', (processar_imagem (demo_request "255,0,0") g0).2 = g' ∧
        currentModel g' = selected_model (demo_request "255,0,0") ∧ globals_wf g' ∧
        (processar_imagem (demo_request "255,0,0") g0).1 = outcome_of (process (demo_request "255,0,0") (detector g')).
Proof.
  assert (Hv : selected_model (demo_request "255,0,0") ∈ dom modelFiles)
    by (apply (bool_decide_unpack _); vm_compute; reflexivity).
  refine (conj Hv (conj g0_wf _)). exact (processar_imagem_state _ g0 Hv g0_wf).
Defined.

Lemma processar_imagem_bad_color_witness :
  selected_model (demo_request "255,,0") ∈ dom modelFiles ∧ globals_wf g0 ∧
  pil_open (image_file (demo_request "255,,0")) = Some demo_pil ∧
  cvtColor_RGB2BGR demo_pil = Ok demo_img ∧
  parse_color (pad_color (demo_request "255,,0")) = Raise ValueError ∧
  ∃ g', processar_imagem (demo_request "255,,0") g0 = (Failed ValueError, g') ∧
        currentModel g' = selected_model (demo_request "255,,0").
Proof.
  assert (Hv : selected_model (demo_request "255,,0") ∈ dom modelFiles)
    by (apply (bool_decide_unpack _); vm_compute; reflexivity).
  assert (Ha : pil_open (image_file (demo_request "255,,0")) = Some demo_pil) by reflexivity.
  assert (Hp : parse_color (pad_color (demo_request "255,,0")) = Raise ValueError) by reflexivity.
  refine (conj Hv (conj g0_wf (conj Ha (conj demo_cvt (conj Hp _))))).
  exact (processar_imagem_bad_color _ g0 _ _ _ Hv g0_wf Ha demo_cvt Hp).
Defined.

Lemma annotated_shape_witness :
  annotated (demo_request "255,0,0") demo_det = Ok demo_final ∧
  pil_open (image_file (demo_request "255,0,0")) = Some demo_pil ∧
  cvtColor_RGB2BGR demo_pil = Ok demo_img ∧ rectangular demo_img ∧
  height demo_final = 4%nat ∧ Forall (λ r, length r = 4%nat) demo_final.
Proof.
  assert (Ha : pil_open (image_file (demo_request "255,0,0")) = Some demo_pil) by reflexivity.
  destruct (annotated_shape _ _ _ _ _ demo_annotated Ha demo_cvt demo_rect) as [Hh Hw].
  exact (conj demo_annotated (conj Ha (conj demo_cvt (conj demo_rect (conj Hh Hw))))).
Defined.

Lemma annotated_border_bgr_witness :
  annotated (demo_request "255,0,0") demo_det = Ok demo_final ∧
  pil_open (image_file (demo_request "255,0,0")) = Some demo_pil ∧
  cvtColor_RGB2BGR demo_pil = Ok demo_img ∧ rectangular demo_img ∧
  parse_color (pad_color (demo_request "255,0,0")) = Ok [255; 0; 0] ∧
  0 < pad_thickness (demo_request "255,0,0") ∧
  Forall (λ bx, (conf bx < min_confidence (demo_request "255,0,0"))%Q)
         (all_boxes (yolo_infer demo_det demo_img)) ∧
  pixel_at demo_final 0 0 = Some (mkPixel 255 0 0).
Proof.
  assert (Ha : pil_open (image_file (demo_request "255,0,0")) = Some demo_pil) by reflexivity.
  assert (Hc : parse_color (pad_color (demo_request "255,0,0")) = Ok [255; 0; 0]) by reflexivity.
  assert (Ht : 0 < pad_thickness (demo_request "255,0,0")) by reflexivity.
  assert (Hn : Forall (λ bx, (conf bx < min_confidence (demo_request "255,0,0"))%Q)
                 (all_boxes (yolo_infer demo_det demo_img))) by (repeat constructor).
  refine (conj demo_annotated (conj Ha (conj demo_cvt (conj demo_rect (conj Hc (conj Ht (conj Hn _))))))).
  exact (annotated_border_bgr _ _ _ _ _ 255 0 0 demo_annotated Ha demo_cvt demo_rect Hc Ht Hn).
Defined.

(** A request for a model the API does not have, with the query defaults. *)
Definition unknown_request : request :=
  mkRequest [] "yolov9" (1#4) 50 "50,50,50" (7#10) 2 "255,255,255" "0,0,0" (1#2).

Lemma process_encode_failure_witness :
  @annotated thin_raster (demo_backend false) (demo_request "255,0,0") demo_det = Ok demo_final ∧
  @imencode_jpg (demo_backend false) demo_final = None ∧
  @process thin_raster (demo_backend false) (demo_request "255,0,0") demo_det =
  Ok (JsonError "Falha ao codificar a imagem.").
Proof.
  assert (Ha : @annotated thin_raster (demo_backend false) (demo_request "255,0,0") demo_det
               = Ok demo_final) by (vm_compute; reflexivity).
  assert (He : @imencode_jpg (demo_backend false) demo_final = None) by reflexivity.
  refine (conj Ha (conj He _)). exact (process_encode_failure _ _ _ Ha He).
Defined.

End Handler.
