(* ===== verification/Http.v ===== *)
(** * The FastAPI application: routes and HTTP answers

    main.py builds one [FastAPI] application (lines 10-14) and registers
    three routes with decorators: [GET /] (line 16), [POST /mudar_modelo/]
    (line 33) and [POST /processar_imagem/] (line 42).  Starlette's router
    tries the routes in order of registration: a route whose path and
    method match runs; a path that matches with another method answers
    405; a path that matches nothing is retried with its trailing slash
    added or removed and, when that matches, answered with a 307 redirect;
    anything else is 404.  The handlers' return values become the
    response: a dictionary is serialised as JSON with status 200, a
    [StreamingResponse] carries the JPEG, an exception gives 500, and a
    missing upload or a parameter of the wrong type gives 422.

    [route_of] is the router over [routes] (the pages FastAPI generates
    included), [root] the handler of lines 17-18, [serve] one request
    against the globals, [serve_all] a sequence of requests.  The JSON
    serialisation [json_object] writes a dictionary of strings as
    [json.dumps] does with FastAPI's settings (no spaces, non-ASCII
    characters kept, quotes, backslashes and control characters
    escaped); [json_read_field] is a JSON reader written from RFC 8259
    for the one-field objects the handlers return.  The theorems: only
    the two [POST] routes change the globals; an unknown model name is
    answered with 500 by both endpoints, not refused with 422; a model
    switch without a model name switches to [yolov8n].  Lemmas: the JSON
    answers read back to the handlers' messages; every sequence of
    requests keeps the registry invariant; a path without its trailing
    slash is redirected without running the handler. *)

From S2P Require Import Prelude PyStr Registry Imaging Raster Annotate Handler.
From Stdlib Require String.

Import Registry Handler.

Local Open Scope Z_scope.

#[local] Arguments String.append : simpl nomatch.

Module Http.

(** ** Requests, routes and responses *)

Inductive method := GET | HEAD | POST | OtherMethod (name : string).

#[export] Instance method_eq_dec : EqDecision method.
Proof. solve_decision. Defined.

(** The three handlers of main.py, and the pages FastAPI generates
    (the OpenAPI schema and the documentation pages). *)
Inductive endpoint := Root | MudarModelo | ProcessarImagem | Documentation (page : string).

(** The routes in order of registration, with the methods each accepts.
    [FastAPI.__init__] first registers its documentation pages with
    Starlette's [Route], which adds [HEAD] to a [GET] route; the
    decorators of lines 16, 33 and 42 then register [APIRoute]s, which
    accept exactly the declared method. *)
Definition routes : list (string * list method * endpoint) :=
  [("/openapi.json", [GET; HEAD], Documentation "openapi");
   ("/docs", [GET; HEAD], Documentation "swagger_ui");
   ("/docs/oauth2-redirect", [GET; HEAD], Documentation "swagger_ui_oauth2_redirect");
   ("/redoc", [GET; HEAD], Documentation "redoc");
   ("/", [GET], Root);
   ("/mudar_modelo/", [POST], MudarModelo);
   ("/processar_imagem/", [POST], ProcessarImagem)].

Inductive routing := Run (e : endpoint) | NotAllowed | RedirectTo (path : string) | NotFound.

Definition ends_with_slash (p : string) : bool :=
  match String.get (String.length p - 1) p with Some "/"%char => true | _ => false end.

(** The other spelling of a path tried by [redirect_slashes]. *)
Definition toggle_slash (p : string) : string :=
  if ends_with_slash p then String.substring 0 (String.length p - 1) p else (p +:+ "/")%string.

Definition path_routes (p : string) : list (list method * endpoint) :=
  (λ r, (r.1.2, r.2)) <$> filter (λ r, r.1.1 = p) routes.

(** Starlette's [Router]: the first route of the path accepting the
    method; else 405 when the path exists; else a redirect to the other
    spelling when that exists (not for ["/"]); else 404. *)
Definition route_of (m : method) (p : string) : routing :=
  match path_routes p with
  | [] =>
      if bool_decide (p ≠ "/") && bool_decide (path_routes (toggle_slash p) ≠ [])
      then RedirectTo (toggle_slash p) else NotFound
  | rs =>
      match list_find (λ r, m ∈ r.1) rs with
      | Some (_, (_, e)) => Run e
      | None => NotAllowed
      end
  end.

(** A request: method, path and the parameters of the two [POST]
    handlers, already typed by FastAPI ([None] when absent). *)
Record http_request := mkHttpRequest {
  req_method : method;
  req_path : string;
  req_model_version : option string;
  req_image : option request;
}.

Inductive body :=
| JsonBody (fields : list (string * string))
| JpegBody (data : list Byte.byte)
| ValidationError
| PlainText (s : string)
| GeneratedPage (page : string)
| Empty.

Record http_response := mkHttpResponse { status : Z; location : option string; resp_body : body }.

Definition respond (st : Z) (b : body) : http_response := mkHttpResponse st None b.

(** ** JSON *)

Definition quote_char : ascii := ascii_of_nat 34.
Definition backslash : ascii := ascii_of_nat 92.
Definition dq : string := String quote_char EmptyString.

Definition hex_digit (n : nat) : ascii :=
  if decide (n < 10)%nat then ascii_of_nat (48 + n) else ascii_of_nat (87 + n).

(** The two-character escapes of [json.dumps] ([ESCAPE_DCT]). *)
Definition short_escape (n : nat) : option ascii :=
  match n return option ascii with
  | 8%nat => Some "b"%char | 9%nat => Some "t"%char | 10%nat => Some "n"%char
  | 12%nat => Some "f"%char | 13%nat => Some "r"%char | _ => None
  end.

(** One character as [json.dumps(..., ensure_ascii=False)] writes it. *)
Definition json_char (c : ascii) : string :=
  let n := nat_of_ascii c in
  if decide (c = quote_char) then String backslash (String quote_char EmptyString)
  else if decide (c = backslash) then String backslash (String backslash EmptyString)
  else if decide (n < 32)%nat then
    match short_escape n with
    | Some e => String backslash (String e EmptyString)
    | None =>
        String backslash ("u00" +:+ String (hex_digit (n / 16)) (String (hex_digit (n mod 16)) EmptyString))%string
    end
  else String c EmptyString.

Fixpoint json_escape (s : string) : string :=
  match s with EmptyString => EmptyString | String c s' => (json_char c +:+ json_escape s')%string end.

Definition json_string (s : string) : string := (dq +:+ json_escape s +:+ dq)%string.

Definition json_object (fields : list (string * string)) : string :=
  ("{" +:+ PyString.py_join ","%char ((λ kv, json_string kv.1 +:+ ":" +:+ json_string kv.2) <$> fields) +:+ "}")%string.

(** Reading JSON back (RFC 8259, section 7): the value of a hex digit,
    the character of a two-character escape, and the content of a string
    literal read back to its characters.  [json_unescape] is [None] on
    text that is not valid string content: a raw quote, backslash or
    control character, or an unknown escape.  Characters are bytes here,
    so a [\u] escape above [00ff] is rejected. *)
Definition hex_value (c : ascii) : option nat :=
  let n := nat_of_ascii c in
  if decide (48 ≤ n ≤ 57)%nat then Some (n - 48)%nat
  else if decide (97 ≤ n ≤ 102)%nat then Some (n - 87)%nat
  else if decide (65 ≤ n ≤ 70)%nat then Some (n - 55)%nat
  else None.

Definition unescape_short (e : ascii) : option ascii :=
  if decide (e = quote_char) then Some quote_char
  else if decide (e = backslash) then Some backslash
  else if decide (e = "/"%char) then Some "/"%char
  else if decide (e = "b"%char) then Some (ascii_of_nat 8)
  else if decide (e = "t"%char) then Some (ascii_of_nat 9)
  else if decide (e = "n"%char) then Some (ascii_of_nat 10)
  else if decide (e = "f"%char) then Some (ascii_of_nat 12)
  else if decide (e = "r"%char) then Some (ascii_of_nat 13)
  else None.

(** The content of a string literal up to its closing quote, read back
    to its characters, with the text after the quote. *)
Fixpoint json_read_string (s : string) : option (string * string) :=
  match s with
  | EmptyString => None
  | String c rest =>
      if decide (c = quote_char) then Some (EmptyString, rest)
      else if decide (c = backslash) then
        match rest with
        | String "u" (String h1 (String h2 (String h3 (String h4 r)))) =>
            match hex_value h1, hex_value h2, hex_value h3, hex_value h4 with
            | Some 0%nat, Some 0%nat, Some a, Some b =>
                prod_map (String (ascii_of_nat (16 * a + b))) id <$> json_read_string r
            | _, _, _, _ => None
            end
        | String e r =>
            match unescape_short e with
            | Some x => prod_map (String x) id <$> json_read_string r
            | None => None
            end
        | EmptyString => None
        end
      else if decide (nat_of_ascii c < 32)%nat then None
      else prod_map (String c) id <$> json_read_string rest
  end.

(** A JSON object with one field of string value, [{"key":"value"}],
    read back to the field. *)
Definition json_read_field (s : string) : option (string * string) :=
  match s with
  | String "{" (String q r) =>
      if decide (q = quote_char) then
        '(k, r1) ← json_read_string r;
        match r1 with
        | String ":" (String q' r2) =>
            if decide (q' = quote_char) then
              '(v, r3) ← json_read_string r2;
              if decide (r3 = "}") then Some (k, v) else None
            else None
        | _ => None
        end
      else None
  | _ => None
  end.

(** The text of a JSON body. *)
Definition json_text (b : body) : option string :=
  match b with JsonBody f => Some (json_object f) | _ => None end.

(** ** Handlers and the server *)

(** Lines 17-18. *)
Definition root_message : list (string * string) :=
  [("message", "Bem-vindo à API YOLO com FastAPI!")].

(** [mudar_modelo]'s dictionary (lines 39-40), or its failures. *)
Definition message_response (o : outcome string) : http_response :=
  match o with
  | Returned m => respond 200 (JsonBody [("message", m)])
  | Unprocessable => respond 422 ValidationError
  | Failed _ => respond 500 (PlainText "Internal Server Error")
  end.

(** [processar_imagem]'s answers (lines 116-120), or its failures. *)
Definition image_response (o : outcome reply) : http_response :=
  match o with
  | Returned (Jpeg d) => respond 200 (JpegBody d)
  | Returned (JsonError m) => respond 200 (JsonBody [("error", m)])
  | Unprocessable => respond 422 ValidationError
  | Failed _ => respond 500 (PlainText "Internal Server Error")
  end.

(** The bytes of a body.  The content of FastAPI's 422 body (a list of
    validation errors) and of the generated documentation pages is not
    modelled; no client of the repository reads them. *)
Definition body_bytes (b : body) : list Byte.byte :=
  match b with
  | JsonBody f => String.list_byte_of_string (json_object f)
  | JpegBody d => d
  | PlainText t => String.list_byte_of_string t
  | ValidationError | GeneratedPage _ | Empty => []
  end.

Section server.
Context `{Raster} `{Backend}.

(** One request against the globals [g]. *)
Definition serve (rq : http_request) (g : globals) : http_response * globals :=
  match route_of (req_method rq) (req_path rq) with
  | Run Root => (respond 200 (JsonBody root_message), g)
  | Run (Documentation p) => (respond 200 (GeneratedPage p), g)
  | Run MudarModelo =>
      let '(o, g') := mudar_modelo (default "yolov8n" (req_model_version rq)) g in
      (message_response o, g')
  | Run ProcessarImagem =>
      match req_image rq with
      | None => (respond 422 ValidationError, g)
      | Some r => let '(o, g') := processar_imagem r g in (image_response o, g')
      end
  | NotAllowed => (respond 405 (JsonBody [("detail", "Method Not Allowed")]), g)
  | RedirectTo p => (mkHttpResponse 307 (Some p) Empty, g)
  | NotFound => (respond 404 (JsonBody [("detail", "Not Found")]), g)
  end.

(** Requests served one after the other. *)
Fixpoint serve_all (rqs : list http_request) (g : globals) : list http_response * globals :=
  match rqs with
  | [] => ([], g)
  | rq :: rqs' =>
      let '(r, g1) := serve rq g in
      let '(rs, g2) := serve_all rqs' g1 in
      (r :: rs, g2)
  end.

(** ** Lemmas *)

(** Each character written by [json_char] reads back to itself, checked
    on the 256 bytes. *)
Lemma json_char_read c r :
  json_read_string (json_char c +:+ r) = prod_map (String c) id <$> json_read_string r.
Proof. destruct c as [[] [] [] [] [] [] [] []]; reflexivity. Qed.

Lemma string_app_assoc (a b c : string) : (a +:+ b) +:+ c = a +:+ (b +:+ c).
Proof. induction a as [|x a IH]; [done|]. simpl. by rewrite IH. Qed.

Lemma json_escape_read s r :
  json_read_string (json_escape s +:+ String quote_char r) = Some (s, r).
Proof.
  induction s as [|c s IH]; [reflexivity|]. cbn [json_escape].
  by rewrite string_app_assoc, json_char_read, IH.
Qed.

Lemma json_object_field k v : json_read_field (json_object [(k, v)]) = Some (k, v).
Proof.
  unfold json_object, json_string. cbn [fmap list_fmap PyString.py_join fst snd].
  rewrite !string_app_assoc. cbn [String.append dq].
  unfold json_read_field. rewrite json_escape_read. simpl.
  rewrite ?decide_True by done. rewrite json_escape_read. simpl. by rewrite ?decide_True.
Qed.

Lemma route_of_Run m p e :
  route_of m p = Run e → ∃ ms, (p, ms, e) ∈ routes ∧ m ∈ ms.
Proof.
  unfold route_of. destruct (path_routes p) as [|r rs] eqn:E.
  - by destruct (_ && _).
  - destruct (list_find _ _) as [[k [ms e']]|] eqn:F; [|discriminate]. intros [= ->].
    apply list_find_Some in F as (Hk & Hm & _). simpl in Hm.
    assert (Hin : (ms, e) ∈ path_routes p) by (rewrite E; by eapply list_elem_of_lookup_2).
    unfold path_routes in Hin. apply list_elem_of_fmap in Hin as ([[p' ms'] e''] & [= -> ->] & Hf).
    apply list_elem_of_filter in Hf as [Hp Hr]. simpl in Hp. subst p'. eauto.
Qed.

Lemma serve_unchanged rq g :
  (∀ e, route_of (req_method rq) (req_path rq) = Run e → e ≠ MudarModelo ∧ e ≠ ProcessarImagem) →
  (serve rq g).2 = g.
Proof.
  intros He. unfold serve.
  destruct (route_of _ _) as [[| | |p]| | |]; try done; destruct (He _ eq_refl); congruence.
Qed.

Lemma processar_imagem_preserves_wf rq g : globals_wf g → globals_wf (processar_imagem rq g).2.
Proof.
  intros Hg. unfold processar_imagem. destruct (swap_model _ g) eqn:Hs; [|done].
  by eapply swap_model_preserves_wf.
Qed.

Lemma serve_preserves_wf rq g : globals_wf g → globals_wf (serve rq g).2.
Proof.
  intros Hg. unfold serve. destruct (route_of _ _) as [[| | |p]| | |]; try done.
  - pose proof (mudar_modelo_preserves_wf (default "yolov8n" (req_model_version rq)) g Hg).
    by destruct (mudar_modelo _ _).
  - destruct (req_image rq) as [r|]; [|done].
    pose proof (processar_imagem_preserves_wf r g Hg). by destruct (processar_imagem _ _).
Qed.

Lemma serve_all_preserves_wf rqs g : globals_wf g → globals_wf (serve_all rqs g).2.
Proof.
  revert g. induction rqs as [|rq rqs IH]; intros g Hg; [done|]. simpl.
  pose proof (serve_preserves_wf rq g Hg) as H1. destruct (serve rq g) as [r g1]. simpl in H1.
  specialize (IH g1 H1). by destruct (serve_all rqs g1).
Qed.

(** The page's request reaches [processar_imagem] through the router. *)
Lemma serve_processar m mv r g :
  m = POST →
  serve (mkHttpRequest m "/processar_imagem/" mv (Some r)) g =
    (image_response (processar_imagem r g).1, (processar_imagem r g).2).
Proof. intros ->. unfold serve. simpl. by destruct (processar_imagem r g). Qed.

(** ** Theorems *)

(** C15: Only the two [POST] routes can change the globals: a request with
    another method or path (the root page, the generated documentation,
    a 404, a 405, a redirect) leaves the model and the detector as they
    were. *)
Theorem serve_state_changes rq g :
  (serve rq g).2 ≠ g →
  req_method rq = POST ∧ (req_path rq = "/mudar_modelo/" ∨ req_path rq = "/processar_imagem/").
Proof.
  intros Hne. destruct (route_of (req_method rq) (req_path rq)) as [e| | |] eqn:E;
    try (exfalso; apply Hne, serve_unchanged; by rewrite E).
  destruct e as [| | |p]; try (exfalso; apply Hne, serve_unchanged; rewrite E; by intros ? [= <-]).
  all: apply route_of_Run in E as (ms & Hin & Hm); unfold routes in Hin;
    rewrite !elem_of_cons, elem_of_nil in Hin; destruct_or! Hin; simplify_eq;
    rewrite elem_of_cons, elem_of_nil in Hm; destruct Hm as [Hm|[]]; auto.
Qed.

(** The server keeps the registry invariant through any sequence of
    requests, whatever their methods, paths and parameters. *)
Lemma serve_all_wf g rqs : init_globals = Ok g → globals_wf (serve_all rqs g).2.
Proof. intros Hi. by apply serve_all_preserves_wf, init_globals_wf. Qed.

(** A route's path written without its trailing slash is answered by
    a 307 redirect to the route, whatever the method, and the handler
    does not run: the globals are unchanged. *)
Lemma serve_redirect m p ms e mv r g :
  (p, ms, e) ∈ routes → p ≠ "/" →
  serve (mkHttpRequest m (toggle_slash p) mv r) g = (mkHttpResponse 307 (Some p) Empty, g).
Proof.
  unfold routes. rewrite !elem_of_cons, elem_of_nil.
  intros Hin Hp. destruct_or! Hin; simplify_eq; reflexivity.
Qed.

(** C30: A model-switch request without [model_version] is not refused:
    FastAPI fills in the [Query] default of line 34, so the request
    switches the server back to [yolov8n], reloading the detector when
    another model was loaded. *)
Theorem serve_mudar_default r g :
  currentModel g ≠ "yolov8n" →
  serve (mkHttpRequest POST "/mudar_modelo/" None r) g =
    (respond 200 (JsonBody [("message", "Modelo alterado para " +:+ "yolov8n")%string]),
     mkGlobals "yolov8n" (mkYOLO "yolov8n.pt" (loads g)) (S (loads g))).
Proof.
  intros Hne.
  assert (Hr : route_of POST "/mudar_modelo/" = Run MudarModelo) by reflexivity.
  assert (Hf : model_file "yolov8n" = Ok "yolov8n.pt") by reflexivity.
  unfold serve. cbn [req_method req_path req_model_version default]. rewrite Hr.
  unfold mudar_modelo. rewrite bool_decide_eq_true_2 by done.
  unfold load_model. by rewrite Hf, bind_Ok.
Qed.

(** The JSON answers read back: the body of a model-switch answer is a
    JSON object whose one field [message] holds exactly the handler's
    message, and the encode-failure answer one whose field [error] holds
    exactly its error, whatever characters they contain. *)
Lemma json_answers_roundtrip m :
  (json_text (resp_body (message_response (Returned m))) ≫= json_read_field) = Some ("message", m) ∧
  (json_text (resp_body (image_response (Returned (JsonError m)))) ≫= json_read_field) = Some ("error", m).
Proof. split; apply json_object_field. Qed.

(** C6: A model name outside [modelFiles] is not refused with 422: the
    [enum] of both [Query] declarations (lines 34 and 45) only documents
    the OpenAPI schema, FastAPI validates the value as a plain [str].
    Both endpoints answer status 500 ([KeyError] at lines 37 and 59) and
    the globals are unchanged. *)
Theorem serve_unknown_model g v r :
  globals_wf g → v ∉ dom modelFiles → selected_model r = v →
  serve (mkHttpRequest POST "/mudar_modelo/" (Some v) None) g =
    (respond 500 (PlainText "Internal Server Error"), g) ∧
  serve (mkHttpRequest POST "/processar_imagem/" None (Some r)) g =
    (respond 500 (PlainText "Internal Server Error"), g).
Proof.
  intros Hg Hv Hr. split.
  - assert (Hroute : route_of POST "/mudar_modelo/" = Run MudarModelo) by reflexivity.
    unfold serve. cbn [req_method req_path req_model_version default]. rewrite Hroute.
    unfold mudar_modelo, id.
    rewrite bool_decide_eq_true_2 by (intros ->; by apply Hv, wf_current_known).
    by rewrite load_model_unknown.
  - rewrite serve_processar by done. subst v. by rewrite processar_imagem_unknown.
Qed.

End server.

(** ** Witnesses *)

Import ThinRaster.

#[local] Instance http_demo_backend : Backend := demo_backend true.

Definition demo_requests : list http_request :=
  [mkHttpRequest GET "/" None None;
   mkHttpRequest POST "/mudar_modelo/" (Some "yolov8m") None;
   mkHttpRequest POST "/processar_imagem/" None (Some (demo_request "255,0,0"));
   mkHttpRequest POST "/mudar_modelo" (Some "yolov8x") None].

Lemma serve_state_changes_witness :
  (serve (mkHttpRequest POST "/mudar_modelo/" (Some "yolov8m") None) g0).2 ≠ g0 ∧
  req_method (mkHttpRequest POST "/mudar_modelo/" (Some "yolov8m") None) = POST ∧
  (req_path (mkHttpRequest POST "/mudar_modelo/" (Some "yolov8m") None) = "/mudar_modelo/" ∨
   req_path (mkHttpRequest POST "/mudar_modelo/" (Some "yolov8m") None) = "/processar_imagem/").
Proof.
  assert (Hne : (serve (mkHttpRequest POST "/mudar_modelo/" (Some "yolov8m") None) g0).2 ≠ g0)
    by (vm_compute; discriminate).
  split; [exact Hne|]. exact (serve_state_changes _ _ Hne).
Defined.

Lemma serve_mudar_default_witness :
  currentModel (mudar_modelo "yolov8m" g0).2 ≠ "yolov8n" ∧
  serve (mkHttpRequest POST "/mudar_modelo/" None None) (mudar_modelo "yolov8m" g0).2 =
    (respond 200 (JsonBody [("message", "Modelo alterado para " +:+ "yolov8n")%string]),
     mkGlobals "yolov8n" (mkYOLO "yolov8n.pt" (loads (mudar_modelo "yolov8m" g0).2))
               (S (loads (mudar_modelo "yolov8m" g0).2))).
Proof.
  assert (Hne : currentModel (mudar_modelo "yolov8m" g0).2 ≠ "yolov8n") by (vm_compute; discriminate).
  split; [exact Hne|]. exact (serve_mudar_default None _ Hne).
Defined.

Lemma serve_unknown_model_witness :
  globals_wf g0 ∧ ("yolov9" ∉ dom modelFiles) ∧ selected_model unknown_request = "yolov9" ∧
  serve (mkHttpRequest POST "/mudar_modelo/" (Some "yolov9") None) g0 =
    (respond 500 (PlainText "Internal Server Error"), g0) ∧
  serve (mkHttpRequest POST "/processar_imagem/" None (Some unknown_request)) g0 =
    (respond 500 (PlainText "Internal Server Error"), g0).
Proof.
  assert (Hv : "yolov9" ∉ dom modelFiles) by (rewrite not_elem_of_dom; reflexivity).
  assert (Hr : selected_model unknown_request = "yolov9") by reflexivity.
  refine (conj g0_wf (conj Hv (conj Hr _))). exact (serve_unknown_model g0 _ _ g0_wf Hv Hr).
Defined.

End Http.
