(* ===== verification/Concurrency.v ===== *)
(** * Concurrent requests on the shared detector

    Both endpoints are [async def] handlers run by one event loop.
    [mudar_modelo] never awaits, so it runs without interruption.
    [processar_imagem] awaits once, at [await image_file.read()] (line 63),
    after its model swap (lines 58-60) and before it reads the global
    [detector] again (lines 68 and 87).  Whether another request can run
    there depends on the upload: Starlette's multipart parser keeps an
    upload in a [SpooledTemporaryFile] of [spool_max_size] = 1 MiB, which
    rolls over to a file on disk once more is written; [UploadFile.read]
    reads an upload still in memory without suspending, and awaits a
    worker thread for a rolled one.

    A [server] is the globals and the requests in flight, each at one of
    its three points: not started, suspended at the read, finished (with
    the detector its detection ran with and its answer).  [exec_event]
    runs one uninterrupted segment of one request, or a whole
    [mudar_modelo] call; [server_reachable] closes the start states under
    it.  The theorems: a request whose upload stays in memory runs with
    the detector of its own model in every interleaving, while an
    interleaving exists in which a request with a larger upload is
    detected with the detector of another request's model.  Lemmas: the
    globals invariant in every reachable state, every request finishes
    in at most two of its segments, and segments cannot follow each
    other forever. *)

From S2P Require Import Prelude PyStr Registry Imaging Raster Annotate Handler.
From Stdlib Require Import Wellfounded Wf_nat.

Import Registry Annotate Handler.
Import ThinRaster.

Local Open Scope nat_scope.

Module Concurrency.

(** ** Data *)

Inductive phase :=
| Waiting (rq : request)
| Reading (rq : request)
| Finished (rq : request) (used : option YOLO) (answer : outcome reply).

Record server := mkServer {
  glob : globals;
  tasks : list phase;
}.

(** A segment the event loop runs without interruption. *)
Inductive event :=
| Start (i : nat)        (** request [i]: lines 55-60, and on to the end when the read does not suspend *)
| Resume (i : nat)       (** request [i]: lines 63-120, after the await *)
| Switch (v : string).   (** a whole call [mudar_modelo(v)] *)

(** Starlette's [MultiPartParser.spool_max_size], in bytes. *)
Definition spool_max_size : Z := 1024 * 1024.

(** The upload is still in memory when the handler reads it: the spooled
    file rolls over only once it holds more than [spool_max_size]. *)
Definition upload_in_memory (rq : request) : bool :=
  bool_decide (Z.of_nat (length (image_file rq)) <= spool_max_size)%Z.

Section scheduler.
Context `{Raster} `{Backend}.

Definition exec_event (ev : event) (s : server) : option server :=
  match ev with
  | Start i =>
      match tasks s !! i with
      | Some (Waiting rq) =>
          match swap_model (selected_model rq) (glob s) with
          | Ok g' =>
              if upload_in_memory rq then
                let det := detector g' in
                Some (mkServer g' (<[i := Finished rq (Some det) (outcome_of (process rq det))]> (tasks s)))
              else Some (mkServer g' (<[i := Reading rq]> (tasks s)))
          | Raise e => Some (mkServer (glob s) (<[i := Finished rq None (Failed e)]> (tasks s)))
          end
      | _ => None
      end
  | Resume i =>
      match tasks s !! i with
      | Some (Reading rq) =>
          let det := detector (glob s) in
          Some (mkServer (glob s)
                  (<[i := Finished rq (Some det) (outcome_of (process rq det))]> (tasks s)))
      | _ => None
      end
  | Switch v => Some (mkServer (mudar_modelo v (glob s)).2 (tasks s))
  end.

Fixpoint run (evs : list event) (s : server) : option server :=
  match evs with
  | [] => Some s
  | ev :: evs' => s' ← exec_event ev s; run evs' s'
  end.

(** The states reachable from the import-time globals and a set of
    requests not yet started. *)
Inductive server_reachable : server → Prop :=
| sr_init g rqs : init_globals = Ok g → server_reachable (mkServer g (Waiting <$> rqs))
| sr_step s ev s' : server_reachable s → exec_event ev s = Some s' → server_reachable s'.

(** The events that belong to request [i]. *)
Definition owned_by (i : nat) (ev : event) : bool :=
  match ev with Start j | Resume j => bool_decide (j = i) | Switch _ => false end.

(** The segments a request still has to run: at most two before it
    starts, one while it waits at the await, none once finished. *)
Definition pending (ph : phase) : nat :=
  match ph with Waiting _ => 2 | Reading _ => 1 | Finished _ _ _ => 0 end.

Definition work (s : server) : nat := sum_list_with pending (tasks s).

(** One segment of some request, the code of the handlers (a model
    switch is a new request, not a step of one). *)
Definition segment_step (s' s : server) : Prop :=
  ∃ i, exec_event (Start i) s = Some s' ∨ exec_event (Resume i) s = Some s'.

(** What the detection of a finished request ran with: the detector
    loaded from the weights of the model the request asked for. *)
Definition ran_with_own_model (ph : phase) : Prop :=
  match ph with
  | Finished rq (Some u) _ => model_file (selected_model rq) = Ok (det_weights u)
  | _ => True
  end.

(** ** Lemmas *)

Lemma start_waiting s i rq :
  tasks s !! i = Some (Waiting rq) →
  exec_event (Start i) s =
    match swap_model (selected_model rq) (glob s) with
    | Ok g' =>
        if upload_in_memory rq then
          Some (mkServer g' (<[i := Finished rq (Some (detector g'))
                                      (outcome_of (process rq (detector g')))]> (tasks s)))
        else Some (mkServer g' (<[i := Reading rq]> (tasks s)))
    | Raise e => Some (mkServer (glob s) (<[i := Finished rq None (Failed e)]> (tasks s)))
    end.
Proof. intros Hi. simpl. by rewrite Hi. Qed.

Lemma resume_reading s i rq :
  tasks s !! i = Some (Reading rq) →
  exec_event (Resume i) s =
    Some (mkServer (glob s) (<[i := Finished rq (Some (detector (glob s)))
                                 (outcome_of (process rq (detector (glob s))))]> (tasks s))).
Proof. intros Hi. simpl. by rewrite Hi. Qed.

(** Every segment replaces the phase of one request by a later one. *)
Lemma exec_segment_insert ev s s' :
  exec_event ev s = Some s' → (∀ v, ev ≠ Switch v) →
  ∃ i ph ph', tasks s !! i = Some ph ∧ tasks s' = <[i := ph']> (tasks s) ∧ pending ph' < pending ph.
Proof.
  intros Hs Hev. destruct ev as [i|i|v]; [| |by destruct (Hev v)]; revert Hs; simpl.
  - destruct (tasks s !! i) as [[rq|rq|rq u a]|] eqn:Hi; try discriminate.
    destruct (swap_model _ _); [destruct (upload_in_memory rq)|]; intros [= <-];
      do 3 eexists; split_and!; try done; simpl; lia.
  - destruct (tasks s !! i) as [[rq|rq|rq u a]|] eqn:Hi; try discriminate.
    intros [= <-]. do 3 eexists; split_and!; try done; simpl; lia.
Qed.

Lemma segment_work s s' : segment_step s' s → work s' < work s.
Proof.
  intros [i Hs].
  assert (H' : ∃ j ph ph', tasks s !! j = Some ph ∧ tasks s' = <[j := ph']> (tasks s) ∧
                           pending ph' < pending ph)
    by (destruct Hs as [Hs|Hs]; (eapply exec_segment_insert; [exact Hs|intros ? [=]])).
  destruct H' as (j & ph & ph' & Hj & Heq & Hlt).
  unfold work. rewrite Heq. pose proof (sum_list_with_insert pending (tasks s) j ph' ph Hj). simpl in *. lia.
Qed.

Lemma exec_event_wf ev s s' :
  globals_wf (glob s) → exec_event ev s = Some s' → globals_wf (glob s').
Proof.
  intros Hg. destruct ev as [i|i|v]; simpl.
  - destruct (tasks s !! i) as [[rq|rq|rq u a]|]; try discriminate.
    destruct (swap_model _ _) eqn:E; [|by intros [= <-]].
    destruct (upload_in_memory rq); intros [= <-]; simpl; by eapply swap_model_preserves_wf.
  - destruct (tasks s !! i) as [[rq|rq|rq u a]|]; try discriminate. by intros [= <-].
  - intros [= <-]. by apply mudar_modelo_preserves_wf.
Qed.

Lemma run_cons ev evs s s1 : exec_event ev s = Some s1 → run (ev :: evs) s = run evs s1.
Proof. intros Hs. simpl. by rewrite Hs. Qed.

Lemma run_reachable evs s s' : server_reachable s → run evs s = Some s' → server_reachable s'.
Proof.
  revert s. induction evs as [|ev evs IH]; intros s Hs; simpl; [by intros [= <-]|].
  destruct (exec_event ev s) as [s1|] eqn:E; [|discriminate]. apply IH. by eapply sr_step.
Qed.

Lemma owned_by_self i : owned_by i (Start i) = true ∧ owned_by i (Resume i) = true.
Proof. simpl. by rewrite bool_decide_eq_true_2. Qed.

(** Whatever the interleaving of requests and model switches, the
    globals keep their invariant. *)
Lemma server_reachable_wf s : server_reachable s → globals_wf (glob s).
Proof.
  induction 1 as [g rqs Hi|s ev s' _ IH Hs].
  - by apply init_globals_wf.
  - by eapply exec_event_wf.
Qed.

(** Segments cannot follow each other forever: each lowers [work]. *)
Lemma segments_terminate : well_founded segment_step.
Proof.
  apply (wf_incl _ _ (ltof _ work)); [intros s' s; apply segment_work|apply well_founded_ltof].
Qed.

(** A request not yet finished finishes in at most two of its own
    segments, run whenever the event loop gets to them. *)
Lemma request_finishes s i rq :
  tasks s !! i = Some (Waiting rq) ∨ tasks s !! i = Some (Reading rq) →
  ∃ evs s' u a, length evs ≤ 2 ∧ Forall (λ ev, owned_by i ev = true) evs ∧
    run evs s = Some s' ∧ tasks s' !! i = Some (Finished rq u a).
Proof.
  assert (Hres : ∀ s, tasks s !! i = Some (Reading rq) →
            ∃ s' u a, exec_event (Resume i) s = Some s' ∧ tasks s' !! i = Some (Finished rq u a)).
  { intros s0 Hi. rewrite (resume_reading _ _ _ Hi). do 4 eexists; [done|].
    apply list_lookup_insert_eq. by eapply lookup_lt_Some. }
  pose proof (owned_by_self i) as [Ho1 Ho2].
  intros [Hi|Hi].
  - pose proof (lookup_lt_Some _ _ _ Hi) as Hlt.
    destruct (exec_event (Start i) s) as [s1|] eqn:Hs; [|by rewrite (start_waiting _ _ _ Hi) in Hs;
      destruct (swap_model _ _); [destruct (upload_in_memory _)|]].
    assert (H1 : tasks s1 !! i = Some (Reading rq) ∨ ∃ u a, tasks s1 !! i = Some (Finished rq u a)).
    { rewrite (start_waiting _ _ _ Hi) in Hs.
      destruct (swap_model _ _); [destruct (upload_in_memory _)|]; injection Hs as <-; simpl;
        rewrite list_lookup_insert_eq by done; eauto. }
    destruct H1 as [Hr|(u & a & Hf)].
    + destruct (Hres s1 Hr) as (s' & u & a & Hr' & Hf).
      exists [Start i; Resume i], s', u, a. split_and!; [simpl; lia|by repeat constructor| |done].
      by rewrite (run_cons _ _ _ _ Hs), (run_cons _ _ _ _ Hr').
    + exists [Start i], s1, u, a. split_and!; [simpl; lia|by repeat constructor| |done].
      by rewrite (run_cons _ _ _ _ Hs).
  - destruct (Hres s Hi) as (s' & u & a & Hr & Hf).
    exists [Resume i], s', u, a. split_and!; [simpl; lia|by repeat constructor| |done].
    by rewrite (run_cons _ _ _ _ Hr).
Qed.

(** A well-formed registry after a swap to [v] holds the weights of [v]. *)
Lemma swap_model_weights v g g' :
  globals_wf g → swap_model v g = Ok g' → model_file v = Ok (det_weights (detector g')).
Proof.
  intros Hg Hs. pose proof (swap_model_preserves_wf _ _ _ Hg Hs) as [Hw _].
  assert (Hc : currentModel g' = v).
  { revert Hs. unfold swap_model. case_bool_decide as Hne.
    - by intros (p & _ & ->)%load_model_Ok.
    - intros [= <-]. destruct (decide (v = currentModel g)); [done|contradiction]. }
  unfold model_file. by rewrite <- Hc, Hw.
Qed.

(** The invariant behind [small_uploads_own_model]: a request waits at
    the await only when its upload was rolled to disk, and a finished
    request whose upload stayed in memory ran with its own model. *)
Definition race_free (s : server) : Prop :=
  (∀ i rq, tasks s !! i = Some (Reading rq) → upload_in_memory rq = false) ∧
  (∀ i ph, tasks s !! i = Some ph → match ph with
                                     | Finished rq _ _ => upload_in_memory rq = true → ran_with_own_model ph
                                     | _ => True end).

Lemma race_free_insert s i ph' g' :
  race_free s →
  (∀ rq, ph' = Reading rq → upload_in_memory rq = false) →
  (match ph' with Finished rq _ _ => upload_in_memory rq = true → ran_with_own_model ph' | _ => True end) →
  race_free (mkServer g' (<[i := ph']> (tasks s))).
Proof.
  intros [HR HF] Hr Hf. split; simpl.
  - intros j rq. destruct (decide (i = j)) as [<-|Hij].
    + intros Hl. apply list_lookup_insert_Some in Hl as [(_ & Heq & _)|(? & _)]; [by apply Hr|done].
    + rewrite list_lookup_insert_ne by done. apply HR.
  - intros j ph. destruct (decide (i = j)) as [<-|Hij].
    + intros Hl. apply list_lookup_insert_Some in Hl as [(_ & <- & _)|(? & _)]; [done|done].
    + rewrite list_lookup_insert_ne by done. apply HF.
Qed.

Lemma exec_event_race_free ev s s' :
  globals_wf (glob s) → race_free s → exec_event ev s = Some s' → race_free s'.
Proof.
  intros Hg Hrf. destruct ev as [i|i|v]; simpl.
  - destruct (tasks s !! i) as [[rq|rq|rq u a]|]; try discriminate.
    destruct (swap_model _ _) as [g'|e] eqn:Hs; [destruct (upload_in_memory rq) eqn:Hm|];
      intros [= <-]; apply race_free_insert; try done; try congruence.
    simpl. intros _. by eapply swap_model_weights.
  - destruct (tasks s !! i) as [[rq|rq|rq u a]|] eqn:Hi; try discriminate.
    intros [= <-]. apply race_free_insert; [done|congruence|].
    intros Hm. by rewrite (proj1 Hrf _ _ Hi) in Hm.
  - intros [= <-]. exact Hrf.
Qed.

Lemma race_free_reachable s : server_reachable s → race_free s.
Proof.
  induction 1 as [g rqs Hi|s ev s' Hr IH Hs].
  - split; simpl; intros i ?; rewrite list_lookup_fmap;
      destruct (rqs !! i); simpl; intros; by simplify_eq.
  - eapply exec_event_race_free; [by apply server_reachable_wf|done|done].
Qed.

(** ** Theorems *)

(** C5: A request whose upload Starlette keeps in memory (at most 1 MiB)
    is never raced: in every interleaving of requests and model
    switches, when it has finished, its detection ran with the detector
    loaded from the weights of the model it asked for.  Its read at
    line 63 does not suspend, so the swap and the detection run in one
    segment. *)
Theorem small_uploads_own_model s i rq u a :
  server_reachable s → tasks s !! i = Some (Finished rq (Some u) a) → upload_in_memory rq = true →
  model_file (selected_model rq) = Ok (det_weights u).
Proof.
  intros Hr Hi Hm. exact (proj2 (race_free_reachable s Hr) i _ Hi Hm).
Qed.

(** An upload one byte above the spool size. *)
Definition large_upload : list Byte.byte := replicate (Z.to_nat (spool_max_size + 1)) Byte.x00.

Lemma large_upload_rolled rq : image_file rq = large_upload → upload_in_memory rq = false.
Proof.
  intros Hf. unfold upload_in_memory. rewrite Hf. unfold large_upload.
  rewrite length_replicate, Z2Nat.id by (unfold spool_max_size; lia).
  apply bool_decide_eq_false_2. lia.
Qed.

(** C17: The model swap and the detection of one request are not atomic
    when its upload is larger than the spool: from the start state with
    two requests, one for [yolov8s] with an upload of 1 MiB and one byte
    and one for [yolov8m], the interleaving "start the first, start the
    second, resume the first" runs the first request's detection with the
    [yolov8m] weights, although it asked for [yolov8s]. *)
Theorem detection_race :
  ∃ s evs s' rq u a, server_reachable s ∧ run evs s = Some s' ∧
    tasks s' !! 0 = Some (Finished rq (Some u) a) ∧
    model_file (selected_model rq) ≠ Ok (det_weights u).
Proof.
  set (rq_s := mkRequest large_upload "yolov8s" (1#4) 1 "255,0,0" (7#10) 2 "255,255,255" "0,0,0" (1#2)).
  set (rq_m := mkRequest [] "yolov8m" (1#4) 1 "255,0,0" (7#10) 2 "255,255,255" "0,0,0" (1#2)).
  set (g1 := mkGlobals "yolov8s" (mkYOLO "yolov8s.pt" 1) 2).
  set (g2 := mkGlobals "yolov8m" (mkYOLO "yolov8m.pt" 2) 3).
  set (s0 := mkServer g0 [Waiting rq_s; Waiting rq_m]).
  set (s1 := mkServer g1 [Reading rq_s; Waiting rq_m]).
  set (s2 := mkServer g2 [Reading rq_s;
                          Finished rq_m (Some (detector g2)) (outcome_of (process rq_m (detector g2)))]).
  assert (H1 : exec_event (Start 0) s0 = Some s1).
  { rewrite (start_waiting _ _ rq_s) by done.
    replace (swap_model _ _) with (@Ok globals g1) by reflexivity.
    by rewrite large_upload_rolled. }
  assert (H2 : exec_event (Start 1) s1 = Some s2).
  { rewrite (start_waiting _ _ rq_m) by done.
    replace (swap_model _ _) with (@Ok globals g2) by reflexivity. reflexivity. }
  exists s0, [Start 0; Start 1; Resume 0].
  eexists. exists rq_s, (detector g2). eexists. split_and!.
  - by apply (sr_init _ [rq_s; rq_m]).
  - rewrite (run_cons _ _ _ _ H1), (run_cons _ _ _ _ H2).
    rewrite (run_cons _ _ _ _ (resume_reading s2 0 rq_s eq_refl)). reflexivity.
  - reflexivity.
  - intros Heq. vm_compute in Heq. discriminate.
Qed.

End scheduler.

(** ** Witnesses *)

#[local] Instance demo_backend_ok : Backend := demo_backend true.

Definition demo_server : server := mkServer g0 [Waiting (demo_request "255,0,0"); Waiting (with_defaults [])].

Definition demo_started : server :=
  match run [Start 0; Switch "yolov8x"; Start 1] demo_server with Some s => s | None => demo_server end.

Lemma small_uploads_own_model_witness :
  server_reachable demo_started ∧
  tasks demo_started !! 0 = Some (Finished (demo_request "255,0,0") (Some (mkYOLO "yolov8s.pt" 1))
                                   (outcome_of (process (demo_request "255,0,0") (mkYOLO "yolov8s.pt" 1)))) ∧
  upload_in_memory (demo_request "255,0,0") = true ∧
  model_file (selected_model (demo_request "255,0,0")) = Ok (det_weights (mkYOLO "yolov8s.pt" 1)).
Proof.
  assert (Hr : server_reachable demo_started).
  { apply (run_reachable [Start 0; Switch "yolov8x"; Start 1] demo_server);
      [by apply (sr_init _ [demo_request "255,0,0"; with_defaults []])|reflexivity]. }
  assert (Hi : tasks demo_started !! 0 =
               Some (Finished (demo_request "255,0,0") (Some (mkYOLO "yolov8s.pt" 1))
                      (outcome_of (process (demo_request "255,0,0") (mkYOLO "yolov8s.pt" 1)))))
    by reflexivity.
  assert (Hm : upload_in_memory (demo_request "255,0,0") = true) by reflexivity.
  refine (conj Hr (conj Hi (conj Hm _))).
  exact (small_uploads_own_model _ _ _ _ _ Hr Hi Hm).
Defined.

End Concurrency.
