(* ===== verification/StreamlitUI.v ===== *)
(** * The Streamlit client (src/streamlit/app.py)

    Streamlit runs the script from the top on every interaction.  The
    page holds a title, an uploader, six widgets (a select box for the
    model, line 17, and five sliders, lines 18-22) and, once a file is
    uploaded, the original image and a button (lines 25-29).  The run the
    button triggers posts the upload with the six values as query
    parameters to [/processar_imagem/] (lines 33-42).  The three colours
    are not sent, so the API takes its defaults for them.  On status 200
    the page opens the body with PIL and shows the image (lines 44-47);
    on any other status it shows an error banner (line 49).

    [ui_settings] is the widget state and [ui_request] the request of
    lines 33-42.  [ui_http_request] is that request as the HTTP call of
    line 42, answered by [Http.serve].  [show_response] is lines 44-49,
    [process_click] the click against the server's globals, and
    [page_run] one whole run of the script, with the server up or down.

    The theorems:
    - end to end, a click with an RGB or RGBA upload goes through the
      router and the whole pipeline without raising, and the page gets
      what the encoder made of the annotated canvas;
    - a request built from the widgets names a model the API has, and
      always switches the server to it;
    - it can fail only where the image is decoded or where a class is
      looked up, never on a colour, the border or the text thickness;
    - the endpoint's JSON error for a failed encode comes with status
      200, so the page hands the JSON to [Image.open] and crashes instead
      of showing its banner;
    - a run changes the server only on a click with a file;
    - the banner that says to check whether the API runs appears only
      when it does run. *)

From S2P Require Import Prelude PyStr Registry Imaging Raster Annotate Handler Http.
From Stdlib Require String.

Import PyString Registry Imaging Annotate Handler Http.

Local Open Scope Z_scope.

Module StreamlitUI.

(** ** Data *)

(** The options of the select box (line 17). *)
Definition model_options : list string := ["yolov8n"; "yolov8s"; "yolov8m"; "yolov8l"; "yolov8x"].

(** The values of the six widgets (lines 17-22). *)
Record ui_settings := mkUi {
  ui_model : string;
  ui_min_confidence : Q;
  ui_pad_thickness : Z;
  ui_text_scale : Q;
  ui_text_thickness : Z;
  ui_bg_opacity : Q;
}.

(** The value of each widget before the user moves it: the first option
    of the select box, the third argument of each slider. *)
Definition ui_defaults : ui_settings := mkUi "yolov8n" (1#2) 2 (1#2) 2 (1#2).

(** The values the widgets can take: an option of the select box, and a
    value between the bounds of each slider. *)
Definition ui_in_range (u : ui_settings) : bool :=
  bool_decide (ui_model u ∈ model_options) &&
  Qle_bool 0 (ui_min_confidence u) && Qle_bool (ui_min_confidence u) 1 &&
  (1 <=? ui_pad_thickness u) && (ui_pad_thickness u <=? 10) &&
  Qle_bool (1#10) (ui_text_scale u) && Qle_bool (ui_text_scale u) 2 &&
  (1 <=? ui_text_thickness u) && (ui_text_thickness u <=? 5) &&
  Qle_bool 0 (ui_bg_opacity u) && Qle_bool (ui_bg_opacity u) 1.

(** Lines 33-42: the six parameters.  The colours are the API's query
    defaults (lines 48, 51 and 52). *)
Definition ui_request (upload : list Byte.byte) (u : ui_settings) : request :=
  mkRequest upload (ui_model u) (ui_min_confidence u) (ui_pad_thickness u) "50,50,50"
            (ui_text_scale u) (ui_text_thickness u) "255,255,255" "0,0,0" (ui_bg_opacity u).

(** Line 7 and the URL of line 42. *)
Definition API_URL : string := "http://localhost:8080".

(** [requests.post(f"{API_URL}/processar_imagem/", files=..., params=...)]
    (line 42): the path of the URL, the upload and the parameters. *)
Definition ui_http_request (upload : list Byte.byte) (u : ui_settings) : http_request :=
  mkHttpRequest POST "/processar_imagem/" None (Some (ui_request upload u)).

(** What the page shows after the click. *)
Inductive view :=
| Shown (img : pil_array)
| ErrorBanner
| Crashed (e : exc).

(** What the script writes on the page, in order: the title (line 10),
    the uploader (13), the sidebar header (16), the six widgets (17-22),
    the original image (26), the button (29), and what the click
    produced: the processed image (47), the error banner (49) or the
    traceback Streamlit shows when the script raises.  The spinner of
    line 30 is shown only while the request runs and is not modelled. *)
Inductive element :=
| Title (s : string)
| FileUploader
| SidebarHeader (s : string)
| Widgets
| OriginalImage (data : list Byte.byte)
| ProcessButton
| ProcessedImage (img : pil_array)
| ErrorMessage (s : string)
| Traceback (e : exc).

(** The API server: running with its globals, or not listening. *)
Inductive api := ApiUp (g : globals) | ApiDown.

Definition error_text : string := "Erro ao processar a imagem. Verifique se a API está rodando.".

Definition view_element (v : view) : element :=
  match v with
  | Shown a => ProcessedImage a
  | ErrorBanner => ErrorMessage error_text
  | Crashed e => Traceback e
  end.

Definition page_header : list element :=
  [Title "Detecção de Objetos com YOLO 🚀"; FileUploader;
   SidebarHeader "Configurações da Detecção"; Widgets].

Section page.
Context `{Raster} `{Backend}.

(** Lines 44-49. *)
Definition show_response (r : http_response) : view :=
  if status r =? 200 then
    match pil_open (body_bytes (resp_body r)) with
    | Some a => Shown a
    | None => Crashed UnidentifiedImageError
    end
  else ErrorBanner.

(** Lines 31-49 against the server state [g]. *)
Definition process_click (upload : list Byte.byte) (u : ui_settings) (g : globals) : view * globals :=
  let '(r, g') := serve (ui_http_request upload u) g in (show_response r, g').

(** One run of the script, which Streamlit repeats on every interaction
    (lines 10-49): [upload] is the uploader's file, [clicked] whether the
    button triggered this run.  [requests.post] raises [ConnectionError]
    when nothing listens at [API_URL]. *)
Definition page_run (upload : option (list Byte.byte)) (clicked : bool) (u : ui_settings)
    (server : api) : list element * api :=
  match upload with
  | None => (page_header, server)
  | Some data =>
      let shown := page_header ++ [OriginalImage data; ProcessButton] in
      if clicked then
        match server with
        | ApiDown => (shown ++ [Traceback ConnectionError], ApiDown)
        | ApiUp g => let '(v, g') := process_click data u g in (shown ++ [view_element v], ApiUp g')
        end
      else (shown, server)
  end.

(** ** Lemmas *)

Lemma options_known v : v ∈ model_options → v ∈ dom modelFiles.
Proof.
  intros Hv. repeat (apply elem_of_cons in Hv as [->|Hv];
    [apply (bool_decide_unpack _); vm_compute; reflexivity|]).
  by apply elem_of_nil in Hv.
Qed.

Lemma ui_in_range_inv u :
  ui_in_range u = true →
  ui_model u ∈ model_options ∧ 1 <= ui_pad_thickness u <= 10 ∧ 1 <= ui_text_thickness u <= 5.
Proof.
  unfold ui_in_range. rewrite !andb_true_iff, !Z.leb_le, bool_decide_eq_true.
  intros Hr. destruct_and! Hr. split_and!; [done|lia..].
Qed.

Lemma ui_colors :
  parse_color "50,50,50" = Ok [50; 50; 50] ∧ parse_color "255,255,255" = Ok [255; 255; 255] ∧
  parse_color "0,0,0" = Ok [0; 0; 0].
Proof. split_and!; reflexivity. Qed.

(** The page's request raises only at decoding, at the colour
    conversion, or at a kept box whose class has no name. *)
Lemma ui_annotated_Raise up u det e :
  ui_in_range u = true → annotated (ui_request up u) det = Raise e →
  (pil_open up = None ∧ e = UnidentifiedImageError) ∨
  (∃ a, pil_open up = Some a ∧ cvtColor_RGB2BGR a = Raise e) ∨
  (∃ a img, pil_open up = Some a ∧ cvtColor_RGB2BGR a = Ok img ∧ e = KeyError ∧
     ∃ b, b ∈ all_boxes (yolo_infer det img) ∧
          unnamed_kept (style_of (ui_request up u)) (yolo_names det) b).
Proof.
  intros Hu. destruct (ui_in_range_inv u Hu) as (_ & Hpad & Htext).
  destruct ui_colors as (H1 & H2 & H3).
  apply (annotated_Raise_cause (ui_request up u) _ _ _ _ _ H1 H2 H3); try reflexivity;
    simpl; unfold INT_MAX; lia.
Qed.

(** ** Theorems *)

(** C29: A request built from the widgets names a model the API has: the
    five options of the select box are the keys of [modelFiles], so from
    well-formed globals the endpoint switches to it (no [KeyError] at
    line 59) and runs the detection with its weights. *)
Theorem ui_request_accepted up u g :
  ui_in_range u = true → globals_wf g →
  ∃ g', processar_imagem (ui_request up u) g =
          (outcome_of (process (ui_request up u) (detector g')), g') ∧
        currentModel g' = ui_model u ∧ globals_wf g'.
Proof.
  intros Hu Hg. destruct (ui_in_range_inv u Hu) as (Hm & _).
  destruct (swap_model_known (ui_model u) g) as (g' & Hs & Hc & Hw');
    [by apply options_known|done|].
  exists g'. unfold processar_imagem. simpl. by rewrite Hs.
Qed.

(** The page never sends a colour or a border the API rejects: a
    request built from the widgets can raise only when PIL cannot
    identify the upload, when the decoded image has neither 3 nor 4
    channels, or when a class index is missing from [detector.names]. *)
Lemma ui_request_errors up u det e :
  ui_in_range u = true → annotated (ui_request up u) det = Raise e →
  e = UnidentifiedImageError ∨ e = CvError "Invalid number of channels in input image" ∨
  e = KeyError.
Proof.
  intros Hu He. destruct (ui_annotated_Raise _ _ _ _ Hu He)
    as [[_ ->]|[(a & _ & Hc)|(a & img & _ & _ & -> & _)]]; auto.
  right; left. by eapply cvtColor_Raise.
Qed.

(** C28: When the encode fails, the endpoint returns its JSON error with
    status 200 (line 119); the page takes every 200 for an image and
    hands the JSON to [Image.open], which raises, instead of showing its
    error banner (lines 44-49). *)
Theorem ui_json_error_crash up u g g' msg :
  processar_imagem (ui_request up u) g = (Returned (JsonError msg), g') →
  pil_open (body_bytes (JsonBody [("error", msg)])) = None →
  process_click up u g = (Crashed UnidentifiedImageError, g').
Proof.
  intros Hp Hj. unfold process_click, ui_http_request. rewrite serve_processar, Hp by done.
  cbv beta iota zeta delta [fst snd show_response image_response respond status resp_body].
  by rewrite Hj.
Qed.

(** C16: A run of the page changes the server's globals only when a file
    is uploaded and the button was pressed, and then exactly as
    [processar_imagem] on the page's request does. *)
Theorem page_run_state up c u g els g' :
  page_run up c u (ApiUp g) = (els, ApiUp g') → g' ≠ g →
  ∃ d, up = Some d ∧ c = true ∧ g' = (processar_imagem (ui_request d u) g).2.
Proof.
  intros Hr Hne. destruct up as [d|]; simpl in Hr; [|by simplify_eq].
  destruct c; [|by simplify_eq]. exists d. split_and!; [done|done|].
  revert Hr. unfold process_click, ui_http_request. rewrite serve_processar by done.
  destruct (processar_imagem _ _). simpl. by intros [= _ <-].
Qed.

(** C31: The banner "Verifique se a API está rodando" (line 49) never
    appears when the API is down: [requests.post] then raises and the page
    shows a traceback; the banner appears only for an answer of the
    running API with a status other than 200. *)
Theorem page_error_banner_api_up up c u server s :
  ErrorMessage s ∈ (page_run up c u server).1 → ∃ g, server = ApiUp g.
Proof.
  destruct server as [g|]; [eauto|]. unfold page_run, page_header.
  destruct up as [d|]; [destruct c|]; simpl; intros Hin;
    repeat (apply elem_of_cons in Hin as [Hin|Hin]; [discriminate|]); by apply elem_of_nil in Hin.
Qed.

(** C11: End to end, a click on the page with an image PIL decodes to
    RGB or RGBA reaches the JPEG encoder: the request goes through the
    router to [processar_imagem], the server switches to the chosen
    model, the whole pipeline runs without raising, and the page is left
    with exactly what the encoder made of the annotated canvas. *)
Theorem page_click_reaches_encoder `{!BackendLaws} up u g a :
  ui_in_range u = true → globals_wf g → pil_open up = Some a →
  (pa_channels a = 3 ∨ pa_channels a = 4)%nat →
  ∃ g' final, currentModel g' = ui_model u ∧
    annotated (ui_request up u) (detector g') = Ok final ∧
    process_click up u g = (show_response (image_response (Returned (encode_reply final))), g').
Proof.
  intros Hu Hg Ha Hch. destruct (ui_in_range_inv u Hu) as (Hm & _).
  destruct (swap_model_known (ui_model u) g) as (g' & Hs & Hc & _); [by apply options_known|done|].
  assert (Hok : ∃ final, annotated (ui_request up u) (detector g') = Ok final).
  { destruct (annotated _ _) as [final|e] eqn:E; [eauto|exfalso].
    destruct (ui_annotated_Raise _ _ _ _ Hu E)
      as [[Hn _]|[(a' & Ha' & Hc')|(a' & img & _ & _ & _ & b & Hb & _ & Hn)]].
    - congruence.
    - rewrite Ha in Ha'. injection Ha' as <-.
      destruct (cvtColor_channels_Ok a Hch) as [img Hi]. congruence.
    - destruct (yolo_names_total _ _ _ Hb) as [x Hx]. congruence. }
  destruct Hok as [final Hf]. exists g', final. split_and!; [done|done|].
  unfold process_click, ui_http_request. rewrite serve_processar by done.
  unfold processar_imagem. simpl. rewrite Hs.
  unfold process. by rewrite Hf.
Qed.

End page.

(** The page and the API disagree on three defaults: the minimum
    confidence (0.5 against 0.25), the border thickness (2 against 50)
    and the text scale (0.5 against 0.7), so an untouched page does not
    send what the API would do on its own. *)
Lemma ui_defaults_differ up :
  ¬ (min_confidence (ui_request up ui_defaults) == min_confidence (with_defaults up))%Q ∧
  pad_thickness (ui_request up ui_defaults) ≠ pad_thickness (with_defaults up) ∧
  ¬ (text_scale (ui_request up ui_defaults) == text_scale (with_defaults up))%Q.
Proof. unfold Qeq. simpl. lia. Qed.

(** ** Witnesses *)

Import ThinRaster.

(** A backend that decodes only the empty upload, detects nothing and
    cannot encode. *)
Definition ui_backend : Backend := {|
  pil_open d := if decide (d = []) then Some demo_pil else None;
  yolo_infer _ _ := [];
  yolo_names _ := ∅;
  imencode_jpg _ := None;
|}.

#[local] Instance ui_backend_inst : Backend := ui_backend.

#[local] Instance ui_backend_laws : BackendLaws.
Proof.
  split.
  - intros d a. simpl. case_decide; [intros [= <-] _|discriminate].
    repeat constructor; unfold is_u8; lia.
  - intros det img b. simpl. by rewrite elem_of_nil.
Qed.

Definition ui_moved : ui_settings := mkUi "yolov8m" (9#10) 10 2 5 1.

Lemma ui_request_accepted_witness :
  ui_in_range ui_moved = true ∧ globals_wf g0 ∧
  ∃ g', processar_imagem (ui_request [] ui_moved) g0 =
          (outcome_of (process (ui_request [] ui_moved) (detector g')), g') ∧
        currentModel g' = ui_model ui_moved ∧ globals_wf g'.
Proof.
  assert (Hu : ui_in_range ui_moved = true) by reflexivity.
  refine (conj Hu (conj g0_wf _)). exact (ui_request_accepted _ _ _ Hu g0_wf).
Defined.

Definition g_m : globals := mkGlobals "yolov8m" (mkYOLO "yolov8m.pt" 1) 2.

Lemma ui_json_error_crash_witness :
  processar_imagem (ui_request [] ui_moved) g0 = (Returned (JsonError "Falha ao codificar a imagem."), g_m) ∧
  pil_open (body_bytes (JsonBody [("error", "Falha ao codificar a imagem.")])) = None ∧
  process_click [] ui_moved g0 = (Crashed UnidentifiedImageError, g_m).
Proof.
  assert (Hp : processar_imagem (ui_request [] ui_moved) g0 =
               (Returned (JsonError "Falha ao codificar a imagem."), g_m)) by (vm_compute; reflexivity).
  assert (Hj : pil_open (body_bytes (JsonBody [("error", "Falha ao codificar a imagem.")])) = None)
    by reflexivity.
  refine (conj Hp (conj Hj _)). exact (ui_json_error_crash _ _ _ _ _ Hp Hj).
Defined.

Lemma page_run_state_witness :
  page_run (Some []) true ui_moved (ApiUp g0) = ((page_run (Some []) true ui_moved (ApiUp g0)).1, ApiUp g_m) ∧
  g_m ≠ g0 ∧
  ∃ d, Some [] = Some d ∧ true = true ∧ g_m = (processar_imagem (ui_request d ui_moved) g0).2.
Proof.
  assert (Hr : page_run (Some []) true ui_moved (ApiUp g0) =
               ((page_run (Some []) true ui_moved (ApiUp g0)).1, ApiUp g_m)) by (vm_compute; reflexivity).
  assert (Hne : g_m ≠ g0) by discriminate.
  refine (conj Hr (conj Hne _)). exact (page_run_state _ _ _ _ _ _ Hr Hne).
Defined.

Lemma page_error_banner_api_up_witness :
  ErrorMessage error_text ∈ (page_run (Some [Byte.x00]) true ui_moved (ApiUp g0)).1 ∧
  ∃ g, ApiUp g0 = ApiUp g.
Proof.
  assert (Hin : ErrorMessage error_text ∈ (page_run (Some [Byte.x00]) true ui_moved (ApiUp g0)).1)
    by (vm_compute; repeat constructor).
  split; [exact Hin|]. exact (page_error_banner_api_up _ _ _ _ _ Hin).
Defined.

Lemma page_click_reaches_encoder_witness :
  ui_in_range ui_moved = true ∧ globals_wf g0 ∧ pil_open [] = Some demo_pil ∧
  (pa_channels demo_pil = 3 ∨ pa_channels demo_pil = 4)%nat ∧
  ∃ g' final, currentModel g' = ui_model ui_moved ∧
    annotated (ui_request [] ui_moved) (detector g') = Ok final ∧
    process_click [] ui_moved g0 = (show_response (image_response (Returned (encode_reply final))), g').
Proof.
  assert (Hu : ui_in_range ui_moved = true) by reflexivity.
  assert (Hp : pil_open [] = Some demo_pil) by reflexivity.
  assert (Hc : (pa_channels demo_pil = 3 ∨ pa_channels demo_pil = 4)%nat) by (left; reflexivity).
  refine (conj Hu (conj g0_wf (conj Hp (conj Hc _)))).
  exact (page_click_reaches_encoder _ _ _ _ Hu g0_wf Hp Hc).
Defined.

End StreamlitUI.
